(** * Autonomous warehouse: the decision engine of the MAPE-K loop

    A shallow embedding of the analyse / plan / execute stages of the
    inventory controller (analyzer.py, planner.py, executor.py) over the
    knowledge store (knowledge.py) and the static catalogue (config.py).

    Number model.  Python [int] is [Z].  Python [float] is a rational [Q];
    comparisons, [min], [max] and [abs] are the rational ones.  Rounding is
    represented where the code compares a computed quotient with a constant
    that plain integer data reach exactly: in the z-score of the analyzer
    and in the days of cover of the planner the last bit decides.  The
    values that enter these two tests (the mean and the standard deviation
    of the window, today's demand, the difference and the quotients) are
    rounded as the interpreter rounds them, with [Py.fl], the rounding to
    the nearest binary64 number.  Everywhere else the four operations are
    the exact rational ones and rounding error is not represented; nor is
    overflow to infinity.

    The functions of the C math library that the code calls ([math.sqrt],
    [math.erf], [math.exp], [math.pi] and the power operator with a
    fractional exponent) are not rational functions; they are the fields of
    the interface [Libm], and every result below holds for every
    implementation of that interface unless a hypothesis says otherwise.

    State and errors.  The knowledge store is a record passed in and out of
    every stage.  A function that can raise returns an [option], [None]
    standing for the exception ([IndexError] in the extraction of [plan],
    [KeyError] in the executor).

    Containers.  Dictionaries keyed by product id whose iteration order is
    never observed are [gmap string _]; dictionaries that are iterated
    ([config.PRODUCTS], [sku_cands], [plan['orders']], the pruning table
    [best]) are association lists in insertion order.

    The solver.  [plan] hands a binary programme to an external solver
    ([pulp] with the CBC back end) and reads the values of the variables
    back.  The solver is a parameter of [plan]; what the source assumes of
    it is stated as [planner.solved].  [backends] holds solvers written
    in Rocq, among them an exhaustive search proved exact. *)

From Stdlib Require Import ZArith QArith Qround Qminmax Qabs Lqa Lia List.
From stdpp Require Import gmap strings.
Import ListNotations.

(* ------------------------------------------------------------------ *)
(** ** Python built-ins used by the source *)

Module Py.

(** [x < y] on floats, as a boolean. *)
Definition Qltb (x y : Q) : bool := negb (Qle_bool y x).

(** [round(x)] with one argument: nearest integer, ties to the even one. *)
Definition round (x : Q) : Z :=
  let f := Qfloor x in
  match (x - inject_Z f ?= 1 # 2)%Q with
  | Lt => f
  | Gt => (f + 1)%Z
  | Eq => if Z.even f then f else (f + 1)%Z
  end.

(** [round(x, 2)]. *)
Definition round2 (x : Q) : Q := (inject_Z (round (x * 100)) / 100)%Q.

(** [ilog2 x], for [x] other than 0: the exponent [e] with
    [2^e <= |x| < 2^(e+1)]. *)
Definition ilog2 (x : Q) : Z :=
  let n := Z.abs (Qnum x) in
  let d := Zpos (Qden x) in
  let e := (Z.log2 n - Z.log2 d)%Z in
  if Qle_bool (Qpower 2 e) (Qabs x) then e else (e - 1)%Z.

(** [fl x]: the binary64 number nearest to [x], ties to the even
    significand; 53 bits of significand, and the fixed spacing [2^-1074]
    below the normal range.  It is the result of one float operation whose
    exact value is [x]. *)
Definition fl (x : Q) : Q :=
  let x := Qred x in
  if Qeq_bool x 0 then 0%Q
  else
    let e := ilog2 x in
    let ulp := Qpower 2 (Z.max (e - 52) (-1074)) in
    Qred (inject_Z (round (x / ulp)) * ulp).

(** [float(n)] for an [int]. *)
Definition float_of_int (n : Z) : Q := fl (inject_Z n).

(** [sum] over floats and over ints. *)
Definition fsum (xs : list Q) : Q := fold_left Qplus xs 0%Q.
Definition isum (xs : list Z) : Z := fold_left Z.add xs 0%Z.

(** [xs[-n:]] for [n > 0]: the last [n] elements, all of them when the
    list is shorter. *)
Definition last_n {A} (n : nat) (xs : list A) : list A :=
  skipn (length xs - n) xs.

(** An insertion-ordered dictionary with integer keys.  Assigning to a key
    that is present replaces its value in place; a fresh key goes last. *)
Fixpoint dict_get {V} (k : Z) (d : list (Z * V)) : option V :=
  match d with
  | [] => None
  | (k', v) :: d' => if (k =? k')%Z then Some v else dict_get k d'
  end.

Fixpoint dict_set {V} (k : Z) (v : V) (d : list (Z * V)) : list (Z * V) :=
  match d with
  | [] => [(k, v)]
  | (k', v') :: d' =>
      if (k =? k')%Z then (k, v) :: d' else (k', v') :: dict_set k v d'
  end.

Definition dict_values {V} (d : list (Z * V)) : list V := map snd d.

End Py.

(** The part of the C math library the planner and the statistics module
    call.  [m_pow x y] is [x ** y]. *)
Class Libm := {
  m_sqrt : Q -> Q;
  m_erf : Q -> Q;
  m_exp : Q -> Q;
  m_pi : Q;
  m_pow : Q -> Q -> Q
}.

(* ------------------------------------------------------------------ *)
(** ** config.py *)

Module config.

Record Product := {
  name : string;
  daily_demand_mean : Q;
  daily_demand_std : Q;
  unit_price : Q;
  unit_cost : Q;
  holding_cost_per_unit_day : Q;
  order_fixed_cost : Q;
  lead_time_days : Z * Z;
  initial_stock : Z
}.

Definition DAILY_BUDGET_HIGH_DEMAND : Q := 42000.
Definition DAILY_BUDGET_SUPPLY_ISSUES : Q := 35000.
Definition SERVICE_LEVEL_TARGET : Q := 0.95.
Definition INITIAL_BUDGET : Q := 30000.
Definition DAILY_BUDGET_LIMIT : Q := 30000.
Definition BULLWHIP_LAMBDA : Q := 1.
Definition CANDIDATE_QTYS : list Z := [0; 25; 50; 75; 100; 150; 200; 250]%Z.
Definition STOCKOUT_PENALTY_PER_UNIT : Q := 300.
Definition OVERSTOCK_DAYS_OF_COVER : Z := 45.
Definition STOP_ORDERS_DAYS : Z := 2.
Definition Z_BASE : Q := 2.5.
Definition Z_MIN : Q := 2.
Definition Z_MAX : Q := 3.5.
Definition VOL_TO_Z_SCALE : Q := 0.12.
Definition FORECAST_WINDOW_DAYS : Z := 14.
Definition ANOMALY_Z_THRESHOLD : Q := 2.

Definition PRODUCTS : list (string * Product) :=
  [ ("SKU_001",
     {| name := "Laptop"; daily_demand_mean := 20; daily_demand_std := 4;
        unit_price := 1000; unit_cost := 550;
        holding_cost_per_unit_day := 0.3; order_fixed_cost := 50;
        lead_time_days := (2, 4)%Z; initial_stock := 550 |});
    ("SKU_002",
     {| name := "Phone"; daily_demand_mean := 35; daily_demand_std := 8;
        unit_price := 700; unit_cost := 350;
        holding_cost_per_unit_day := 0.25; order_fixed_cost := 45;
        lead_time_days := (2, 5)%Z; initial_stock := 750 |});
    ("SKU_003",
     {| name := "Headphones"; daily_demand_mean := 55; daily_demand_std := 15;
        unit_price := 120; unit_cost := 45;
        holding_cost_per_unit_day := 0.08; order_fixed_cost := 25;
        lead_time_days := (1, 3)%Z; initial_stock := 550 |});
    ("SKU_004",
     {| name := "Mouse"; daily_demand_mean := 70; daily_demand_std := 18;
        unit_price := 35; unit_cost := 8;
        holding_cost_per_unit_day := 0.02; order_fixed_cost := 15;
        lead_time_days := (1, 2)%Z; initial_stock := 700 |}) ].

(** [config.PRODUCTS[sku]]; [None] stands for the [KeyError]. *)
Fixpoint lookup_product (sku : string) (ps : list (string * Product))
  : option Product :=
  match ps with
  | [] => None
  | (k, p) :: ps' => if String.eqb sku k then Some p else lookup_product sku ps'
  end.

Definition skus : list string := map fst PRODUCTS.

End config.

(* ------------------------------------------------------------------ *)
(** ** knowledge/knowledge.py *)

Module knowledge.

Record OrderRecord := {
  or_day : Z; or_sku : string; or_qty : Z; or_spend : Q
}.

(** One entry of [history[sku]]: [{'day','demand','sales','lost_sales'}]. *)
Record DemandRecord := {
  d_day : Z; d_demand : Z; d_sales : Z; d_lost_sales : Z
}.

(** One entry of [pending_orders]. *)
Record PendingRecord := {
  po_sku : string; po_qty : Z; po_arrival_day : Z; po_unit_cost : Q
}.

Record ForecastRecord := { f_mean : Q; f_std : Q; f_model : string }.

Inductive AnomalyType := spike | drop.

(** [{'type','z','today','mean'}]. *)
Record AnomalyRecord := {
  a_type : AnomalyType; a_z : Q; a_today : Q; a_mean : Q
}.

Record Knowledge := {
  day : Z;
  budget : Q;
  stock_levels : gmap string Z;
  pending_orders : list PendingRecord;
  history : gmap string (list DemandRecord);
  orders : gmap string (list OrderRecord);
  forecast : gmap string ForecastRecord;
  volatility : gmap string Q;
  service_level : gmap string Q;
  anomalies : gmap string AnomalyRecord;
  policies : gmap string Q;
  daily_budget_spent : Q;
  safety_z : gmap string Q;
  blocks : gmap string Z
}.

(** Field assignments [self.f = v]. *)
Definition set_day (v : Z) (kb : Knowledge) : Knowledge :=
  {| day := v; budget := budget kb; stock_levels := stock_levels kb;
     pending_orders := pending_orders kb; history := history kb;
     orders := orders kb; forecast := forecast kb;
     volatility := volatility kb; service_level := service_level kb;
     anomalies := anomalies kb; policies := policies kb;
     daily_budget_spent := daily_budget_spent kb;
     safety_z := safety_z kb; blocks := blocks kb |}.

Definition set_budget (v : Q) (kb : Knowledge) : Knowledge :=
  {| day := day kb; budget := v; stock_levels := stock_levels kb;
     pending_orders := pending_orders kb; history := history kb;
     orders := orders kb; forecast := forecast kb;
     volatility := volatility kb; service_level := service_level kb;
     anomalies := anomalies kb; policies := policies kb;
     daily_budget_spent := daily_budget_spent kb;
     safety_z := safety_z kb; blocks := blocks kb |}.

Definition set_orders (v : gmap string (list OrderRecord)) (kb : Knowledge)
  : Knowledge :=
  {| day := day kb; budget := budget kb; stock_levels := stock_levels kb;
     pending_orders := pending_orders kb; history := history kb;
     orders := v; forecast := forecast kb;
     volatility := volatility kb; service_level := service_level kb;
     anomalies := anomalies kb; policies := policies kb;
     daily_budget_spent := daily_budget_spent kb;
     safety_z := safety_z kb; blocks := blocks kb |}.

Definition set_forecast (v : gmap string ForecastRecord) (kb : Knowledge)
  : Knowledge :=
  {| day := day kb; budget := budget kb; stock_levels := stock_levels kb;
     pending_orders := pending_orders kb; history := history kb;
     orders := orders kb; forecast := v;
     volatility := volatility kb; service_level := service_level kb;
     anomalies := anomalies kb; policies := policies kb;
     daily_budget_spent := daily_budget_spent kb;
     safety_z := safety_z kb; blocks := blocks kb |}.

Definition set_volatility (v : gmap string Q) (kb : Knowledge) : Knowledge :=
  {| day := day kb; budget := budget kb; stock_levels := stock_levels kb;
     pending_orders := pending_orders kb; history := history kb;
     orders := orders kb; forecast := forecast kb;
     volatility := v; service_level := service_level kb;
     anomalies := anomalies kb; policies := policies kb;
     daily_budget_spent := daily_budget_spent kb;
     safety_z := safety_z kb; blocks := blocks kb |}.

Definition set_service_level (v : gmap string Q) (kb : Knowledge)
  : Knowledge :=
  {| day := day kb; budget := budget kb; stock_levels := stock_levels kb;
     pending_orders := pending_orders kb; history := history kb;
     orders := orders kb; forecast := forecast kb;
     volatility := volatility kb; service_level := v;
     anomalies := anomalies kb; policies := policies kb;
     daily_budget_spent := daily_budget_spent kb;
     safety_z := safety_z kb; blocks := blocks kb |}.

Definition set_anomalies (v : gmap string AnomalyRecord) (kb : Knowledge)
  : Knowledge :=
  {| day := day kb; budget := budget kb; stock_levels := stock_levels kb;
     pending_orders := pending_orders kb; history := history kb;
     orders := orders kb; forecast := forecast kb;
     volatility := volatility kb; service_level := service_level kb;
     anomalies := v; policies := policies kb;
     daily_budget_spent := daily_budget_spent kb;
     safety_z := safety_z kb; blocks := blocks kb |}.

Definition set_daily_budget_spent (v : Q) (kb : Knowledge) : Knowledge :=
  {| day := day kb; budget := budget kb; stock_levels := stock_levels kb;
     pending_orders := pending_orders kb; history := history kb;
     orders := orders kb; forecast := forecast kb;
     volatility := volatility kb; service_level := service_level kb;
     anomalies := anomalies kb; policies := policies kb;
     daily_budget_spent := v;
     safety_z := safety_z kb; blocks := blocks kb |}.

Definition set_safety_z_map (v : gmap string Q) (kb : Knowledge) : Knowledge :=
  {| day := day kb; budget := budget kb; stock_levels := stock_levels kb;
     pending_orders := pending_orders kb; history := history kb;
     orders := orders kb; forecast := forecast kb;
     volatility := volatility kb; service_level := service_level kb;
     anomalies := anomalies kb; policies := policies kb;
     daily_budget_spent := daily_budget_spent kb;
     safety_z := v; blocks := blocks kb |}.

Definition set_blocks (v : gmap string Z) (kb : Knowledge) : Knowledge :=
  {| day := day kb; budget := budget kb; stock_levels := stock_levels kb;
     pending_orders := pending_orders kb; history := history kb;
     orders := orders kb; forecast := forecast kb;
     volatility := volatility kb; service_level := service_level kb;
     anomalies := anomalies kb; policies := policies kb;
     daily_budget_spent := daily_budget_spent kb;
     safety_z := safety_z kb; blocks := v |}.

(** [Knowledge.__init__]. *)
Definition init : Knowledge :=
  {| day := 0;
     budget := config.INITIAL_BUDGET;
     stock_levels :=
       list_to_map (map (fun '(sku, p) => (sku, config.initial_stock p))
                        config.PRODUCTS);
     pending_orders := [];
     history := list_to_map (map (fun sku => (sku, [])) config.skus);
     orders := list_to_map (map (fun sku => (sku, [])) config.skus);
     forecast := ∅;
     volatility := ∅;
     service_level := ∅;
     anomalies := ∅;
     policies :=
       <["service_level_target" := config.SERVICE_LEVEL_TARGET]>
         (<["daily_budget_limit" := config.DAILY_BUDGET_LIMIT]> ∅);
     daily_budget_spent := 0;
     safety_z := list_to_map (map (fun sku => (sku, config.Z_BASE)) config.skus);
     blocks := ∅ |}.

Definition update_day (d : Z) (kb : Knowledge) : Knowledge :=
  set_daily_budget_spent 0 (set_day d kb).

(** [self.orders[sku].append(OrderRecord(...))].  [__init__] creates the
    [history] and [orders] entry of every catalogue product and no method
    removes one, so indexing by a catalogue id never raises; the model
    reads an absent entry as the empty list. *)
Definition record_order (sku : string) (q : Z) (s : Q) (kb : Knowledge)
  : Knowledge :=
  set_orders
    (<[sku := default [] (orders kb !! sku)
              ++ [{| or_day := day kb; or_sku := sku;
                     or_qty := q; or_spend := s |}]]> (orders kb))
    kb.

Definition get_recent_history (kb : Knowledge) (sku : string)
    (window_days : Z) : list DemandRecord :=
  let h := default [] (history kb !! sku) in
  if (window_days <=? 0)%Z then h else Py.last_n (Z.to_nat window_days) h.

Definition get_stock (kb : Knowledge) (sku : string) : Z :=
  default 0%Z (stock_levels kb !! sku).

Definition get_stock_position (kb : Knowledge) (sku : string) : Z :=
  let on_hand := get_stock kb sku in
  let in_transit :=
    Py.isum (map po_qty
               (List.filter (fun o => String.eqb (po_sku o) sku)
                            (pending_orders kb))) in
  (on_hand + in_transit)%Z.

Definition get_last_order_qty (kb : Knowledge) (sku : string) : Z :=
  match last (default [] (orders kb !! sku)) with
  | None => 0%Z
  | Some r => or_qty r
  end.

Definition is_blocked (kb : Knowledge) (sku : string) : bool :=
  match blocks kb !! sku with
  | None => false
  | Some until => (day kb <=? until)%Z
  end.

Definition block_orders (sku : string) (days : Z) (kb : Knowledge)
  : Knowledge :=
  set_blocks (<[sku := (day kb + Z.max 0 days)%Z]> (blocks kb)) kb.

Definition store_forecast (sku : string) (m s : Q) (mdl : string)
    (kb : Knowledge) : Knowledge :=
  set_forecast
    (<[sku := {| f_mean := m; f_std := s; f_model := mdl |}]> (forecast kb)) kb.

Definition store_volatility (sku : string) (vol : Q) (kb : Knowledge)
  : Knowledge :=
  set_volatility (<[sku := vol]> (volatility kb)) kb.

Definition store_service_level (sku : string) (sl : Q) (kb : Knowledge)
  : Knowledge :=
  set_service_level (<[sku := sl]> (service_level kb)) kb.

Definition store_anomaly (sku : string) (anomaly : option AnomalyRecord)
    (kb : Knowledge) : Knowledge :=
  match anomaly with
  | None => set_anomalies (delete sku (anomalies kb)) kb
  | Some a => set_anomalies (<[sku := a]> (anomalies kb)) kb
  end.

Definition set_safety_z (sku : string) (z : Q) (kb : Knowledge) : Knowledge :=
  set_safety_z_map (<[sku := z]> (safety_z kb)) kb.

(** [update_stock_levels] and [set_pending_orders]: the snapshot replaces
    the field. *)
Definition update_stock_levels (stock : gmap string Z) (kb : Knowledge)
  : Knowledge :=
  {| day := day kb; budget := budget kb; stock_levels := stock;
     pending_orders := pending_orders kb; history := history kb;
     orders := orders kb; forecast := forecast kb;
     volatility := volatility kb; service_level := service_level kb;
     anomalies := anomalies kb; policies := policies kb;
     daily_budget_spent := daily_budget_spent kb;
     safety_z := safety_z kb; blocks := blocks kb |}.

Definition set_pending_orders (pending : list PendingRecord) (kb : Knowledge)
  : Knowledge :=
  {| day := day kb; budget := budget kb; stock_levels := stock_levels kb;
     pending_orders := pending; history := history kb;
     orders := orders kb; forecast := forecast kb;
     volatility := volatility kb; service_level := service_level kb;
     anomalies := anomalies kb; policies := policies kb;
     daily_budget_spent := daily_budget_spent kb;
     safety_z := safety_z kb; blocks := blocks kb |}.

Definition set_history (v : gmap string (list DemandRecord)) (kb : Knowledge)
  : Knowledge :=
  {| day := day kb; budget := budget kb; stock_levels := stock_levels kb;
     pending_orders := pending_orders kb; history := v;
     orders := orders kb; forecast := forecast kb;
     volatility := volatility kb; service_level := service_level kb;
     anomalies := anomalies kb; policies := policies kb;
     daily_budget_spent := daily_budget_spent kb;
     safety_z := safety_z kb; blocks := blocks kb |}.

(** An entry of [outcome['arrivals']]. *)
Record Arrival := { ar_sku : string; ar_qty : Z; ar_day : Z }.

(** The outcome of a day, as the environment reports it:
    [{'demand', 'sales', 'lost_sales', 'arrivals'}]. *)
Record Outcome := {
  out_demand : gmap string Z;
  out_sales : gmap string Z;
  out_lost_sales : gmap string Z;
  out_arrivals : list Arrival
}.

(** The record [record_outcome] appends for one product; a product missing
    from the outcome counts as 0. *)
Definition outcome_record (d : Z) (outcome : Outcome) (sku : string)
  : DemandRecord :=
  {| d_day := d;
     d_demand := default 0%Z (out_demand outcome !! sku);
     d_sales := default 0%Z (out_sales outcome !! sku);
     d_lost_sales := default 0%Z (out_lost_sales outcome !! sku) |}.

(** [record_outcome]: one record more in the history of every product that
    has a history. *)
Definition record_outcome (outcome : Outcome) (kb : Knowledge) : Knowledge :=
  set_history
    (map_imap (fun sku h => Some (h ++ [outcome_record (day kb) outcome sku]))
              (history kb))
    kb.

End knowledge.

(* ------------------------------------------------------------------ *)
(** ** statistics (Python standard library) *)

Module statistics.
Section with_libm.
Context `{Libm}.

(** The arithmetic mean of the samples, which the library computes with
    exact fractions. *)
Definition exact_mean (xs : list Q) : Q :=
  (Py.fsum xs / inject_Z (Z.of_nat (length xs)))%Q.

(** [statistics.mean]: the exact mean, converted to a float.  The source
    calls it, and [pstdev], on windows of two or more samples only. *)
Definition mean (xs : list Q) : Q := Py.fl (exact_mean xs).

(** [statistics.pvariance] and [statistics.pstdev]: the population variance
    around the exact mean, computed with exact fractions, and its square
    root as a float. *)
Definition pvariance (xs : list Q) : Q :=
  let m := exact_mean xs in
  (Py.fsum (map (fun x => (x - m) * (x - m)) xs)
   / inject_Z (Z.of_nat (length xs)))%Q.

Definition pstdev (xs : list Q) : Q := Py.fl (m_sqrt (pvariance xs)).
End with_libm.
End statistics.

(* ------------------------------------------------------------------ *)
(** ** automatic_manager/analyzer.py *)

Module analyzer.
Import config knowledge.

(** The result of [analyze]: [{'day': ..., 'anomalies': {...}}]. *)
Record Analysis := {
  an_day : Z;
  an_anomalies : list (string * AnomalyRecord)
}.

(** [Analyzer.__init__]: [self.window], [self.z_thr]. *)
Definition window : Z := FORECAST_WINDOW_DAYS.
Definition z_thr : Q := ANOMALY_Z_THRESHOLD.

Section with_libm.
Context `{Libm}.

Definition _mean_std (xs : list Q) : Q * Q :=
  match xs with
  | [] => (0, 1)%Q
  | [x] => (x, Qmax 1 (Qabs x * 0.25))%Q
  | _ =>
      let m := statistics.mean xs in
      let s := statistics.pstdev xs in
      (m, if Py.Qltb 1e-6 s then s else Qmax 1 (Qabs m * 0.25))%Q
  end.

(** Effective demand of a window: sales plus lost sales of each day, as a
    float. *)
Definition eff_demand (hist : list DemandRecord) : list Q :=
  map (fun r => Py.float_of_int (d_sales r + d_lost_sales r)) hist.

(** The z-score test of [analyze] (the [if hist:] block).  The subtraction
    and the division are float operations, each rounded. *)
Definition detect (hist : list DemandRecord) (mean std : Q)
  : option AnomalyRecord :=
  match last hist with
  | None => None
  | Some r =>
      let today := Py.float_of_int (d_sales r + d_lost_sales r) in
      let z :=
        Py.fl (Py.fl (today - mean)
               / (if Py.Qltb 1e-6 std then std else 1))%Q in
      if Py.Qltb z_thr z then
        Some {| a_type := spike; a_z := z; a_today := today; a_mean := mean |}
      else if Py.Qltb z (- z_thr) then
        Some {| a_type := drop; a_z := z; a_today := today; a_mean := mean |}
      else None
  end.

(** One iteration of the loop of [analyze]. *)
Definition analyze_sku (sku : string) (st : Knowledge * Analysis)
  : Knowledge * Analysis :=
  let '(kb, results) := st in
  let hist := get_recent_history kb sku window in
  let eff := eff_demand hist in
  let '(mean, std) := _mean_std eff in
  let kb := store_forecast sku mean std "moving_average" kb in
  let vol := if (1 <? length eff)%nat then statistics.pstdev eff else std in
  let kb := store_volatility sku vol kb in
  let sum_d := Py.isum (map d_demand hist) in
  let sum_s := Py.isum (map d_sales hist) in
  let sl := if (0 <? sum_d)%Z then (inject_Z sum_s / inject_Z sum_d)%Q
            else 1%Q in
  let kb := store_service_level sku sl kb in
  let anomaly := detect hist mean std in
  let kb := store_anomaly sku anomaly kb in
  match anomaly with
  | Some a =>
      (kb, {| an_day := an_day results;
              an_anomalies := an_anomalies results ++ [(sku, a)] |})
  | None => (kb, results)
  end.

Definition analyze (kb : Knowledge) : Knowledge * Analysis :=
  fold_left (fun st sku => analyze_sku sku st) skus
            (kb, {| an_day := day kb; an_anomalies := [] |}).

End with_libm.
End analyzer.

(* ------------------------------------------------------------------ *)
(** ** automatic_manager/planner.py *)

Module planner.
Import config knowledge.

Record Candidate := { qty : Z; utility : Q; spend : Q }.

(** An entry of [plan['orders']]. *)
Record Order := { o_qty : Z; o_expected_utility : Q; o_spend : Q }.

(** An entry of [plan['stop_orders']]. *)
Record StopOrder := { so_sku : string; so_days : Z }.

(** [plan['meta']]. *)
Record Meta := {
  budget_limit : Q;
  m_spend : Q;
  m_utility : Q;
  blocked_skus : list string
}.

Record Plan := {
  p_day : Z;
  p_orders : list (string * Order);
  p_stop_orders : list StopOrder;
  p_meta : Meta
}.

(** The binary programme handed to the solver: one 0/1 variable
    [x[(sku, i)]] per candidate [i] of every group, objective
    [sum x * utility] to maximise, one equation [sum_i x[(sku, i)] == 1]
    per group, and the inequality [sum x * spend <= lp_budget]. *)
Record LpProblem := {
  lp_groups : list (string * list Candidate);
  lp_budget : Q
}.

(** What [pulp.value(x[(sku, i)])] gives after [prob.solve]: a number, or
    [None] when the backend left the variable without a value. *)
Definition Valuation := string -> nat -> option Q.

(** The external solver ([prob.solve(pulp.PULP_CBC_CMD(msg=False))]). *)
Definition Solver := LpProblem -> Valuation.

(** The state carried by the candidate-generation loop of [plan]. *)
Record GenState := {
  g_kb : Knowledge;
  g_cands : list (string * list Candidate);
  g_blocked : list string;
  g_stop : list StopOrder
}.

Definition zero_candidate : Candidate :=
  {| qty := 0; utility := 0; spend := 0 |}.

Definition forecast_mean (kb : Knowledge) (sku : string) (dflt : Q) : Q :=
  match forecast kb !! sku with Some f => f_mean f | None => dflt end.

Definition forecast_std (kb : Knowledge) (sku : string) (dflt : Q) : Q :=
  match forecast kb !! sku with Some f => f_std f | None => dflt end.

(** [_is_overstock]: the division of the [int] by the float is a float
    operation, rounded. *)
Definition _is_overstock (sku : string) (mean_demand : Q) (stock_pos : Z)
  : bool :=
  if Qle_bool mean_demand 1 then false
  else
    let days_cover := Py.fl (Py.float_of_int stock_pos / mean_demand)%Q in
    Py.Qltb (Py.float_of_int OVERSTOCK_DAYS_OF_COVER) days_cover.

Definition _dynamic_z (sku : string) (kb : Knowledge) : Q * Knowledge :=
  let vol := default 1%Q (volatility kb !! sku) in
  let z := (Z_BASE + VOL_TO_Z_SCALE * vol)%Q in
  let z := Qmax Z_MIN (Qmin Z_MAX z) in
  (z, set_safety_z sku z kb).

(** The pruning loop of [plan]: keep, per rounded spend, the candidate of
    highest utility (the first one on ties), in order of first
    appearance of the rounded spend. *)
Definition prune_step (best : list (Z * Candidate)) (c : Candidate)
  : list (Z * Candidate) :=
  let b := Py.round (spend c) in
  match Py.dict_get b best with
  | None => Py.dict_set b c best
  | Some c0 =>
      if Py.Qltb (utility c0) (utility c) then Py.dict_set b c best else best
  end.

Definition prune (cands : list Candidate) : list Candidate :=
  Py.dict_values (fold_left prune_step cands []).

(** The extraction loop of [plan] for one product: the first candidate
    whose variable has a value above 0.5, else [cands[0]]. *)
Fixpoint first_selected (vals : nat -> option Q) (i : nat)
    (cands : list Candidate) : option Candidate :=
  match cands with
  | [] => None
  | c :: cs =>
      match vals i with
      | Some v =>
          if Py.Qltb 0.5 v then Some c else first_selected vals (S i) cs
      | None => first_selected vals (S i) cs
      end
  end.

(** [None] stands for the [IndexError] of [cands[0]] on an empty list. *)
Definition choose (vals : nat -> option Q) (cands : list Candidate)
  : option Candidate :=
  match cands with
  | [] => None
  | c0 :: _ => Some (default c0 (first_selected vals 0 cands))
  end.

Definition order_of (c : Candidate) : Order :=
  {| o_qty := qty c; o_expected_utility := utility c; o_spend := spend c |}.

(** The extraction loop over [sku_cands.items()], accumulating
    [plan['orders']], [total_spend] and [total_util]. *)
Fixpoint extract (x : Valuation) (groups : list (string * list Candidate))
    (acc : list (string * Order) * Q * Q)
  : option (list (string * Order) * Q * Q) :=
  match groups with
  | [] => Some acc
  | (sku, cands) :: gs =>
      match choose (x sku) cands with
      | None => None
      | Some chosen =>
          let '(ords, total_spend, total_util) := acc in
          extract x gs
            (ords ++ [(sku, order_of chosen)],
             (total_spend + spend chosen)%Q,
             (total_util + utility chosen)%Q)
      end
  end.

Section with_libm.
Context `{Libm}.

Definition _norm_cdf (z : Q) : Q :=
  (0.5 * (1 + m_erf (z / m_sqrt 2)))%Q.

Definition _norm_pdf (z : Q) : Q :=
  ((1 / m_sqrt (2 * m_pi)) * m_exp (- (0.5) * z * z))%Q.

Definition _expected_sales_stockout (mu sigma available : Q) : Q * Q :=
  if Qle_bool sigma 1e-6 then
    let sold := Qmin mu available in
    let stockout := Qmax 0 (mu - sold) in
    (Qmax 0 sold, stockout)
  else
    let z := ((available - mu) / sigma)%Q in
    let Phi := _norm_cdf z in
    let phi := _norm_pdf z in
    let expected_sales :=
      (mu * Phi + available * (1 - Phi) - sigma * phi)%Q in
    let expected_sales := Qmax 0 (Qmin available expected_sales) in
    let expected_stockout := Qmax 0 (mu - expected_sales) in
    (expected_sales, expected_stockout).

(** [candidate_utility(sku, qty)]; [p] is [config.PRODUCTS[sku]], which
    the callers obtain from the catalogue entry they iterate over.  The
    source also reads [kb.safety_z] into a local [z] that nothing uses; it
    is left out. *)
Definition candidate_utility (kb : Knowledge) (sku : string) (p : Product)
    (q : Z) : Candidate :=
  let mean := forecast_mean kb sku 0 in
  let std := forecast_std kb sku 1 in
  let '(ltmin, ltmax) := lead_time_days p in
  let lt := Z.max 1 (Py.round (inject_Z (ltmin + ltmax) / 2)) in
  let rapid :=
    match anomalies kb !! sku with
    | Some a => match a_type a with spike => true | drop => false end
    | None => false
    end in
  let mult := (mean * inject_Z lt)%Q in
  let sigma_lt := (std * m_sqrt (inject_Z lt))%Q in
  let stockpos := get_stock_position kb sku in
  let available := inject_Z (stockpos + q) in
  let mu := (mult * (if rapid then 1.5 else 1))%Q in
  let sigma := sigma_lt in
  let '(expected_sales, expected_stockout) :=
    _expected_sales_stockout mu sigma available in
  let revenue := (expected_sales * unit_price p)%Q in
  let ordercost :=
    (inject_Z q * unit_cost p
     + (if (0 <? q)%Z then order_fixed_cost p else 0))%Q in
  let leftover := Qmax 0 (available - expected_sales) in
  let holdingcost :=
    (leftover * holding_cost_per_unit_day p * inject_Z lt)%Q in
  let base_penalty := STOCKOUT_PENALTY_PER_UNIT in
  let price_weight := Qmax 1 (m_pow (unit_price p / 50) 1.2) in
  let current_sl := default 1%Q (service_level kb !! sku) in
  let sl_factor :=
    if Py.Qltb current_sl SERVICE_LEVEL_TARGET
    then (1 + (SERVICE_LEVEL_TARGET - current_sl) * 5)%Q else 1%Q in
  let stockout_penalty :=
    (expected_stockout * base_penalty * price_weight * sl_factor)%Q in
  let stockout_penalty := Qmin stockout_penalty 50000 in
  let prevq := get_last_order_qty kb sku in
  let bullwhip_penalty :=
    (BULLWHIP_LAMBDA * inject_Z (Z.abs (q - prevq)))%Q in
  let utility :=
    (revenue - ordercost - holdingcost - stockout_penalty
     - bullwhip_penalty)%Q in
  {| qty := q; utility := utility; spend := ordercost |}.

(** The service-level priority adjustment of [plan], which updates the
    utility of each candidate in place. *)
Definition shape (kb : Knowledge) (sku : string) (p : Product)
    (cands : list Candidate) : list Candidate :=
  let current_sl := default 1%Q (service_level kb !! sku) in
  let target_sl := SERVICE_LEVEL_TARGET in
  let mean_demand := Qmax 1 (forecast_mean kb sku 20) in
  let priority_weight := Qmax 1 (m_pow (unit_price p / 50) 1.3) in
  if Py.Qltb current_sl target_sl then
    let sl_deficit := (target_sl - current_sl)%Q in
    map (fun c =>
           if (qty c =? 0)%Z then
             let penalty :=
               (sl_deficit * mean_demand * 20000 * priority_weight)%Q in
             {| qty := qty c; utility := (utility c - penalty)%Q;
                spend := spend c |}
           else
             let bonus :=
               (sl_deficit * inject_Z (qty c) * 500 * priority_weight)%Q in
             {| qty := qty c; utility := (utility c + bonus)%Q;
                spend := spend c |})
        cands
  else if Py.Qltb current_sl (target_sl + 0.03) then
    map (fun c =>
           if (0 <? qty c)%Z then
             let bonus := (inject_Z (qty c) * 100 * priority_weight)%Q in
             {| qty := qty c; utility := (utility c + bonus)%Q;
                spend := spend c |}
           else c)
        cands
  else cands.

(** One iteration of the candidate-generation loop of [plan]. *)
Definition gen_step (st : GenState) (entry : string * Product) : GenState :=
  let '(sku, p) := entry in
  let kb := g_kb st in
  if is_blocked kb sku then
    {| g_kb := kb;
       g_cands := g_cands st ++ [(sku, [zero_candidate])];
       g_blocked := g_blocked st ++ [sku];
       g_stop := g_stop st |}
  else
    let mean := forecast_mean kb sku 0 in
    let stock_pos := get_stock_position kb sku in
    if _is_overstock sku mean stock_pos then
      {| g_kb := block_orders sku STOP_ORDERS_DAYS kb;
         g_cands := g_cands st ++ [(sku, [zero_candidate])];
         g_blocked := g_blocked st;
         g_stop := g_stop st
                   ++ [{| so_sku := sku; so_days := STOP_ORDERS_DAYS |}] |}
    else
      let cands := map (candidate_utility kb sku p) CANDIDATE_QTYS in
      let cands := shape kb sku p cands in
      {| g_kb := kb;
         g_cands := g_cands st ++ [(sku, prune cands)];
         g_blocked := g_blocked st;
         g_stop := g_stop st |}.

(** The first loop of [plan]: refresh every safety factor. *)
Definition refresh_safety (kb : Knowledge) : Knowledge :=
  fold_left (fun k sku => snd (_dynamic_z sku k)) skus kb.

(** Both loops before the solve. *)
Definition generate (kb : Knowledge) : GenState :=
  fold_left gen_step PRODUCTS
    {| g_kb := refresh_safety kb; g_cands := [];
       g_blocked := []; g_stop := [] |}.

(** The programme [plan] builds for the store [kb]. *)
Definition plan_problem (kb : Knowledge) : LpProblem :=
  {| lp_groups := g_cands (generate kb);
     lp_budget := DAILY_BUDGET_LIMIT |}.

(** [Planner.plan], returning the plan and the updated store. *)
Definition plan (solve : Solver) (kb : Knowledge)
  : option (Plan * Knowledge) :=
  let d := day kb in
  let st := generate kb in
  let sku_cands := g_cands st in
  let budget := DAILY_BUDGET_LIMIT in
  let prob := {| lp_groups := sku_cands; lp_budget := budget |} in
  let x := solve prob in
  match extract x sku_cands ([], 0%Q, 0%Q) with
  | None => None
  | Some (ords, total_spend, total_util) =>
      Some ({| p_day := d;
               p_orders := ords;
               p_stop_orders := g_stop st;
               p_meta := {| budget_limit := budget;
                            m_spend := Py.round2 total_spend;
                            m_utility := Py.round2 total_util;
                            blocked_skus := g_blocked st |} |},
            g_kb st)
  end.

End with_libm.

(** *** The constraints of the programme, as the code states them *)

(** [lpSum(x[(sku, i)] * w(c_i))] over the candidates of one group; a
    variable without a value counts as 0. *)
Fixpoint group_sum (vals : nat -> option Q) (w : Candidate -> Q) (i : nat)
    (cands : list Candidate) : Q :=
  match cands with
  | [] => 0%Q
  | c :: cs => (default 0%Q (vals i) * w c + group_sum vals w (S i) cs)%Q
  end.

Fixpoint total_sum (x : Valuation) (w : Candidate -> Q)
    (groups : list (string * list Candidate)) : Q :=
  match groups with
  | [] => 0%Q
  | (sku, cands) :: gs => (group_sum (x sku) w 0 cands + total_sum x w gs)%Q
  end.

(** A variable declared with [cat="Binary"] holds 0 or 1. *)
Definition binary (o : option Q) : Prop :=
  exists v, o = Some v /\ (v == 0 \/ v == 1)%Q.

Definition lp_feasible (P : LpProblem) (x : Valuation) : Prop :=
  (forall sku cands i, In (sku, cands) (lp_groups P) ->
      (i < length cands)%nat -> binary (x sku i))
  /\ (forall sku cands, In (sku, cands) (lp_groups P) ->
        (group_sum (x sku) (fun _ => 1%Q) 0 cands == 1)%Q)
  /\ (total_sum x spend (lp_groups P) <= lp_budget P)%Q.

(** What an exact solver guarantees on one programme: when the programme
    has a feasible point, the values it leaves in the variables form one. *)
Definition solved (solve : Solver) (P : LpProblem) : Prop :=
  (exists x, lp_feasible P x) -> lp_feasible P (solve P).

End planner.

(* ------------------------------------------------------------------ *)
(** ** environment/environment.py (the part the executor calls) *)

Module environment.
Import config.

Record PendingOrder := {
  e_sku : string; e_quantity : Z; e_arrival_day : Z; e_unit_cost : Q
}.

(** The dictionary [place_order] returns for a positive quantity. *)
Record OrderDetails := {
  od_sku : string; od_qty : Z; od_arrival_day : Z;
  od_lead_time : Z; od_unit_cost : Q
}.

(** [e_draws] counts the calls made to [self.rng] so far. *)
Record Environment := {
  e_day : Z;
  e_stock : gmap string Z;
  e_pending_orders : list PendingOrder;
  e_demand_multiplier : Q;
  e_lead_time_multiplier : Q;
  e_draws : nat
}.

Section with_rng.
(** [randint n a b] is the value of the [n]-th call
    [self.rng.randint(a, b)]. *)
Variable randint : nat -> Z -> Z -> Z.

(** [None] stands for the [KeyError] of [config.PRODUCTS[sku]]; the
    inner option is [None] for the empty dictionary returned when
    [qty <= 0]. *)
Definition place_order (env : Environment) (sku : string) (q : Z)
  : option (option OrderDetails * Environment) :=
  if (q <=? 0)%Z then Some (None, env)
  else
    match lookup_product sku PRODUCTS with
    | None => None
    | Some p =>
        let '(lt_min, lt_max) := lead_time_days p in
        let adjusted_lt_min :=
          Z.max 1 (Py.round (inject_Z lt_min * e_lead_time_multiplier env)) in
        let adjusted_lt_max :=
          Z.max 1 (Py.round (inject_Z lt_max * e_lead_time_multiplier env)) in
        let lead_time :=
          randint (e_draws env) adjusted_lt_min adjusted_lt_max in
        let arrival_day := (e_day env + lead_time)%Z in
        let order := {| e_sku := sku; e_quantity := q;
                        e_arrival_day := arrival_day;
                        e_unit_cost := unit_cost p |} in
        Some (Some {| od_sku := sku; od_qty := q;
                      od_arrival_day := arrival_day;
                      od_lead_time := lead_time;
                      od_unit_cost := unit_cost p |},
              {| e_day := e_day env;
                 e_stock := e_stock env;
                 e_pending_orders := e_pending_orders env ++ [order];
                 e_demand_multiplier := e_demand_multiplier env;
                 e_lead_time_multiplier := e_lead_time_multiplier env;
                 e_draws := S (e_draws env) |})
    end.
End with_rng.
(** *** The daily tick

    [last_outcome], which the record above leaves out, is what
    [tick_one_day] returns; the functions that read it through
    [get_last_outcome] take it as an argument. *)

Definition set_stock (v : gmap string Z) (env : Environment) : Environment :=
  {| e_day := e_day env; e_stock := v;
     e_pending_orders := e_pending_orders env;
     e_demand_multiplier := e_demand_multiplier env;
     e_lead_time_multiplier := e_lead_time_multiplier env;
     e_draws := e_draws env |}.

Definition set_draws (n : nat) (env : Environment) : Environment :=
  {| e_day := e_day env; e_stock := e_stock env;
     e_pending_orders := e_pending_orders env;
     e_demand_multiplier := e_demand_multiplier env;
     e_lead_time_multiplier := e_lead_time_multiplier env;
     e_draws := n |}.

(** [last_outcome] as [__init__] sets it. *)
Definition initial_outcome : knowledge.Outcome :=
  {| knowledge.out_demand := list_to_map (map (fun sku => (sku, 0%Z)) skus);
     knowledge.out_sales := list_to_map (map (fun sku => (sku, 0%Z)) skus);
     knowledge.out_lost_sales :=
       list_to_map (map (fun sku => (sku, 0%Z)) skus);
     knowledge.out_arrivals := [] |}.

(** The state of the arrivals loop of [tick_one_day]: [self.stock],
    [arrivals] and [remaining_orders]. *)
Record Receiving := {
  r_stock : gmap string Z;
  r_arrivals : list knowledge.Arrival;
  r_remaining : list PendingOrder
}.

(** One iteration of the arrivals loop; [None] stands for the [KeyError]
    of [self.stock[order.sku] += order.quantity]. *)
Definition receive (today : Z) (st : Receiving) (order : PendingOrder)
  : option Receiving :=
  if (e_arrival_day order <=? today)%Z then
    match r_stock st !! e_sku order with
    | None => None
    | Some s =>
        Some {| r_stock :=
                  <[e_sku order := (s + e_quantity order)%Z]> (r_stock st);
                r_arrivals :=
                  r_arrivals st
                  ++ [{| knowledge.ar_sku := e_sku order;
                         knowledge.ar_qty := e_quantity order;
                         knowledge.ar_day := today |}];
                r_remaining := r_remaining st |}
    end
  else
    Some {| r_stock := r_stock st; r_arrivals := r_arrivals st;
            r_remaining := r_remaining st ++ [order] |}.

Fixpoint receive_all (today : Z) (st : Receiving) (pending : list PendingOrder)
  : option Receiving :=
  match pending with
  | [] => Some st
  | o :: os =>
      match receive today st o with
      | None => None
      | Some st' => receive_all today st' os
      end
  end.

(** The state of the sales loop: the environment and the three
    dictionaries of the outcome. *)
Record Selling := {
  s_env : Environment;
  s_demand : gmap string Z;
  s_sales : gmap string Z;
  s_lost_sales : gmap string Z
}.

Section with_gauss.
(** [gauss n mu sigma] is the value of the [n]-th call to [self.rng] when
    that call is [gauss(mu, sigma)]. *)
Variable gauss : nat -> Q -> Q -> Q.

(** [None] stands for the [KeyError] of [config.PRODUCTS[sku]]. *)
Definition _generate_demand (env : Environment) (sku : string)
  : option (Z * Environment) :=
  match lookup_product sku PRODUCTS with
  | None => None
  | Some p =>
      let base_mean := daily_demand_mean p in
      let base_std := daily_demand_std p in
      let adjusted_mean := (base_mean * e_demand_multiplier env)%Q in
      let adjusted_std := (base_std * e_demand_multiplier env)%Q in
      let demand := gauss (e_draws env) adjusted_mean adjusted_std in
      Some (Z.max 0 (Py.round demand), set_draws (S (e_draws env)) env)
  end.

(** One iteration of the sales loop; [None] stands for a [KeyError], of
    the catalogue or of [self.stock[sku]]. *)
Definition sell (st : Selling) (sku : string) : option Selling :=
  match _generate_demand (s_env st) sku with
  | None => None
  | Some (d, env) =>
      match e_stock env !! sku with
      | None => None
      | Some available =>
          let sold := Z.min d available in
          let lost := (d - sold)%Z in
          Some {| s_env :=
                    set_stock (<[sku := (available - sold)%Z]> (e_stock env))
                              env;
                  s_demand := <[sku := d]> (s_demand st);
                  s_sales := <[sku := sold]> (s_sales st);
                  s_lost_sales := <[sku := lost]> (s_lost_sales st) |}
      end
  end.

Fixpoint sell_all (st : Selling) (ids : list string) : option Selling :=
  match ids with
  | [] => Some st
  | sku :: rest =>
      match sell st sku with
      | None => None
      | Some st' => sell_all st' rest
      end
  end.

(** [tick_one_day]: the outcome of the day and the environment after it. *)
Definition tick_one_day (env : Environment)
  : option (knowledge.Outcome * Environment) :=
  let today := (e_day env + 1)%Z in
  match receive_all today
          {| r_stock := e_stock env; r_arrivals := []; r_remaining := [] |}
          (e_pending_orders env) with
  | None => None
  | Some r =>
      let env1 :=
        {| e_day := today; e_stock := r_stock r;
           e_pending_orders := r_remaining r;
           e_demand_multiplier := e_demand_multiplier env;
           e_lead_time_multiplier := e_lead_time_multiplier env;
           e_draws := e_draws env |} in
      match sell_all {| s_env := env1; s_demand := ∅; s_sales := ∅;
                        s_lost_sales := ∅ |} skus with
      | None => None
      | Some s =>
          Some ({| knowledge.out_demand := s_demand s;
                   knowledge.out_sales := s_sales s;
                   knowledge.out_lost_sales := s_lost_sales s;
                   knowledge.out_arrivals := r_arrivals r |},
                s_env s)
      end
  end.
End with_gauss.

End environment.

(* ------------------------------------------------------------------ *)
(** ** automatic_manager/monitor.py *)

Module monitor.
Import config knowledge environment.

(** The dictionary [observe] returns; [supply_signal] is the empty
    dictionary the environment never fills. *)
Record Observation := {
  ob_day : Z; ob_stock : gmap string Z; ob_outcome : Outcome
}.

(** The entry of the pending-orders snapshot for one pending order. *)
Definition snapshot (po : PendingOrder) : PendingRecord :=
  {| po_sku := e_sku po; po_qty := e_quantity po;
     po_arrival_day := e_arrival_day po; po_unit_cost := e_unit_cost po |}.

(** [Monitor.observe], [outcome] being [self.env.get_last_outcome()]; the
    log line is left out. *)
Definition observe (env : Environment) (outcome : Outcome) (kb : Knowledge)
  : Observation * Knowledge :=
  let d := e_day env in
  let kb := update_day d kb in
  let stock_levels := e_stock env in
  let kb := update_stock_levels stock_levels kb in
  let pending := map snapshot (e_pending_orders env) in
  let kb := set_pending_orders pending kb in
  let kb := record_outcome outcome kb in
  ({| ob_day := d; ob_stock := stock_levels; ob_outcome := outcome |}, kb).

End monitor.

(* ------------------------------------------------------------------ *)
(** ** automatic_manager/executor.py *)

Module executor.
Import config knowledge environment planner.

(** An entry of [actions['orders_placed']]. *)
Record PlacedOrder := {
  pl_sku : string; pl_qty : Z;
  pl_lead_time : option OrderDetails; pl_spend : Q
}.

Record Actions := { orders_placed : list PlacedOrder; act_spend : Q }.

Record ExecState := {
  x_env : Environment; x_kb : Knowledge; x_actions : Actions
}.

Section with_rng.
Variable randint : nat -> Z -> Z -> Z.

(** One iteration of the loop of [execute]; [None] stands for the
    [KeyError] of [config.PRODUCTS[sku]]. *)
Definition execute_order (st : ExecState) (entry : string * Order)
  : option ExecState :=
  let '(sku, od) := entry in
  let q := o_qty od in
  if (q <=? 0)%Z then Some st
  else
    match lookup_product sku PRODUCTS with
    | None => None
    | Some p =>
        let spend := (inject_Z q * unit_cost p + order_fixed_cost p)%Q in
        if Py.Qltb (DAILY_BUDGET_LIMIT - daily_budget_spent (x_kb st)) spend
        then Some st
        else
          match place_order randint (x_env st) sku q with
          | None => None
          | Some (lead_time, env') =>
              let kb := set_budget (budget (x_kb st) - spend) (x_kb st) in
              let kb := record_order sku q spend kb in
              Some {| x_env := env'; x_kb := kb;
                      x_actions :=
                        {| orders_placed :=
                             orders_placed (x_actions st)
                             ++ [{| pl_sku := sku; pl_qty := q;
                                    pl_lead_time := lead_time;
                                    pl_spend := spend |}];
                           act_spend :=
                             (act_spend (x_actions st) + spend)%Q |} |}
          end
    end.

Fixpoint execute_orders (st : ExecState) (ords : list (string * Order))
  : option ExecState :=
  match ords with
  | [] => Some st
  | e :: es =>
      match execute_order st e with
      | None => None
      | Some st' => execute_orders st' es
      end
  end.

(** [Executor.execute]: the actions, and the environment and store it
    leaves behind. *)
Definition execute (env : Environment) (kb : Knowledge) (pl : Plan)
  : option (Actions * Environment * Knowledge) :=
  match execute_orders
          {| x_env := env; x_kb := kb;
             x_actions := {| orders_placed := []; act_spend := 0 |} |}
          (p_orders pl) with
  | None => None
  | Some st =>
      Some ({| orders_placed := orders_placed (x_actions st);
               act_spend := Py.round2 (act_spend (x_actions st)) |},
            x_env st, x_kb st)
  end.
End with_rng.
End executor.

(* ------------------------------------------------------------------ *)
(** ** Two math libraries and two solver back ends

    Concrete implementations of the two external interfaces, used to run the
    model on sample stores.  No result below depends on their accuracy.
    [fixedpoint] works to six decimal places, which is enough to run the
    planner; [binary64] replaces its square root by the correctly rounded
    one, with which the analyzer computes the floats of the interpreter. *)

Module fixedpoint.
Local Open Scope Q_scope.

(** Truncation to six decimal places. *)
Definition fix6 (q : Q) : Q := Qfloor (q * 1000000) # 1000000.

Definition sqrt (q : Q) : Q :=
  if Qle_bool q 0 then 0
  else Z.sqrt (Qfloor (q * 1000000000000)) # 1000000.

(** [sum_{k < n} x^k / k!], each term truncated. *)
Fixpoint exp_series (x : Q) (n : nat) (k : Z) (term acc : Q) : Q :=
  match n with
  | O => acc
  | S n' =>
      exp_series x n' (k + 1) (fix6 (term * x / inject_Z (k + 1)))
                 (acc + term)
  end.

(** The argument is halved five times and the result squared back. *)
Definition exp (x : Q) : Q :=
  if Qle_bool x (-30) then 0
  else Nat.iter 5 (fun y => fix6 (y * y)) (exp_series (x / 32) 14 0 1 0).

Definition pi : Q := 3.141593.

(** Abramowitz and Stegun, formula 7.1.26. *)
Definition erf (x : Q) : Q :=
  let a := Qabs x in
  let t := fix6 (1 / (1 + 0.3275911 * a)) in
  let poly :=
    t * (0.254829592 + t * (-0.284496736 + t * (1.421413741
         + t * (-1.453152027 + t * 1.061405429)))) in
  let r := fix6 (1 - poly * exp (- (a * a))) in
  if Qle_bool 0 x then r else - r.

(** [sum_{k < n} t^(2k+1) / (2k+1)]; twice this is the logarithm of
    [(1 + t) / (1 - t)]. *)
Fixpoint atanh_series (t2 : Q) (n : nat) (k : Z) (pw acc : Q) : Q :=
  match n with
  | O => acc
  | S n' =>
      atanh_series t2 n' (k + 1) (fix6 (pw * t2))
                   (acc + pw / inject_Z (2 * k + 1))
  end.

Definition ln2 : Q := 0.693147.

(** Bring the argument between 1/2 and 2 by halving or doubling. *)
Fixpoint ln_reduce (fuel : nat) (x : Q) (k : Z) : Q * Z :=
  match fuel with
  | O => (x, k)
  | S f =>
      if Qle_bool 2 x then ln_reduce f (x / 2) (k + 1)
      else if Qle_bool x (1 # 2) then ln_reduce f (x * 2) (k - 1)
      else (x, k)
  end.

Definition ln (x : Q) : Q :=
  let '(m, k) := ln_reduce 64 x 0 in
  let t := fix6 ((m - 1) / (m + 1)) in
  fix6 (2 * atanh_series (t * t) 12 0 t 0 + inject_Z k * ln2).

Definition pow (x y : Q) : Q :=
  if Qle_bool x 0 then 0 else exp (y * ln x).

Definition libm : Libm :=
  {| m_sqrt := sqrt; m_erf := erf; m_exp := exp; m_pi := pi; m_pow := pow |}.

End fixedpoint.

(** The math library with the square root of binary64: the root is taken
    to 300 binary places, which [Py.fl] then rounds to the nearest float,
    as [statistics.pstdev] and [math.sqrt] return it.  The other functions
    are those of [fixedpoint]. *)
Module binary64.

Definition sqrt (q : Q) : Q :=
  if Qle_bool q 0 then 0%Q
  else Py.fl (Z.sqrt (Qfloor (q * inject_Z (2 ^ 600))) # 2 ^ 300).

Definition libm : Libm :=
  {| m_sqrt := sqrt; m_erf := fixedpoint.erf; m_exp := fixedpoint.exp;
     m_pi := fixedpoint.pi; m_pow := fixedpoint.pow |}.

End binary64.

Module backends.
Import planner.

(** A back end that sets the variable of the first candidate of every
    group to 1 and all the others to 0. *)
Definition first_choice : Solver :=
  fun _ _ i => Some (if (i =? 0)%nat then 1%Q else 0%Q).

(** A back end that returns without a solution: no variable has a value. *)
Definition no_solution : Solver := fun _ _ _ => None.

(** An exact back end by exhaustive search: it enumerates every way of
    choosing one candidate per group, keeps those within the budget, and
    sets the variables of one of highest total utility; when no choice is
    within the budget it leaves every variable without a value. *)
Fixpoint assignments (groups : list (string * list Candidate))
  : list (list nat) :=
  match groups with
  | [] => [[]]
  | (_, cs) :: gs =>
      flat_map (fun i => map (cons i) (assignments gs)) (seq 0 (length cs))
  end.

Definition chosen_weight (w : Candidate -> Q) (cs : list Candidate) (k : nat)
  : Q :=
  match nth_error cs k with Some c => w c | None => 0%Q end.

Fixpoint assignment_total (w : Candidate -> Q)
    (groups : list (string * list Candidate)) (a : list nat) : Q :=
  match groups, a with
  | (_, cs) :: gs, k :: a' =>
      (chosen_weight w cs k + assignment_total w gs a')%Q
  | _, _ => 0%Q
  end.

Definition within_budget (P : LpProblem) (a : list nat) : bool :=
  Qle_bool (assignment_total spend (lp_groups P) a) (lp_budget P).

Definition better (P : LpProblem) (acc : option (list nat)) (a : list nat)
  : option (list nat) :=
  if within_budget P a then
    match acc with
    | None => Some a
    | Some b =>
        if Py.Qltb (assignment_total utility (lp_groups P) b)
                   (assignment_total utility (lp_groups P) a)
        then Some a else Some b
    end
  else acc.

Definition best_assignment (P : LpProblem) : option (list nat) :=
  fold_left (better P) (assignments (lp_groups P)) None.

(** The values of the variables for an assignment: 1 for the chosen
    candidate of each group, 0 for the others. *)
Fixpoint indicator (groups : list (string * list Candidate)) (a : list nat)
  : Valuation :=
  match groups, a with
  | (s, _) :: gs, k :: a' =>
      fun sku i =>
        if String.eqb s sku then Some (if (i =? k)%nat then 1%Q else 0%Q)
        else indicator gs a' sku i
  | _, _ => fun _ _ => None
  end.

Definition enumerate : Solver :=
  fun P =>
    match best_assignment P with
    | Some a => indicator (lp_groups P) a
    | None => fun _ _ => None
    end.

(** An assignment names one existing candidate of every group. *)
Fixpoint valid_assignment (groups : list (string * list Candidate))
    (a : list nat) : Prop :=
  match groups, a with
  | [], [] => True
  | (_, cs) :: gs, k :: a' => (k < length cs)%nat /\ valid_assignment gs a'
  | _, _ => False
  end.

(** A faulty back end: it sets the variable of the last menu quantity in
    every group, whatever the budget. *)
Definition largest_choice : Solver :=
  fun _ _ i => Some (if (i =? 7)%nat then 1%Q else 0%Q).

End backends.

(* ------------------------------------------------------------------ *)
(** ** Derived notions *)

Import config knowledge analyzer planner.

(** [clamp x lo hi], as the specification writes it. *)
Definition clamp (x lo hi : Q) : Q := Qmax lo (Qmin x hi).

(** The distribution function and the density of the standard normal law,
    which the specification writes [Phi] and [phi], by their closed forms:
    [(1 + erf (z / sqrt 2)) / 2] and [exp (- z^2 / 2) / sqrt (2 pi)], over
    the error function, the exponential and the square root of the math
    library. *)
Definition std_normal_cdf `{Libm} (z : Q) : Q :=
  ((1 + m_erf (z / m_sqrt 2)) / 2)%Q.

Definition std_normal_pdf `{Libm} (z : Q) : Q :=
  (m_exp (- (0.5) * z * z) / m_sqrt (2 * m_pi))%Q.

(** The anomaly the loop body computes for one product. *)
Definition sku_anomaly `{Libm} (kb : Knowledge) (sku : string)
  : option AnomalyRecord :=
  let hist := get_recent_history kb sku window in
  let ms := _mean_std (eff_demand hist) in
  detect hist (fst ms) (snd ms).

(** The overstock test of [plan] for one product of the store. *)
Definition overstocked (kb : Knowledge) (sku : string) : bool :=
  _is_overstock sku (forecast_mean kb sku 0) (get_stock_position kb sku).

(** The product is frozen by this cycle's overstock test: it is not blocked
    already, and it is overstocked. *)
Definition freezes (kb : Knowledge) (sku : string) : bool :=
  negb (is_blocked kb sku) && overstocked kb sku.

(** The effect of one iteration on [kb.blocks]. *)
Definition freeze (kb : Knowledge) (B : gmap string Z) (sku : string)
  : gmap string Z :=
  if freezes kb sku then <[sku := (day kb + Z.max 0 STOP_ORDERS_DAYS)%Z]> B
  else B.

Definition stop_entry (sku : string) : StopOrder :=
  {| so_sku := sku; so_days := STOP_ORDERS_DAYS |}.

(** The spend of a candidate of quantity [q] ([ordercost] in
    [candidate_utility]). *)
Definition ordercost (p : Product) (q : Z) : Q :=
  (inject_Z q * unit_cost p
   + (if (0 <? q)%Z then order_fixed_cost p else 0))%Q.

(** The candidates [plan] keeps for an unfrozen product, and the entry of
    [sku_cands] it builds for any product. *)
Definition menu `{Libm} (kb : Knowledge) (sku : string) (p : Product)
  : list Candidate :=
  prune (shape kb sku p (map (candidate_utility kb sku p) CANDIDATE_QTYS)).

Definition group `{Libm} (kb : Knowledge) (sku : string) (p : Product)
  : list Candidate :=
  if is_blocked kb sku then [zero_candidate]
  else if overstocked kb sku then [zero_candidate]
  else menu kb sku p.

(** [sku_cands] as [plan] builds it from the store. *)
Definition sku_groups `{Libm} (kb : Knowledge)
  : list (string * list Candidate) :=
  map (fun e => (fst e, group kb (fst e) (snd e))) PRODUCTS.

(** The candidate the extraction loop retains for a non-empty group. *)
Definition pick (vals : nat -> option Q) (cands : list Candidate)
  : Candidate :=
  match cands with
  | [] => zero_candidate
  | c0 :: _ => default c0 (first_selected vals 0 cands)
  end.

(** The extraction loop takes a variable as selected when it has a value
    above 0.5. *)
Definition selected (o : option Q) : Prop :=
  exists v, o = Some v /\ (0.5 < v)%Q.

Definition zero_order : Order :=
  {| o_qty := 0; o_expected_utility := 0; o_spend := 0 |}.

(** The entry of [plan['orders']] the extraction loop writes for one group,
    and the running totals it accumulates. *)
Definition order_entry (x : Valuation) (e : string * list Candidate)
  : string * Order :=
  (fst e, order_of (pick (x (fst e)) (snd e))).

Definition spend_total (x : Valuation)
    (groups : list (string * list Candidate)) (start : Q) : Q :=
  fold_left (fun a e => (a + spend (pick (x (fst e)) (snd e)))%Q) groups start.

Definition utility_total (x : Valuation)
    (groups : list (string * list Candidate)) (start : Q) : Q :=
  fold_left (fun a e => (a + utility (pick (x (fst e)) (snd e)))%Q) groups start.

(** The weight of the one-choice equations. *)
Definition ones (c : Candidate) : Q := 1%Q.

(* ------------------------------------------------------------------ *)
(** ** Sample stores, plans and environments *)

(** [n] days on which [d] units were asked for and [s] of them sold. *)
Definition days (n : nat) (d s : Z) : list DemandRecord :=
  repeat {| d_day := 0; d_demand := d; d_sales := s;
            d_lost_sales := d - s |} n.

(** A store whose last recorded day for SKU_001 is a surge: eight days of
    demand 20 followed by one of demand 60, of which 15 were lost. *)
Definition kb_surge : Knowledge :=
  let quiet := {| d_day := 0; d_demand := 20; d_sales := 20;
                  d_lost_sales := 0 |} in
  let surge := {| d_day := 8; d_demand := 60; d_sales := 45;
                  d_lost_sales := 15 |} in
  {| day := 9; budget := budget knowledge.init;
     stock_levels := stock_levels knowledge.init;
     pending_orders := [];
     history := <["SKU_001" := [quiet; quiet; quiet; quiet;
                                quiet; quiet; quiet; quiet; surge]]>
                  (history knowledge.init);
     orders := orders knowledge.init;
     forecast := ∅; volatility := ∅; service_level := ∅; anomalies := ∅;
     policies := policies knowledge.init;
     daily_budget_spent := 0;
     safety_z := safety_z knowledge.init;
     blocks := ∅ |}.

(** A store on day 5 in which SKU_001 is blocked until day 6 while its
    forecast (mean 10 a day) and stock (550 on hand) put it at 55 days of
    cover. *)
Definition kb_blocked : Knowledge :=
  {| day := 5; budget := budget knowledge.init;
     stock_levels := stock_levels knowledge.init;
     pending_orders := [];
     history := history knowledge.init;
     orders := orders knowledge.init;
     forecast := <["SKU_001" := {| f_mean := 10; f_std := 2;
                                   f_model := "moving_average" |}]> ∅;
     volatility := ∅; service_level := ∅; anomalies := ∅;
     policies := policies knowledge.init;
     daily_budget_spent := 0;
     safety_z := safety_z knowledge.init;
     blocks := <["SKU_001" := 6%Z]> ∅ |}.

(** A store on day 7 after a week of shortages on every product, with
    little stock left; the two cheaper products are blocked until day 8. *)
Definition kb_short : Knowledge :=
  {| day := 7; budget := budget knowledge.init;
     stock_levels :=
       <["SKU_001" := 10%Z]> (<["SKU_002" := 20%Z]>
         (<["SKU_003" := 30%Z]> (<["SKU_004" := 40%Z]> ∅)));
     pending_orders := [];
     history :=
       <["SKU_001" := days 6 20 15 ++ days 1 24 12]>
         (<["SKU_002" := days 6 35 30 ++ days 1 40 20]>
            (<["SKU_003" := days 7 55 40]>
               (<["SKU_004" := days 7 70 60]> ∅)));
     orders := orders knowledge.init;
     forecast := ∅; volatility := ∅; service_level := ∅; anomalies := ∅;
     policies := policies knowledge.init;
     daily_budget_spent := 0;
     safety_z := safety_z knowledge.init;
     blocks := <["SKU_003" := 8%Z]> (<["SKU_004" := 8%Z]> ∅) |}.

(** The environment at the start of a run with unit multipliers
    ([Environment.__init__]). *)
Definition env_init : environment.Environment :=
  {| environment.e_day := 0;
     environment.e_stock :=
       list_to_map (map (fun e => (fst e, initial_stock (snd e))) PRODUCTS);
     environment.e_pending_orders := [];
     environment.e_demand_multiplier := 1;
     environment.e_lead_time_multiplier := 1;
     environment.e_draws := 0 |}.

(** A plan with two orders, 50 laptops (spend 27550) and 50 phones (spend
    17545): each is within the daily limit of 30000, together they are
    not. *)
Definition plan_over_cap : Plan :=
  {| p_day := 0;
     p_orders :=
       [ ("SKU_001", {| o_qty := 50; o_expected_utility := 0;
                        o_spend := 27550 |});
         ("SKU_002", {| o_qty := 50; o_expected_utility := 0;
                        o_spend := 17545 |}) ];
     p_stop_orders := [];
     p_meta := {| budget_limit := DAILY_BUDGET_LIMIT; m_spend := 45095;
                  m_utility := 0; blocked_skus := [] |} |}.

(** What the table holds after some candidates have been seen: one entry
    per rounded spend, each a candidate seen, none beaten by a candidate
    seen with the same rounded spend. *)
Definition table_inv (seen : list Candidate) (best : list (Z * Candidate))
  : Prop :=
  List.NoDup (map fst best)
  /\ (forall k v, In (k, v) best -> k = Py.round (spend v) /\ In v seen)
  /\ (forall c, In c seen ->
        exists v, In (Py.round (spend c), v) best
                  /\ (utility c <= utility v)%Q).

(** How the priority adjustment relates a candidate to its adjusted
    version, given the current service level [sl] of the product: the
    quantity and the spend are kept; below the target, ordering nothing
    loses utility and a positive quantity gains some; in the band of 0.03
    above the target a positive quantity gains some and the rest is kept;
    at or above the band nothing changes. *)
Definition shaped (sl : Q) (c c' : Candidate) : Prop :=
  qty c' = qty c /\ spend c' = spend c
  /\ ((sl < SERVICE_LEVEL_TARGET)%Q ->
        (qty c = 0%Z -> (utility c' < utility c)%Q)
        /\ ((0 < qty c)%Z -> (utility c < utility c')%Q))
  /\ ((SERVICE_LEVEL_TARGET <= sl)%Q -> (sl < SERVICE_LEVEL_TARGET + 0.03)%Q ->
        ((0 < qty c)%Z -> (utility c < utility c')%Q)
        /\ ((qty c <= 0)%Z -> c' = c))
  /\ ((SERVICE_LEVEL_TARGET + 0.03 <= sl)%Q -> c' = c).

(** The safety factor [_dynamic_z] computes for a product. *)
Definition dynamic_z (kb : Knowledge) (sku : string) : Q :=
  Qmax Z_MIN (Qmin Z_MAX (Z_BASE + VOL_TO_Z_SCALE
                                   * default 1%Q (volatility kb !! sku))).

(** What one iteration of [analyze] stores for a product, as functions of
    the history window. *)
Definition sku_window (kb : Knowledge) (sku : string) : list DemandRecord :=
  get_recent_history kb sku window.

Definition sku_forecast `{Libm} (kb : Knowledge) (sku : string)
  : ForecastRecord :=
  let ms := _mean_std (eff_demand (sku_window kb sku)) in
  {| f_mean := fst ms; f_std := snd ms; f_model := "moving_average" |}.

Definition sku_volatility `{Libm} (kb : Knowledge) (sku : string) : Q :=
  let eff := eff_demand (sku_window kb sku) in
  if (1 <? length eff)%nat then statistics.pstdev eff
  else snd (_mean_std eff).

Definition sku_service_level (kb : Knowledge) (sku : string) : Q :=
  let hist := sku_window kb sku in
  let sum_d := Py.isum (map d_demand hist) in
  let sum_s := Py.isum (map d_sales hist) in
  if (0 <? sum_d)%Z then (inject_Z sum_s / inject_Z sum_d)%Q else 1%Q.

(** The entries [analyze] adds to its result for a list of products. *)
Definition found_anomalies `{Libm} (kb : Knowledge) (l : list string)
  : list (string * AnomalyRecord) :=
  flat_map (fun s => match sku_anomaly kb s with
                     | Some a => [(s, a)]
                     | None => []
                     end) l.

(** The fields [analyze] does not write. *)
Definition analysis_frame (k k' : Knowledge) : Prop :=
  day k' = day k /\ budget k' = budget k
  /\ stock_levels k' = stock_levels k
  /\ pending_orders k' = pending_orders k
  /\ history k' = history k /\ orders k' = orders k
  /\ policies k' = policies k
  /\ daily_budget_spent k' = daily_budget_spent k
  /\ safety_z k' = safety_z k /\ blocks k' = blocks k.

(** The cost [execute] computes for [q] units of a catalogue product. *)
Definition order_cost (sku : string) (q : Z) : Q :=
  match lookup_product sku PRODUCTS with
  | Some p => (inject_Z q * unit_cost p + order_fixed_cost p)%Q
  | None => 0%Q
  end.

(** The test an entry of [plan['orders']] passes to be placed, [spent]
    being the amount the store holds as spent today. *)
Definition affordable (spent : Q) (e : string * Order) : bool :=
  (0 <? o_qty (snd e))%Z
  && negb (Py.Qltb (DAILY_BUDGET_LIMIT - spent)
                   (order_cost (fst e) (o_qty (snd e)))).

Definition planned_entry (e : string * Order) : string * Z * Q :=
  (fst e, o_qty (snd e), order_cost (fst e) (o_qty (snd e))).

Definition placed_entry (po : executor.PlacedOrder) : string * Z * Q :=
  (executor.pl_sku po, executor.pl_qty po, executor.pl_spend po).

(** The record [record_order] keeps of a placed order, and the pending
    order the environment queues for it. *)
Definition order_record (d : Z) (po : executor.PlacedOrder) : OrderRecord :=
  {| or_day := d; or_sku := executor.pl_sku po;
     or_qty := executor.pl_qty po; or_spend := executor.pl_spend po |}.

Definition delivery (od : environment.OrderDetails)
  : environment.PendingOrder :=
  {| environment.e_sku := environment.od_sku od;
     environment.e_quantity := environment.od_qty od;
     environment.e_arrival_day := environment.od_arrival_day od;
     environment.e_unit_cost := environment.od_unit_cost od |}.

Definition deliveries (placed : list executor.PlacedOrder)
  : list environment.PendingOrder :=
  flat_map (fun po => match executor.pl_lead_time po with
                      | Some od => [delivery od]
                      | None => []
                      end) placed.

(** A placed order carries the details of the purchase made for it on day
    [d]. *)
Definition purchased (d : Z) (po : executor.PlacedOrder) : Prop :=
  exists od p,
    executor.pl_lead_time po = Some od
    /\ lookup_product (executor.pl_sku po) PRODUCTS = Some p
    /\ environment.od_sku od = executor.pl_sku po
    /\ environment.od_qty od = executor.pl_qty po
    /\ environment.od_unit_cost od = unit_cost p
    /\ environment.od_arrival_day od = (d + environment.od_lead_time od)%Z.

(** The fields of the store [execute] does not write. *)
Definition execution_frame (k k' : Knowledge) : Prop :=
  day k' = day k /\ stock_levels k' = stock_levels k
  /\ pending_orders k' = pending_orders k /\ history k' = history k
  /\ forecast k' = forecast k /\ volatility k' = volatility k
  /\ service_level k' = service_level k /\ anomalies k' = anomalies k
  /\ policies k' = policies k
  /\ daily_budget_spent k' = daily_budget_spent k
  /\ safety_z k' = safety_z k /\ blocks k' = blocks k.

(** A generator whose every [randint(a, b)] returns [a]. *)
Definition rng_low : nat -> Z -> Z -> Z := fun _ a _ => a.

(** A plan with an entry for a product the catalogue does not list. *)
Definition plan_unlisted : Plan :=
  {| p_day := 0;
     p_orders :=
       [ ("SKU_001", {| o_qty := 25; o_expected_utility := 0;
                        o_spend := 13800 |});
         ("SKU_900", {| o_qty := 10; o_expected_utility := 0;
                        o_spend := 100 |}) ];
     p_stop_orders := [];
     p_meta := {| budget_limit := DAILY_BUDGET_LIMIT; m_spend := 13900;
                  m_utility := 0; blocked_skus := [] |} |}.

(** The pending orders [tick_one_day] receives on day [today], the entry of
    [arrivals] it writes for one, and what it adds to the stock of a
    product. *)
Definition due (today : Z) (o : environment.PendingOrder) : bool :=
  (environment.e_arrival_day o <=? today)%Z.

Definition arrival_of (today : Z) (o : environment.PendingOrder) : Arrival :=
  {| ar_sku := environment.e_sku o; ar_qty := environment.e_quantity o;
     ar_day := today |}.

Definition arrived (today : Z) (pending : list environment.PendingOrder)
    (sku : string) : Z :=
  Py.isum (map environment.e_quantity
             (List.filter
                (fun o => due today o && String.eqb (environment.e_sku o) sku)
                pending)).

(** The demand [_generate_demand] derives from the [n]-th draw for a
    product under a demand multiplier. *)
Definition drawn_demand (gauss : nat -> Q -> Q -> Q) (n : nat) (mult : Q)
    (p : Product) : Z :=
  Z.max 0 (Py.round (gauss n (daily_demand_mean p * mult)%Q
                             (daily_demand_std p * mult)%Q)).

(** A generator whose every [gauss(mu, sigma)] returns [mu]. *)
Definition rng_mean : nat -> Q -> Q -> Q := fun _ mu _ => mu.

(** The initial environment with two orders under way, one due on day 1. *)
Definition env_due : environment.Environment :=
  {| environment.e_day := 0;
     environment.e_stock := environment.e_stock env_init;
     environment.e_pending_orders :=
       [ {| environment.e_sku := "SKU_004"; environment.e_quantity := 100;
            environment.e_arrival_day := 1; environment.e_unit_cost := 8 |};
         {| environment.e_sku := "SKU_001"; environment.e_quantity := 50;
            environment.e_arrival_day := 3; environment.e_unit_cost := 550 |} ];
     environment.e_demand_multiplier := 1;
     environment.e_lead_time_multiplier := 1;
     environment.e_draws := 0 |}.

Import backends.

(* ================================================================== *)
(** * Properties *)

(** ** Comparisons and rounding *)

(** Rounding depends on the value of the rational only, not on the
    fraction that represents it. *)
Lemma fl_compat (x y : Q) : (x == y)%Q -> Py.fl x = Py.fl y.
Proof.
  intros E. unfold Py.fl. now rewrite (Qred_complete x y E).
Qed.

Lemma Qltb_lt (x y : Q) : Py.Qltb x y = true <-> (x < y)%Q.
Proof.
  unfold Py.Qltb. rewrite negb_true_iff, <- not_true_iff_false, Qle_bool_iff.
  split; [apply Qnot_le_lt | apply Qlt_not_le].
Qed.

Lemma Qltb_ge (x y : Q) : Py.Qltb x y = false <-> (y <= x)%Q.
Proof.
  unfold Py.Qltb. rewrite negb_false_iff. apply Qle_bool_iff.
Qed.

Lemma Qle_bool_gt (x y : Q) : Qle_bool x y = false <-> (y < x)%Q.
Proof.
  rewrite <- not_true_iff_false, Qle_bool_iff.
  split; [apply Qnot_le_lt | apply Qlt_not_le].
Qed.

(** Rounding to the nearest integer never passes an integer bound. *)
Lemma round_le_int (x : Q) (n : Z) :
  (x <= inject_Z n)%Q -> (Py.round x <= n)%Z.
Proof.
  intros Hx. unfold Py.round.
  assert (Hf : (Qfloor x <= n)%Z).
  { rewrite <- (Qfloor_Z n). now apply Qfloor_resp_le. }
  destruct (Z.eq_dec (Qfloor x) n) as [E | E].
  - assert (Hlt : (x - inject_Z (Qfloor x) < 1 # 2)%Q).
    { rewrite E. lra. }
    rewrite Qlt_alt in Hlt. now rewrite Hlt, E.
  - destruct (_ ?= _)%Q; [destruct (Z.even _) | |]; lia.
Qed.

Lemma round2_le_int (x : Q) (n : Z) :
  (x <= inject_Z n)%Q -> (Py.round2 x <= inject_Z n)%Q.
Proof.
  intros Hx. unfold Py.round2.
  assert (H : (Py.round (x * 100) <= n * 100)%Z).
  { apply round_le_int. rewrite inject_Z_mult.
    change (inject_Z 100) with 100%Q. lra. }
  apply Qle_shift_div_r; [reflexivity |].
  change 100%Q with (inject_Z 100).
  rewrite <- inject_Z_mult, <- Zle_Qle. exact H.
Qed.

(** ** The newsvendor closed form (planner.py, [_expected_sales_stockout]) *)

(** C5.  For a mean [mu >= 0] and an available stock [A >= 0]: when
    [sigma <= 1e-6] the expected sales are [min mu A] and the expected
    stockout is [max 0 (mu - sales)]; otherwise the expected sales are
    [mu * Phi z + A * (1 - Phi z) - sigma * phi z] clamped to [[0, A]] with
    [z = (A - mu) / sigma], [Phi] and [phi] being the distribution function
    and the density of the standard normal law in closed form, and the
    expected stockout is again [max 0 (mu - sales)]. *)
Theorem expected_sales_stockout_spec `{Libm} (mu sigma A : Q) :
  (0 <= mu)%Q -> (0 <= A)%Q ->
  let '(sales, stockout) := _expected_sales_stockout mu sigma A in
  ((sigma <= 1e-6)%Q ->
     (sales == Qmin mu A)%Q /\ (stockout == Qmax 0 (mu - sales))%Q)
  /\ (~ (sigma <= 1e-6)%Q ->
     let z := ((A - mu) / sigma)%Q in
     (sales == clamp (mu * std_normal_cdf z + A * (1 - std_normal_cdf z)
                      - sigma * std_normal_pdf z) 0 A)%Q
     /\ (stockout == Qmax 0 (mu - sales))%Q).
Proof.
  intros Hmu HA. unfold _expected_sales_stockout.
  destruct (Qle_bool sigma 1e-6) eqn:E.
  - apply Qle_bool_iff in E. split; [intros _ | tauto].
    assert (Hs : (Qmax 0 (Qmin mu A) == Qmin mu A)%Q).
    { apply Q.max_r. apply Q.min_glb; assumption. }
    split; [exact Hs |]. now rewrite Hs.
  - apply Qle_bool_gt in E. split.
    + intros Hle. exfalso. lra.
    + intros _. cbv zeta. unfold clamp. split; [| reflexivity].
      set (z := ((A - mu) / sigma)%Q).
      assert (HPhi : (_norm_cdf z == std_normal_cdf z)%Q).
      { unfold _norm_cdf, std_normal_cdf. field. }
      assert (Hphi : (_norm_pdf z == std_normal_pdf z)%Q).
      { unfold _norm_pdf, std_normal_pdf.
        unfold Qdiv. rewrite Qmult_1_l. apply Qmult_comm. }
      rewrite HPhi, Hphi. now rewrite Q.min_comm.
Qed.

Lemma expected_sales_stockout_spec_witness :
  (let '(sales, stockout) :=
     @_expected_sales_stockout fixedpoint.libm 60 12 45 in
   let z := ((45 - 60) / 12)%Q in
   (sales == clamp (60 * @std_normal_cdf fixedpoint.libm z
                    + 45 * (1 - @std_normal_cdf fixedpoint.libm z)
                    - 12 * @std_normal_pdf fixedpoint.libm z) 0 45)%Q
   /\ (stockout == Qmax 0 (60 - sales))%Q)
  /\ (let '(sales, stockout) :=
        @_expected_sales_stockout fixedpoint.libm 60 0 45 in
      (sales == Qmin 60 45)%Q /\ (stockout == Qmax 0 (60 - sales))%Q).
Proof.
  split.
  - pose proof (@expected_sales_stockout_spec fixedpoint.libm 60 12 45) as T.
    destruct (@_expected_sales_stockout fixedpoint.libm 60 12 45)
      as [sales stockout].
    destruct T as [_ T2]; [vm_compute; discriminate .. |].
    apply T2. intros Hle. vm_compute in Hle. now apply Hle.
  - pose proof (@expected_sales_stockout_spec fixedpoint.libm 60 0 45) as T.
    destruct (@_expected_sales_stockout fixedpoint.libm 60 0 45)
      as [sales stockout].
    destruct T as [T1 _]; [vm_compute; discriminate .. |].
    apply T1. vm_compute. discriminate.
Defined.

(** With the fixed-point library the closed forms take the values of the
    normal law to the precision of the library: [Phi 0 = 1/2],
    [phi 0 = 0.39894...], [Phi 1.96 = 0.975...]; and the expected sales of
    the instance above, 44.08..., lie strictly inside the clamp. *)
Example normal_law_values :
  (@std_normal_cdf fixedpoint.libm 0 == 0.5)%Q
  /\ (0.39894 < @std_normal_pdf fixedpoint.libm 0 < 0.39895)%Q
  /\ (0.9749 < @std_normal_cdf fixedpoint.libm 1.96 < 0.9751)%Q
  /\ (0.0249 < @std_normal_cdf fixedpoint.libm (-1.96) < 0.0251)%Q
  /\ (0 < fst (@_expected_sales_stockout fixedpoint.libm 60 12 45) < 45)%Q.
Proof. vm_compute. repeat split; reflexivity. Qed.

(** ** The estimator (analyzer.py, [_mean_std]) *)

Lemma fixedpoint_sqrt_zero (q : Q) :
  (q == 0)%Q -> (@m_sqrt fixedpoint.libm q == 0)%Q.
Proof.
  intros Hq. cbn. unfold fixedpoint.sqrt.
  assert (E : Qle_bool q 0 = true) by (apply Qle_bool_iff; lra).
  now rewrite E.
Qed.

Lemma mean_std_multi `{Libm} (x y : Q) (rest : list Q) :
  let xs := x :: y :: rest in
  _mean_std xs =
    (statistics.mean xs,
     if Py.Qltb 1e-6 (statistics.pstdev xs) then statistics.pstdev xs
     else Qmax 1 (Qabs (statistics.mean xs) * 0.25)).
Proof. reflexivity. Qed.

Lemma Qmax_one_pos (q : Q) : (0 < Qmax 1 q)%Q.
Proof.
  apply Qlt_le_trans with 1%Q; [reflexivity | apply Q.le_max_l].
Qed.

(** C7.  The forecast of an effective-demand window: the empty window gives
    (0, 1); a single sample [v] gives [(v, max 1 (0.25 |v|))]; a window of
    two or more samples whose population standard deviation is below 1e-6
    gives the standard deviation [max 1 (0.25 |mean|)]; the constant window
    20, 20, 20, 20 gives mean 20 and standard deviation 5, hence a z-score
    of 0 for today's value 20 and no anomaly; and the standard deviation
    returned is positive in every case.  The square root of the math
    library is only assumed to map zero to zero. *)
Theorem mean_std_spec `{Libm} :
  (forall q, (q == 0)%Q -> (m_sqrt q == 0)%Q) ->
  _mean_std [] = (0, 1)%Q
  /\ (forall v,
        fst (_mean_std [v]) = v
        /\ (snd (_mean_std [v]) == Qmax 1 (0.25 * Qabs v))%Q)
  /\ (forall xs, (2 <= length xs)%nat ->
        (statistics.pstdev xs < 1e-6)%Q ->
        fst (_mean_std xs) = statistics.mean xs
        /\ (snd (_mean_std xs) == Qmax 1 (0.25 * Qabs (statistics.mean xs)))%Q)
  /\ (let '(m, s) := _mean_std [20; 20; 20; 20]%Q in
      (m == 20)%Q /\ (s == 5)%Q /\ ((20 - m) / s == 0)%Q
      /\ forall hist, eff_demand hist = [20; 20; 20; 20]%Q ->
                      detect hist m s = None)
  /\ (forall xs, (0 < snd (_mean_std xs))%Q).
Proof.
  intros Hsqrt. split; [reflexivity |]. split; [| split; [| split]].
  - intros v. split; [reflexivity |]. cbn. now rewrite Qmult_comm.
  - intros xs Hlen Hs.
    destruct xs as [| x [| y rest]]; cbn in Hlen; try lia.
    rewrite mean_std_multi. cbn [fst snd].
    split; [reflexivity |].
    assert (E : Py.Qltb 1e-6 (statistics.pstdev (x :: y :: rest)) = false)
      by (apply Qltb_ge; lra).
    rewrite E. now rewrite Qmult_comm.
  - rewrite (mean_std_multi 20 20 [20; 20]%Q). cbv zeta.
    assert (Hz : (statistics.pstdev [20; 20; 20; 20] == 0)%Q).
    { unfold statistics.pstdev.
      rewrite (fl_compat _ 0); [reflexivity |]. apply Hsqrt. reflexivity. }
    assert (E : Py.Qltb 1e-6 (statistics.pstdev [20; 20; 20; 20]%Q) = false)
      by (apply Qltb_ge; rewrite Hz; discriminate).
    rewrite E.
    split; [vm_compute; reflexivity |]. split; [vm_compute; reflexivity |].
    split; [vm_compute; reflexivity |].
    intros hist Hh.
    destruct hist as [| r1 [| r2 [| r3 [| r4 [| r5 rest]]]]];
      try discriminate Hh.
    injection Hh as _ _ _ H4.
    unfold detect. cbn [last]. rewrite H4. vm_compute. reflexivity.
  - intros xs. destruct xs as [| x [| y rest]].
    + reflexivity.
    + cbn. apply Qmax_one_pos.
    + rewrite mean_std_multi. cbn [snd].
      destruct (Py.Qltb 1e-6 _) eqn:E.
      * apply Qltb_lt in E.
        eapply Qlt_trans; [| exact E]. reflexivity.
      * apply Qmax_one_pos.
Qed.

Lemma mean_std_spec_witness :
  let '(m, s) := @_mean_std fixedpoint.libm [20; 20; 20; 20]%Q in
  (m == 20)%Q /\ (s == 5)%Q.
Proof.
  destruct (@mean_std_spec fixedpoint.libm fixedpoint_sqrt_zero)
    as (_ & _ & _ & H4 & _).
  destruct (@_mean_std fixedpoint.libm [20; 20; 20; 20]%Q) as [m s].
  destruct H4 as (Hm & Hs & _). split; assumption.
Defined.

(** ** The anomaly detector (analyzer.py, [analyze]) *)

Lemma mean_std_above_floor `{Libm} (xs : list Q) :
  (1e-6 < snd (_mean_std xs))%Q.
Proof.
  assert (Hmax : forall q, (1e-6 < Qmax 1 q)%Q).
  { intros q. apply Qlt_le_trans with 1%Q; [reflexivity | apply Q.le_max_l]. }
  destruct xs as [| x [| y rest]].
  - reflexivity.
  - apply Hmax.
  - rewrite mean_std_multi. cbn [snd].
    destruct (Py.Qltb 1e-6 _) eqn:E; [now apply Qltb_lt in E | apply Hmax].
Qed.

Section analyze_loop.
Context `{Libm}.

Lemma analyze_sku_history (s : string) (st : Knowledge * Analysis) :
  history (fst (analyze_sku s st)) = history (fst st).
Proof.
  destruct st as [kb res]. unfold analyze_sku.
  destruct (_mean_std _) as [m sd].
  destruct (detect _ m sd); reflexivity.
Qed.

Lemma sku_anomaly_history (kb kb' : Knowledge) (sku : string) :
  history kb = history kb' -> sku_anomaly kb sku = sku_anomaly kb' sku.
Proof.
  intros E. unfold sku_anomaly, get_recent_history. now rewrite E.
Qed.

Lemma analyze_sku_stored (s : string) (kb : Knowledge) (res : Analysis) :
  anomalies (fst (analyze_sku s (kb, res))) !! s = sku_anomaly kb s.
Proof.
  unfold analyze_sku, sku_anomaly.
  change (get_recent_history
            (store_service_level s _ (store_volatility s _
               (store_forecast s _ _ _ kb))) s window)
    with (get_recent_history kb s window).
  destruct (_mean_std _) as [m sd]. cbn [fst snd].
  destruct (detect _ m sd) as [a |]; cbn.
  - apply lookup_insert_eq.
  - apply lookup_delete_eq.
Qed.

Lemma analyze_sku_other (s s' : string) (st : Knowledge * Analysis) :
  s <> s' ->
  anomalies (fst (analyze_sku s st)) !! s' = anomalies (fst st) !! s'.
Proof.
  intros Hne. destruct st as [kb res]. unfold analyze_sku.
  destruct (_mean_std _) as [m sd].
  destruct (detect _ m sd) as [a |]; cbn.
  - now apply lookup_insert_ne.
  - now apply lookup_delete_ne.
Qed.

Lemma analyze_sku_results (s : string) (kb : Knowledge) (res : Analysis)
    (sku : string) (a : AnomalyRecord) :
  In (sku, a) (an_anomalies (snd (analyze_sku s (kb, res))))
  <-> In (sku, a) (an_anomalies res)
      \/ (s = sku /\ sku_anomaly kb s = Some a).
Proof.
  unfold analyze_sku, sku_anomaly.
  change (get_recent_history
            (store_service_level s _ (store_volatility s _
               (store_forecast s _ _ _ kb))) s window)
    with (get_recent_history kb s window).
  destruct (_mean_std _) as [m sd]. cbn [fst snd].
  destruct (detect _ m sd) as [a' |]; cbn [snd an_anomalies].
  - rewrite in_app_iff. cbn [In]. split.
    + intros [Hin | [E | []]]; [now left |].
      injection E as -> ->. now right.
    + intros [Hin | [-> E]]; [now left |].
      injection E as ->. right. now left.
  - split; [now left |]. intros [Hin | [_ E]]; [exact Hin | discriminate E].
Qed.

(** The loop over the catalogue: every product of a duplicate-free list
    ends with the anomaly computed from its own history, the others are
    left alone, and the result lists exactly the anomalies found. *)
Lemma analyze_fold (kb0 : Knowledge) (l : list string) :
  forall st, history (fst st) = history kb0 -> List.NoDup l ->
  let st' := fold_left (fun st sku => analyze_sku sku st) l st in
  history (fst st') = history kb0
  /\ (forall sku, In sku l ->
        anomalies (fst st') !! sku = sku_anomaly kb0 sku)
  /\ (forall sku, ~ In sku l ->
        anomalies (fst st') !! sku = anomalies (fst st) !! sku)
  /\ (forall sku a,
        In (sku, a) (an_anomalies (snd st'))
        <-> In (sku, a) (an_anomalies (snd st))
            \/ (In sku l /\ sku_anomaly kb0 sku = Some a)).
Proof.
  induction l as [| s l IH]; intros st Hh Hnd; cbn [fold_left].
  - split; [exact Hh |]. split; [intros sku [] |].
    split; [reflexivity |]. intros sku a. cbn [In]. tauto.
  - inversion Hnd as [| ? ? Hs Hnd']; subst.
    assert (Hh' : history (fst (analyze_sku s st)) = history kb0)
      by (now rewrite analyze_sku_history).
    destruct (IH (analyze_sku s st) Hh' Hnd') as (I1 & I2 & I3 & I4).
    split; [exact I1 |]. split; [| split].
    + intros sku [-> | Hin].
      * rewrite (I3 sku Hs). destruct st as [kb res].
        rewrite analyze_sku_stored. now apply sku_anomaly_history.
      * now apply I2.
    + intros sku Hn. cbn [In] in Hn.
      rewrite I3 by tauto. apply analyze_sku_other. tauto.
    + intros sku a. rewrite I4. destruct st as [kb res].
      rewrite analyze_sku_results.
      rewrite (sku_anomaly_history kb kb0 s Hh). cbn [In snd]. split.
      * intros [[Hin | [-> E]] | [Hin E]]; auto.
      * intros [Hin | [[-> | Hin] E]]; auto.
Qed.

Lemma analyze_sku_of (kb : Knowledge) (sku : string) :
  In sku skus ->
  anomalies (fst (analyze kb)) !! sku = sku_anomaly kb sku
  /\ forall a, In (sku, a) (an_anomalies (snd (analyze kb)))
               <-> sku_anomaly kb sku = Some a.
Proof.
  intros Hin. unfold analyze.
  assert (Hnd : List.NoDup skus) by (vm_compute; repeat constructor; cbn;
    intuition discriminate).
  destruct (analyze_fold kb skus (kb, {| an_day := day kb;
                                          an_anomalies := [] |})
              eq_refl Hnd) as (_ & I2 & _ & I4).
  split; [now apply I2 |].
  intros a. rewrite I4. cbn. tauto.
Qed.

End analyze_loop.

(** C6.  For a catalogue product whose history window is not empty, with [z]
    the z-score of the last day's effective demand against the forecast,
    [z = (today - mean) / max std 1e-6] as the interpreter computes it, the
    difference and the quotient each rounded to binary64: [analyze] stores
    and reports a spike anomaly exactly when [z] is above the threshold, a
    drop anomaly exactly when [z] is below minus the threshold, and
    otherwise, in particular when [z] equals the threshold or its opposite,
    it leaves no anomaly stored for the product, whatever was stored
    before. *)
Theorem anomaly_threshold `{Libm} (kb : Knowledge) (sku : string)
    (r : DemandRecord) :
  In sku skus ->
  last (get_recent_history kb sku window) = Some r ->
  let ms := _mean_std (eff_demand (get_recent_history kb sku window)) in
  let today := Py.float_of_int (d_sales r + d_lost_sales r) in
  let z := Py.fl (Py.fl (today - fst ms) / Qmax (snd ms) 1e-6) in
  let kb' := fst (analyze kb) in
  let res := snd (analyze kb) in
  let emitted ty :=
    exists a, anomalies kb' !! sku = Some a
              /\ In (sku, a) (an_anomalies res)
              /\ a_type a = ty /\ (a_z a == z)%Q
              /\ a_today a = today /\ a_mean a = fst ms in
  let nothing :=
    anomalies kb' !! sku = None
    /\ forall a, ~ In (sku, a) (an_anomalies res) in
  (emitted spike <-> (z_thr < z)%Q)
  /\ (emitted drop <-> (z < - z_thr)%Q)
  /\ ((- z_thr <= z)%Q -> (z <= z_thr)%Q -> nothing)
  /\ ((z == z_thr)%Q \/ (z == - z_thr)%Q -> nothing).
Proof.
  intros Hin Hlast ms today z kb' res emitted nothing.
  destruct (analyze_sku_of kb sku Hin) as [E1 E2].
  fold kb' in E1. fold res in E2.
  set (zc := Py.fl (Py.fl (today - fst ms) / snd ms)).
  assert (Hfloor : (1e-6 < snd ms)%Q) by apply mean_std_above_floor.
  assert (Hd : sku_anomaly kb sku =
               if Py.Qltb z_thr zc then
                 Some {| a_type := spike; a_z := zc; a_today := today;
                         a_mean := fst ms |}
               else if Py.Qltb zc (- z_thr) then
                 Some {| a_type := drop; a_z := zc; a_today := today;
                         a_mean := fst ms |}
               else None).
  { unfold sku_anomaly, detect. rewrite Hlast. fold ms.
    now rewrite (proj2 (Qltb_lt _ _) Hfloor). }
  assert (Hz : (z == zc)%Q).
  { unfold z, zc.
    rewrite (fl_compat (Py.fl (today - fst ms) / Qmax (snd ms) 1e-6)
                       (Py.fl (today - fst ms) / snd ms));
      [reflexivity |].
    rewrite Q.max_l; [reflexivity | now apply Qlt_le_weak]. }
  assert (Hthr : (0 <= z_thr)%Q) by discriminate.
  clearbody zc z. 
  assert (Hnothing : sku_anomaly kb sku = None -> nothing).
  { intros En. split; [now rewrite E1 |].
    intros a Ha. apply E2 in Ha. congruence. }
  assert (Hsome : forall a, sku_anomaly kb sku = Some a ->
            forall ty, emitted ty <-> a_type a = ty /\ (a_z a == z)%Q
                       /\ a_today a = today /\ a_mean a = fst ms).
  { intros a Ea ty. split.
    - intros (a' & S1 & _ & S3). rewrite E1, Ea in S1.
      injection S1 as <-. exact S3.
    - intros S3. exists a. rewrite E1, E2. auto. }
  destruct (Py.Qltb z_thr zc) eqn:B1.
  - apply Qltb_lt in B1. specialize (Hsome _ Hd).
    split; [| split; [| split]].
    + rewrite Hsome. cbn. rewrite Hz.
      split; [intros _; exact B1 | intros _; repeat split; reflexivity].
    + rewrite Hsome. cbn. split; [intros [D _]; discriminate D |].
      intros Hlt. exfalso. lra.
    + intros _ Hle. exfalso. lra.
    + intros [E | E]; exfalso; lra.
  - apply Qltb_ge in B1. destruct (Py.Qltb zc (- z_thr)) eqn:B2.
    + apply Qltb_lt in B2. specialize (Hsome _ Hd).
      split; [| split; [| split]].
      * rewrite Hsome. cbn. split; [intros [D _]; discriminate D |].
        intros Hlt. exfalso. lra.
      * rewrite Hsome. cbn. rewrite Hz.
        split; [intros _; exact B2 | intros _; repeat split; reflexivity].
      * intros Hle _. exfalso. lra.
      * intros [E | E]; exfalso; lra.
    + apply Qltb_ge in B2. specialize (Hnothing Hd).
      assert (Hnone : forall ty, ~ emitted ty).
      { intros ty (a & S1 & _). rewrite E1, Hd in S1. discriminate S1. }
      split; [| split; [| split]].
      * split; [intros He; now apply Hnone in He | intros Hlt; exfalso; lra].
      * split; [intros He; now apply Hnone in He | intros Hlt; exfalso; lra].
      * intros _ _. exact Hnothing.
      * intros _. exact Hnothing.
Qed.

Lemma anomaly_threshold_witness :
  exists a, anomalies (fst (@analyze binary64.libm kb_surge)) !! "SKU_001"
            = Some a
            /\ a_type a = spike.
Proof.
  pose proof (@anomaly_threshold binary64.libm kb_surge "SKU_001"
                {| d_day := 8; d_demand := 60; d_sales := 45;
                   d_lost_sales := 15 |}) as T.
  cbv zeta in T.
  destruct T as [[_ T] _]; [vm_compute; tauto | reflexivity |].
  destruct T as (a & Ha & _ & Ht & _); [vm_compute; reflexivity |].
  exists a. split; assumption.
Defined.

(** ** The candidate-generation loop (planner.py, [plan]) *)

Section generation.
Context `{Libm}.

Lemma is_blocked_set_blocks (B : gmap string Z) (K : Knowledge)
    (sku : string) :
  B !! sku = blocks K !! sku ->
  is_blocked (set_blocks B K) sku = is_blocked K sku.
Proof. intros E. unfold is_blocked. cbn. now rewrite E. Qed.

(** One iteration, for a store that differs from [K] in its blocks only
    and agrees with it on the block of the product processed. *)
Lemma gen_step_spec (K : Knowledge) (B : gmap string Z) (st : GenState)
    (sku : string) (p : Product) :
  g_kb st = set_blocks B K ->
  B !! sku = blocks K !! sku ->
  gen_step st (sku, p) =
    {| g_kb := set_blocks (freeze K B sku) K;
       g_cands := g_cands st ++ [(sku, group K sku p)];
       g_blocked := g_blocked st ++ (if is_blocked K sku then [sku] else []);
       g_stop := g_stop st ++ (if freezes K sku then [stop_entry sku] else []) |}.
Proof.
  intros Hkb HB. unfold gen_step, group, freeze, freezes, overstocked.
  rewrite Hkb, (is_blocked_set_blocks B K sku HB).
  destruct (is_blocked K sku).
  - cbn [negb andb]. now rewrite !app_nil_r.
  - cbn [negb andb].
    change (forecast_mean (set_blocks B K) sku 0) with (forecast_mean K sku 0).
    change (get_stock_position (set_blocks B K) sku)
      with (get_stock_position K sku).
    destruct (_is_overstock _ _ _).
    + now rewrite !app_nil_r.
    + now rewrite !app_nil_r.
Qed.

Lemma freeze_other (K : Knowledge) (B : gmap string Z) (s sku : string) :
  s <> sku -> freeze K B s !! sku = B !! sku.
Proof.
  intros Hne. unfold freeze. destruct (freezes K s); [| reflexivity].
  now apply lookup_insert_ne.
Qed.

Lemma gen_fold (K : Knowledge) (l : list (string * Product)) :
  forall (B : gmap string Z) (st : GenState),
    List.NoDup (map fst l) ->
    g_kb st = set_blocks B K ->
    (forall s, In s (map fst l) -> B !! s = blocks K !! s) ->
    let st' := fold_left gen_step l st in
    g_kb st' = set_blocks (fold_left (freeze K) (map fst l) B) K
    /\ g_cands st' = g_cands st ++ map (fun e => (fst e, group K (fst e) (snd e))) l
    /\ g_blocked st' = g_blocked st ++ List.filter (is_blocked K) (map fst l)
    /\ g_stop st' = g_stop st
                    ++ map stop_entry (List.filter (freezes K) (map fst l)).
Proof.
  induction l as [| [s p] l IH]; intros B st Hnd Hkb HB; cbn [fold_left map fst].
  - cbn. now rewrite !app_nil_r.
  - cbn [map fst] in Hnd, HB. inversion Hnd as [| ? ? Hs Hnd']; subst.
    assert (Hstep := gen_step_spec K B st s p Hkb (HB s (or_introl eq_refl))).
    destruct (IH (freeze K B s) (gen_step st (s, p)) Hnd') as (I1 & I2 & I3 & I4).
    + now rewrite Hstep.
    + intros s' Hin. rewrite freeze_other; [apply HB; now right |].
      intros ->. contradiction.
    + rewrite I1, I2, I3, I4, Hstep. cbn [g_cands g_blocked g_stop snd fst].
      split; [reflexivity |].
      split; [now rewrite <- app_assoc |].
      split.
      * cbn [List.filter]. rewrite <- app_assoc.
        now destruct (is_blocked K s).
      * cbn [List.filter]. rewrite <- app_assoc.
        now destruct (freezes K s).
Qed.

Lemma refresh_safety_eq (kb : Knowledge) :
  exists V, refresh_safety kb = set_safety_z_map V kb.
Proof.
  unfold refresh_safety. generalize skus as l.
  assert (G : forall l V, exists V',
             fold_left (fun k sku => snd (_dynamic_z sku k)) l
                       (set_safety_z_map V kb) = set_safety_z_map V' kb).
  { induction l as [| s l IH]; intros V; cbn [fold_left]; [now exists V |].
    apply IH. }
  intros l. destruct (G l (safety_z kb)) as [V' E]. exists V'.
  rewrite <- E. f_equal. now destruct kb.
Qed.

(** What both loops leave behind, in terms of the store [plan] started
    from. *)
Lemma generate_spec (kb : Knowledge) :
  g_cands (generate kb)
    = map (fun e => (fst e, group kb (fst e) (snd e))) PRODUCTS
  /\ g_blocked (generate kb) = List.filter (is_blocked kb) skus
  /\ g_stop (generate kb) = map stop_entry (List.filter (freezes kb) skus)
  /\ blocks (g_kb (generate kb)) = fold_left (freeze kb) skus (blocks kb)
  /\ day (g_kb (generate kb)) = day kb.
Proof.
  unfold generate. destruct (refresh_safety_eq kb) as [V EV]. rewrite EV.
  set (K := set_safety_z_map V kb).
  assert (Hnd : List.NoDup (map fst PRODUCTS))
    by (vm_compute; repeat constructor; cbn; intuition discriminate).
  destruct (gen_fold K PRODUCTS (blocks K)
              {| g_kb := K; g_cands := []; g_blocked := []; g_stop := [] |}
              Hnd) as (I1 & I2 & I3 & I4).
  { now destruct kb. }
  { reflexivity. }
  rewrite I1, I2, I3, I4. cbn [g_cands g_blocked g_stop app blocks set_blocks day].
  repeat split; reflexivity.
Qed.

End generation.

(** ** Pruning keeps the zero-quantity candidate first *)

Lemma prune_fold_head (b0 : Z) (c0 : Candidate) (cs : list Candidate) :
  forall d,
    (forall c, In c cs -> Py.round (spend c) <> b0) ->
    exists d', fold_left prune_step cs ((b0, c0) :: d) = (b0, c0) :: d'.
Proof.
  induction cs as [| c cs IH]; intros d Hne; cbn [fold_left].
  - now exists d.
  - assert (Hb : (Py.round (spend c) =? b0)%Z = false).
    { apply Z.eqb_neq. apply Hne. now left. }
    assert (Hstep : exists d1, prune_step ((b0, c0) :: d) c = (b0, c0) :: d1).
    { unfold prune_step. cbn [Py.dict_get Py.dict_set]. rewrite Hb.
      destruct (Py.dict_get _ d) as [c1 |].
      - destruct (Py.Qltb _ _); eauto.
      - eauto. }
    destruct Hstep as [d1 ->]. apply IH. intros c' Hin. apply Hne. now right.
Qed.

Lemma prune_head (c0 : Candidate) (cs : list Candidate) :
  (forall c, In c cs -> Py.round (spend c) <> Py.round (spend c0)) ->
  exists rest, prune (c0 :: cs) = c0 :: rest.
Proof.
  intros Hne. unfold prune. cbn [fold_left].
  change (prune_step [] c0) with [(Py.round (spend c0), c0)].
  destruct (prune_fold_head _ c0 cs [] Hne) as [d' ->].
  now exists (Py.dict_values d').
Qed.

(** Every candidate that survives pruning was generated. *)
Lemma prune_step_incl (best : list (Z * Candidate)) (c : Candidate) :
  forall c', In c' (map snd (prune_step best c)) ->
             c' = c \/ In c' (map snd best).
Proof.
  assert (Hset : forall (d : list (Z * Candidate)) b c',
             In c' (map snd (Py.dict_set b c d)) -> c' = c \/ In c' (map snd d)).
  { induction d as [| [k v] d IH]; intros b c' Hin; cbn in Hin.
    - destruct Hin as [<- | []]. now left.
    - destruct (b =? k)%Z; cbn in Hin.
      + destruct Hin as [<- | Hin]; [now left | right; now right].
      + destruct Hin as [<- | Hin]; [right; now left |].
        destruct (IH _ _ Hin); [now left | right; now right]. }
  intros c' Hin. unfold prune_step in Hin.
  destruct (Py.dict_get _ best) as [c1 |].
  - destruct (Py.Qltb _ _); [now apply Hset in Hin | now right].
  - now apply Hset in Hin.
Qed.

Lemma prune_incl (cs : list Candidate) (c : Candidate) :
  In c (prune cs) -> In c cs.
Proof.
  unfold prune, Py.dict_values.
  assert (G : forall cs best, In c (map snd (fold_left prune_step cs best)) ->
                              In c cs \/ In c (map snd best)).
  { clear cs. induction cs as [| c1 cs IH]; intros best Hin; cbn in Hin.
    - now right.
    - destruct (IH _ Hin) as [H1 | H1]; [left; now right |].
      destruct (prune_step_incl _ _ _ H1) as [-> | H2];
        [left; now left | now right]. }
  intros Hin. destruct (G cs [] Hin) as [H1 | []]. exact H1.
Qed.

Section menus.
Context `{Libm}.

Lemma candidate_utility_spend (kb : Knowledge) (sku : string) (p : Product)
    (q : Z) :
  spend (candidate_utility kb sku p q) = ordercost p q
  /\ qty (candidate_utility kb sku p q) = q.
Proof.
  unfold candidate_utility. destruct (lead_time_days p) as [ltmin ltmax].
  destruct (_expected_sales_stockout _ _ _) as [es est]. now split.
Qed.

(** The priority adjustment changes utilities only. *)
Lemma shape_map (kb : Knowledge) (sku : string) (p : Product)
    (cs : list Candidate) :
  exists g, shape kb sku p cs = map g cs
            /\ forall c, spend (g c) = spend c /\ qty (g c) = qty c.
Proof.
  unfold shape. destruct (Py.Qltb _ _).
  - eexists. split; [reflexivity |]. intros c. cbv beta.
    destruct (qty c =? 0)%Z; split; reflexivity.
  - destruct (Py.Qltb _ _).
    + eexists. split; [reflexivity |]. intros c. cbv beta.
      destruct (0 <? qty c)%Z; split; reflexivity.
    + exists (fun c => c). split; [now rewrite map_id | now split].
Qed.

(** No positive menu quantity of a catalogue product costs so little that
    its spend rounds to the spend of ordering nothing. *)
Lemma positive_spend_rounds_apart (sku : string) (p : Product) (q : Z) :
  In (sku, p) PRODUCTS -> In q (tl CANDIDATE_QTYS) ->
  Py.round (ordercost p q) <> Py.round (ordercost p 0).
Proof.
  intros Hp Hq.
  assert (Hall :
    forallb (fun e =>
               forallb (fun q => negb (Py.round (ordercost (snd e) q)
                                       =? Py.round (ordercost (snd e) 0))%Z)
                       (tl CANDIDATE_QTYS))
            PRODUCTS = true) by (vm_compute; reflexivity).
  rewrite forallb_forall in Hall. specialize (Hall _ Hp).
  rewrite forallb_forall in Hall. specialize (Hall _ Hq).
  cbn [snd] in Hall. apply negb_true_iff in Hall. now apply Z.eqb_neq.
Qed.

Lemma menu_head (kb : Knowledge) (sku : string) (p : Product) :
  In (sku, p) PRODUCTS ->
  exists c0 rest, menu kb sku p = c0 :: rest
                  /\ qty c0 = 0%Z /\ (spend c0 == 0)%Q.
Proof.
  intros Hp. unfold menu.
  destruct (shape_map kb sku p (map (candidate_utility kb sku p) CANDIDATE_QTYS))
    as (g & -> & Hg).
  change CANDIDATE_QTYS with (0%Z :: tl CANDIDATE_QTYS). cbn [map].
  set (c0 := g (candidate_utility kb sku p 0)).
  assert (Hs0 : spend c0 = ordercost p 0).
  { unfold c0. rewrite (proj1 (Hg _)). apply candidate_utility_spend. }
  destruct (prune_head c0
              (map g (map (candidate_utility kb sku p) (tl CANDIDATE_QTYS))))
    as [rest E].
  { intros c Hin. rewrite map_map, in_map_iff in Hin.
    destruct Hin as (q & <- & Hq).
    rewrite (proj1 (Hg _)), (proj1 (candidate_utility_spend _ _ _ _)), Hs0.
    now apply (positive_spend_rounds_apart sku). }
  exists c0, rest. split; [exact E |]. split.
  - unfold c0. rewrite (proj2 (Hg _)). apply candidate_utility_spend.
  - rewrite Hs0. unfold ordercost. cbn. ring.
Qed.

Lemma group_head (kb : Knowledge) (sku : string) (p : Product) :
  In (sku, p) PRODUCTS ->
  exists c0 rest, group kb sku p = c0 :: rest
                  /\ qty c0 = 0%Z /\ (spend c0 == 0)%Q.
Proof.
  intros Hp. unfold group.
  destruct (is_blocked kb sku);
    [exists zero_candidate, []; repeat split; reflexivity |].
  destruct (overstocked kb sku);
    [exists zero_candidate, []; repeat split; reflexivity |].
  now apply menu_head.
Qed.

End menus.

(** ** The extraction loop and the shape of the plan *)

Lemma first_selected_in (vals : nat -> option Q) (cs : list Candidate) :
  forall i c, first_selected vals i cs = Some c -> In c cs.
Proof.
  induction cs as [| c0 cs IH]; intros i c E; cbn in E; [discriminate E |].
  destruct (vals i) as [v |].
  - destruct (Py.Qltb 0.5 v).
    + injection E as <-. now left.
    + right. eapply IH, E.
  - right. eapply IH, E.
Qed.

Lemma first_selected_none (vals : nat -> option Q) (cs : list Candidate) :
  forall i,
    (forall j, (j < length cs)%nat -> ~ selected (vals (i + j)%nat)) ->
    first_selected vals i cs = None.
Proof.
  induction cs as [| c0 cs IH]; intros i Hn; cbn; [reflexivity |].
  assert (H0 := Hn 0%nat). rewrite Nat.add_0_r in H0. cbn in H0.
  assert (Hrest : first_selected vals (S i) cs = None).
  { apply IH. intros j Hj. replace (S i + j)%nat with (i + S j)%nat by lia.
    apply Hn. cbn. lia. }
  destruct (vals i) as [v |]; [| exact Hrest].
  destruct (Py.Qltb 0.5 v) eqn:E; [| exact Hrest].
  exfalso. apply H0; [lia |]. exists v. split; [reflexivity |].
  now apply Qltb_lt.
Qed.

Lemma pick_in (vals : nat -> option Q) (cs : list Candidate) :
  cs <> [] -> In (pick vals cs) cs.
Proof.
  destruct cs as [| c0 cs]; [congruence |]. intros _. unfold pick.
  destruct (first_selected vals 0 (c0 :: cs)) as [c |] eqn:E; cbn.
  - apply first_selected_in in E. exact E.
  - now left.
Qed.

Lemma choose_pick (vals : nat -> option Q) (cs : list Candidate) :
  cs <> [] -> choose vals cs = Some (pick vals cs).
Proof. destruct cs; [congruence | reflexivity]. Qed.

Lemma extract_spec (x : Valuation) (groups : list (string * list Candidate)) :
  (forall e, In e groups -> snd e <> []) ->
  forall ords ts tu,
    extract x groups (ords, ts, tu)
    = Some (ords ++ map (order_entry x) groups,
            spend_total x groups ts, utility_total x groups tu).
Proof.
  induction groups as [| [sku cands] gs IH]; intros Hne ords ts tu; cbn.
  - now rewrite app_nil_r.
  - rewrite (choose_pick (x sku) cands) by (apply (Hne (sku, cands)); now left).
    rewrite IH by (intros e He; apply Hne; now right).
    now rewrite <- app_assoc.
Qed.

Section plans.
Context `{Libm}.

Lemma sku_groups_nonempty (kb : Knowledge) :
  forall e, In e (sku_groups kb) -> snd e <> [].
Proof.
  intros e He. unfold sku_groups in He. rewrite in_map_iff in He.
  destruct He as ([sku p] & <- & Hp). cbn [fst snd].
  destruct (group_head kb sku p Hp) as (c0 & rest & -> & _). discriminate.
Qed.

Lemma plan_problem_eq (kb : Knowledge) :
  plan_problem kb
  = {| lp_groups := sku_groups kb; lp_budget := DAILY_BUDGET_LIMIT |}.
Proof.
  unfold plan_problem. now rewrite (proj1 (generate_spec kb)).
Qed.

(** [plan] never raises, and this is the plan it returns. *)
Lemma plan_spec (solve : Solver) (kb : Knowledge) :
  let x := solve (plan_problem kb) in
  plan solve kb
  = Some ({| p_day := day kb;
             p_orders := map (order_entry x) (sku_groups kb);
             p_stop_orders :=
               map stop_entry (List.filter (freezes kb) skus);
             p_meta :=
               {| budget_limit := DAILY_BUDGET_LIMIT;
                  m_spend := Py.round2 (spend_total x (sku_groups kb) 0);
                  m_utility := Py.round2 (utility_total x (sku_groups kb) 0);
                  blocked_skus := List.filter (is_blocked kb) skus |} |},
          g_kb (generate kb)).
Proof.
  cbv zeta. rewrite plan_problem_eq. unfold plan.
  destruct (generate_spec kb) as (E1 & E2 & E3 & _).
  rewrite E1, E2, E3. fold (sku_groups kb).
  now rewrite (extract_spec _ _ (sku_groups_nonempty kb)).
Qed.

End plans.

(** ** One order per product; blocked products order nothing *)

Lemma products_nodup : List.NoDup (map fst PRODUCTS).
Proof. vm_compute. repeat constructor; cbn; intuition discriminate. Qed.

Lemma in_skus (sku : string) :
  In sku skus <-> exists p, In (sku, p) PRODUCTS.
Proof.
  unfold skus. rewrite in_map_iff. split.
  - intros ([s p] & <- & Hin). now exists p.
  - intros (p & Hin). now exists (sku, p).
Qed.

Lemma nodup_fst_functional {A B} (l : list (A * B)) (a : A) (b b' : B) :
  List.NoDup (map fst l) -> In (a, b) l -> In (a, b') l -> b = b'.
Proof.
  induction l as [| [a0 b0] l IH]; intros Hnd H1 H2; [destruct H1 |].
  cbn in Hnd. inversion Hnd as [| ? ? Hn Hnd']; subst.
  assert (Hfst : forall b1, In (a, b1) l -> In a (map fst l)).
  { intros b1 Hb. apply in_map_iff. now exists (a, b1). }
  destruct H1 as [E1 | H1], H2 as [E2 | H2].
  - congruence.
  - injection E1 as -> ->. exfalso. eauto.
  - injection E2 as -> ->. exfalso. eauto.
  - now apply IH.
Qed.

Lemma pick_singleton (vals : nat -> option Q) (c : Candidate) :
  pick vals [c] = c.
Proof.
  unfold pick. cbn. destruct (vals 0%nat) as [v |]; [| reflexivity].
  now destruct (Py.Qltb 0.5 v).
Qed.

Section orders.
Context `{Libm}.

Lemma sku_groups_keys (kb : Knowledge) : map fst (sku_groups kb) = skus.
Proof. unfold sku_groups, skus. rewrite map_map. reflexivity. Qed.

Lemma in_sku_groups (kb : Knowledge) (sku : string) (cs : list Candidate) :
  In (sku, cs) (sku_groups kb)
  <-> exists p, In (sku, p) PRODUCTS /\ cs = group kb sku p.
Proof.
  unfold sku_groups. rewrite in_map_iff. split.
  - intros ([s p] & E & Hin). cbn in E. injection E as -> <-. now exists p.
  - intros (p & Hin & ->). now exists (sku, p).
Qed.

Lemma in_orders (x : Valuation) (kb : Knowledge) (sku : string) (o : Order) :
  In (sku, o) (map (order_entry x) (sku_groups kb))
  <-> exists p, In (sku, p) PRODUCTS
                /\ o = order_of (pick (x sku) (group kb sku p)).
Proof.
  rewrite in_map_iff. split.
  - intros ([s cs] & E & Hin). unfold order_entry in E. cbn in E.
    injection E as -> <-. apply in_sku_groups in Hin.
    destruct Hin as (p & Hp & ->). now exists p.
  - intros (p & Hp & ->). exists (sku, group kb sku p).
    split; [reflexivity |]. apply in_sku_groups. now exists p.
Qed.

Lemma orders_keys (x : Valuation) (kb : Knowledge) :
  map fst (map (order_entry x) (sku_groups kb)) = skus.
Proof.
  rewrite map_map. unfold order_entry. cbn [fst].
  apply (sku_groups_keys kb).
Qed.

End orders.

(** C2.  [plan] returns a plan whose [orders] mapping has the catalogue's
    product ids as its keys, each exactly once, blocked products included;
    the entry of a product is the quantity/utility/spend triple of one of
    the candidates generated for it. *)
Theorem plan_one_order_per_product `{Libm} (solve : Solver) (kb : Knowledge) :
  exists pl kb',
    plan solve kb = Some (pl, kb')
    /\ map fst (p_orders pl) = skus
    /\ List.NoDup (map fst (p_orders pl))
    /\ (forall sku, In sku skus ->
          exists o, In (sku, o) (p_orders pl)
                    /\ forall o', In (sku, o') (p_orders pl) -> o' = o)
    /\ (forall sku o, In (sku, o) (p_orders pl) ->
          exists p c, In (sku, p) PRODUCTS
                      /\ In c (group kb sku p) /\ o = order_of c).
Proof.
  eexists _, _. split; [apply plan_spec |]. cbn [p_orders].
  set (x := solve (plan_problem kb)).
  assert (Hk := orders_keys x kb).
  assert (Hnd : List.NoDup (map fst (map (order_entry x) (sku_groups kb))))
    by (rewrite Hk; exact products_nodup).
  split; [exact Hk |]. split; [exact Hnd |]. split.
  - intros sku Hin. apply in_skus in Hin. destruct Hin as [p Hp].
    exists (order_of (pick (x sku) (group kb sku p))). split.
    + apply in_orders. now exists p.
    + intros o' Ho'. eapply nodup_fst_functional; [exact Hnd | exact Ho' |].
      apply in_orders. now exists p.
  - intros sku o Ho. apply in_orders in Ho. destruct Ho as (p & Hp & ->).
    exists p, (pick (x sku) (group kb sku p)). split; [exact Hp |].
    split; [| reflexivity]. apply pick_in.
    destruct (group_head kb sku p Hp) as (c0 & rest & -> & _). discriminate.
Qed.

(** C3.  A catalogue product whose blocked-until day has not passed gets the
    single zero-quantity candidate in the programme, and the plan orders
    quantity 0 of it at zero spend, whatever the solver returns. *)
Theorem blocked_product_orders_nothing `{Libm} (solve : Solver)
    (kb : Knowledge) (sku : string) (until : Z) :
  In sku skus ->
  blocks kb !! sku = Some until -> (day kb <= until)%Z ->
  In (sku, [zero_candidate]) (lp_groups (plan_problem kb))
  /\ exists pl kb',
       plan solve kb = Some (pl, kb')
       /\ In (sku, zero_order) (p_orders pl)
       /\ (forall o, In (sku, o) (p_orders pl) ->
             o_qty o = 0%Z /\ o_spend o = 0%Q)
       /\ In sku (blocked_skus (p_meta pl)).
Proof.
  intros Hin Hb Hday.
  assert (Hblk : is_blocked kb sku = true).
  { unfold is_blocked. rewrite Hb. now apply Z.leb_le. }
  assert (Hg : forall p, group kb sku p = [zero_candidate]).
  { intros p. unfold group. now rewrite Hblk. }
  destruct (proj1 (in_skus sku) Hin) as [p Hp].
  split.
  - rewrite plan_problem_eq. cbn [lp_groups]. apply in_sku_groups.
    exists p. now rewrite Hg.
  - eexists _, _. split; [apply plan_spec |]. cbn [p_orders p_meta blocked_skus].
    split; [| split].
    + apply in_orders. exists p. now rewrite Hg, pick_singleton.
    + intros o Ho. apply in_orders in Ho. destruct Ho as (p' & _ & ->).
      rewrite Hg, pick_singleton. now split.
    + apply filter_In. now split.
Qed.

Lemma blocked_product_orders_nothing_witness :
  exists pl kb',
    @plan fixedpoint.libm backends.first_choice kb_blocked = Some (pl, kb')
    /\ In ("SKU_001", zero_order) (p_orders pl).
Proof.
  destruct (@blocked_product_orders_nothing fixedpoint.libm
              backends.first_choice kb_blocked "SKU_001" 6%Z)
    as (_ & pl & kb' & E & Hin & _).
  - vm_compute. tauto.
  - reflexivity.
  - vm_compute. discriminate.
  - exists pl, kb'. split; assumption.
Defined.

(** ** The fallback of the extraction *)

Lemma round_zero (x : Q) : (x == 0)%Q -> Py.round x = 0%Z.
Proof.
  intros Hx. unfold Py.round.
  assert (Hf : Qfloor x = 0%Z) by (now rewrite Hx).
  rewrite Hf.
  assert (Hlt : (x - inject_Z 0 < 1 # 2)%Q) by (rewrite Hx; reflexivity).
  rewrite Qlt_alt in Hlt. now rewrite Hlt.
Qed.

Lemma round2_zero (x : Q) : (x == 0)%Q -> (Py.round2 x == 0)%Q.
Proof.
  intros Hx. unfold Py.round2. rewrite round_zero; [reflexivity |].
  rewrite Hx. reflexivity.
Qed.

Lemma spend_total_zero (x : Valuation) (groups : list (string * list Candidate)) :
  (forall e, In e groups -> (spend (pick (x (fst e)) (snd e)) == 0)%Q) ->
  forall start, (spend_total x groups start == start)%Q.
Proof.
  unfold spend_total.
  induction groups as [| e gs IH]; intros Hz start; cbn [fold_left].
  - reflexivity.
  - rewrite IH by (intros e' He'; apply Hz; now right).
    rewrite (Hz e) by now left. ring.
Qed.

(** C4.  [plan] always returns a plan.  The group of every product that is
    not blocked starts with a candidate of quantity 0 and spend 0; for every
    product none of whose variables the solver has marked as selected, the
    plan holds that product's zero-quantity, zero-spend candidate; and when
    the solver marks nothing at all, every order of the plan is for
    quantity 0 and the plan spends nothing. *)
Theorem plan_falls_back_to_zero `{Libm} (solve : Solver) (kb : Knowledge) :
  (forall sku p, In (sku, p) PRODUCTS -> is_blocked kb sku = false ->
     exists c0 rest,
       In (sku, c0 :: rest) (lp_groups (plan_problem kb))
       /\ qty c0 = 0%Z /\ (spend c0 == 0)%Q)
  /\ exists pl kb',
       plan solve kb = Some (pl, kb')
       /\ (forall sku cands,
             In (sku, cands) (lp_groups (plan_problem kb)) ->
             (forall i, (i < length cands)%nat ->
                        ~ selected (solve (plan_problem kb) sku i)) ->
             exists o, In (sku, o) (p_orders pl)
                       /\ o_qty o = 0%Z /\ (o_spend o == 0)%Q
                       /\ forall o', In (sku, o') (p_orders pl) -> o' = o)
       /\ ((forall sku i, ~ selected (solve (plan_problem kb) sku i)) ->
             (forall sku o, In (sku, o) (p_orders pl) ->
                o_qty o = 0%Z /\ (o_spend o == 0)%Q)
             /\ (m_spend (p_meta pl) == 0)%Q).
Proof.
  assert (Hfb : forall sku p, In (sku, p) PRODUCTS ->
            (forall i, (i < length (group kb sku p))%nat ->
                       ~ selected (solve (plan_problem kb) sku i)) ->
            qty (pick (solve (plan_problem kb) sku) (group kb sku p)) = 0%Z
            /\ (spend (pick (solve (plan_problem kb) sku) (group kb sku p))
                == 0)%Q).
  { intros sku p Hp Hn.
    destruct (group_head kb sku p Hp) as (c0 & rest & E & Hq & Hs).
    rewrite E in *. unfold pick.
    rewrite first_selected_none by (intros j Hj; now apply Hn).
    now split. }
  split.
  - intros sku p Hp _. destruct (group_head kb sku p Hp) as (c0 & rest & E & Hq).
    exists c0, rest. split; [| exact Hq].
    rewrite plan_problem_eq. cbn [lp_groups]. apply in_sku_groups.
    now exists p.
  - eexists _, _. split; [apply plan_spec |]. cbn [p_orders p_meta m_spend].
    set (x := solve (plan_problem kb)) in *.
    assert (Hnd : List.NoDup (map fst (map (order_entry x) (sku_groups kb))))
      by (rewrite orders_keys; exact products_nodup).
    split.
    + intros sku cands Hin Hn.
      rewrite plan_problem_eq in Hin. cbn [lp_groups] in Hin.
      apply in_sku_groups in Hin. destruct Hin as (p & Hp & ->).
      destruct (Hfb sku p Hp Hn) as [Hq Hs].
      exists (order_of (pick (x sku) (group kb sku p))).
      split; [apply in_orders; now exists p |].
      split; [exact Hq |]. split; [exact Hs |].
      intros o' Ho'. eapply nodup_fst_functional; [exact Hnd | exact Ho' |].
      apply in_orders. now exists p.
    + intros Hnone. split.
      * intros sku o Ho. apply in_orders in Ho. destruct Ho as (p & Hp & ->).
        apply (Hfb sku p Hp). intros i _. apply Hnone.
      * apply round2_zero. apply spend_total_zero.
        intros [sku cs] He. apply in_sku_groups in He.
        destruct He as (p & Hp & ->). cbn [fst snd].
        apply (Hfb sku p Hp). intros i _. apply Hnone.
Qed.

Lemma plan_falls_back_to_zero_witness :
  exists pl kb',
    @plan fixedpoint.libm backends.no_solution knowledge.init = Some (pl, kb')
    /\ (forall sku o, In (sku, o) (p_orders pl) ->
          o_qty o = 0%Z /\ (o_spend o == 0)%Q)
    /\ (m_spend (p_meta pl) == 0)%Q.
Proof.
  destruct (@plan_falls_back_to_zero fixedpoint.libm backends.no_solution
              knowledge.init) as (_ & pl & kb' & E & _ & Hall).
  exists pl, kb'. split; [exact E |]. apply Hall.
  intros sku i (v & Hv & _). discriminate Hv.
Defined.

(** ** The budget cap of the programme *)

(** C10.  The programme [plan] builds, its cap, the plan returned and the
    [budget_limit] it reports are the same whatever the [budget] field of
    the store holds; the cap and the reported limit are the constant
    [DAILY_BUDGET_LIMIT]. *)
Theorem plan_ignores_store_budget `{Libm} (solve : Solver) (kb : Knowledge)
    (b : Q) :
  plan_problem (set_budget b kb) = plan_problem kb
  /\ lp_budget (plan_problem kb) = DAILY_BUDGET_LIMIT
  /\ exists pl kb1 kb2,
       plan solve kb = Some (pl, kb1)
       /\ plan solve (set_budget b kb) = Some (pl, kb2)
       /\ budget_limit (p_meta pl) = DAILY_BUDGET_LIMIT.
Proof.
  assert (Hp : plan_problem (set_budget b kb) = plan_problem kb)
    by (now rewrite !plan_problem_eq).
  split; [exact Hp |]. split; [now rewrite plan_problem_eq |].
  eexists _, _, _. split; [apply plan_spec |].
  split; [| reflexivity].
  rewrite (plan_spec solve (set_budget b kb)). cbv zeta. rewrite Hp.
  reflexivity.
Qed.

(** ** The overstock policy *)

Lemma is_overstock_iff (sku : string) (mean_demand : Q) (stock_pos : Z) :
  _is_overstock sku mean_demand stock_pos = true
  <-> (1 < mean_demand)%Q
      /\ (Py.float_of_int OVERSTOCK_DAYS_OF_COVER
          < Py.fl (Py.float_of_int stock_pos / mean_demand))%Q.
Proof.
  unfold _is_overstock. destruct (Qle_bool mean_demand 1) eqn:E.
  - apply Qle_bool_iff in E. split; [discriminate |].
    intros [Hlt _]. exfalso. lra.
  - apply Qle_bool_gt in E. rewrite Qltb_lt. tauto.
Qed.

Lemma freeze_fold_absent (kb : Knowledge) (l : list string) (sku : string) :
  forall B, ~ In sku l -> fold_left (freeze kb) l B !! sku = B !! sku.
Proof.
  induction l as [| s l IH]; intros B Hn; cbn [fold_left]; [reflexivity |].
  rewrite IH by (intros Hin; apply Hn; now right).
  apply freeze_other. intros ->. apply Hn. now left.
Qed.

Lemma freeze_fold_idle (kb : Knowledge) (l : list string) (sku : string) :
  freezes kb sku = false ->
  forall B, fold_left (freeze kb) l B !! sku = B !! sku.
Proof.
  intros Hf. induction l as [| s l IH]; intros B; cbn [fold_left];
    [reflexivity |].
  rewrite IH. destruct (String.string_dec s sku) as [-> | Hne].
  - unfold freeze. now rewrite Hf.
  - now apply freeze_other.
Qed.

Lemma freeze_fold_frozen (kb : Knowledge) (l : list string) (sku : string) :
  freezes kb sku = true -> List.NoDup l -> In sku l ->
  forall B, fold_left (freeze kb) l B !! sku
            = Some (day kb + Z.max 0 STOP_ORDERS_DAYS)%Z.
Proof.
  intros Hf. induction l as [| s l IH]; intros Hnd Hin B; [destruct Hin |].
  inversion Hnd as [| ? ? Hs Hnd']; subst. cbn [fold_left].
  destruct (String.string_dec s sku) as [-> | Hne].
  - rewrite freeze_fold_absent by exact Hs.
    unfold freeze. rewrite Hf. apply lookup_insert_eq.
  - destruct Hin as [-> | Hin]; [congruence |]. now apply IH.
Qed.

Lemma in_stop_entries (kb : Knowledge) (sku : string) :
  In (stop_entry sku) (map stop_entry (List.filter (freezes kb) skus))
  <-> In sku skus /\ freezes kb sku = true.
Proof.
  rewrite in_map_iff. split.
  - intros (s & E & Hin). injection E as ->. now apply filter_In in Hin.
  - intros Hin. exists sku. split; [reflexivity |]. now apply filter_In.
Qed.

(** C8, as amended.  The overstock test is positive exactly when the forecast
    mean exceeds 1 and the quotient [stock_position / mean], rounded to
    binary64 as the interpreter computes it, exceeds the days-of-cover
    threshold (so never for a mean of at most 1, and for instance at mean 10
    and stock position 500).  For a catalogue product that is not blocked
    when [plan] runs: when the test is positive, the plan carries a
    stop-order entry for the product, the store blocks it until the current
    day plus the freeze duration, its group in the programme is the single
    zero-quantity candidate and the plan orders nothing of it; when the test
    is negative, there is no stop-order entry and the block of the product
    is left as it was.  For a catalogue product that is blocked when [plan]
    runs, whatever the test would say: there is no stop-order entry, the
    block is left as it was, and the group is again the single
    zero-quantity candidate, of which the plan orders nothing. *)
Theorem overstock_freeze `{Libm} (solve : Solver) (kb : Knowledge)
    (sku : string) :
  In sku skus ->
  let m := forecast_mean kb sku 0 in
  let stock_position := get_stock_position kb sku in
  let test := _is_overstock sku m stock_position in
  (forall s mean_demand stock_pos,
     ((mean_demand <= 1)%Q -> _is_overstock s mean_demand stock_pos = false)
     /\ (_is_overstock s mean_demand stock_pos = true
         <-> (1 < mean_demand)%Q
             /\ (Py.float_of_int OVERSTOCK_DAYS_OF_COVER
                 < Py.fl (Py.float_of_int stock_pos / mean_demand))%Q))
  /\ _is_overstock sku 10 500 = true
  /\ exists pl kb',
       plan solve kb = Some (pl, kb')
       /\ (is_blocked kb sku = false -> test = true ->
             In (stop_entry sku) (p_stop_orders pl)
             /\ blocks kb' !! sku = Some (day kb + STOP_ORDERS_DAYS)%Z
             /\ In (sku, [zero_candidate]) (lp_groups (plan_problem kb))
             /\ In (sku, zero_order) (p_orders pl))
       /\ (is_blocked kb sku = false -> test = false ->
             ~ In (stop_entry sku) (p_stop_orders pl)
             /\ blocks kb' !! sku = blocks kb !! sku)
       /\ (is_blocked kb sku = true ->
             ~ In (stop_entry sku) (p_stop_orders pl)
             /\ blocks kb' !! sku = blocks kb !! sku
             /\ In (sku, [zero_candidate]) (lp_groups (plan_problem kb))
             /\ In (sku, zero_order) (p_orders pl)).
Proof.
  intros Hin m stock_position test.
  split; [| split; [vm_compute; reflexivity |]].
  { intros s mean_demand stock_pos. split; [| apply is_overstock_iff].
    intros Hle. unfold _is_overstock.
    now rewrite (proj2 (Qle_bool_iff _ _) Hle). }
  destruct (proj1 (in_skus sku) Hin) as [p Hp].
  eexists _, _. split; [apply plan_spec |]. cbn [p_stop_orders p_orders].
  rewrite (proj1 (proj2 (proj2 (proj2 (generate_spec kb))))).
  split; [| split].
  - intros Hblk Ht.
    assert (Hfz : freezes kb sku = true).
    { unfold freezes, overstocked. rewrite Hblk. exact Ht. }
    assert (Hg : group kb sku p = [zero_candidate]).
    { unfold group. rewrite Hblk. unfold freezes in Hfz.
      rewrite Hblk in Hfz. cbn in Hfz. now rewrite Hfz. }
    split; [now apply in_stop_entries |].
    split; [now apply freeze_fold_frozen; [| exact products_nodup |] |].
    split.
    + rewrite plan_problem_eq. apply in_sku_groups. exists p. now rewrite Hg.
    + apply in_orders. exists p. now rewrite Hg, pick_singleton.
  - intros Hblk Ht.
    assert (Hfz : freezes kb sku = false).
    { unfold freezes, overstocked. rewrite Hblk. exact Ht. }
    split.
    + rewrite in_stop_entries. intros [_ C]. congruence.
    + now apply freeze_fold_idle.
  - intros Hblk.
    assert (Hfz : freezes kb sku = false).
    { unfold freezes. now rewrite Hblk. }
    assert (Hg : group kb sku p = [zero_candidate]).
    { unfold group. now rewrite Hblk. }
    split; [rewrite in_stop_entries; intros [_ C]; congruence |].
    split; [now apply freeze_fold_idle |].
    split.
    + rewrite plan_problem_eq. apply in_sku_groups. exists p. now rewrite Hg.
    + apply in_orders. exists p. now rewrite Hg, pick_singleton.
Qed.

Lemma overstock_freeze_witness :
  exists pl kb',
    @plan fixedpoint.libm backends.first_choice
          (set_blocks ∅ kb_blocked) = Some (pl, kb')
    /\ In (stop_entry "SKU_001") (p_stop_orders pl)
    /\ blocks kb' !! "SKU_001" = Some 7%Z.
Proof.
  destruct (@overstock_freeze fixedpoint.libm backends.first_choice
              (set_blocks ∅ kb_blocked) "SKU_001")
    as (_ & _ & pl & kb' & E & Hpos & _).
  - vm_compute. tauto.
  - exists pl, kb'. split; [exact E |].
    destruct Hpos as (H1 & H2 & _);
      [reflexivity | vm_compute; reflexivity |].
    split; assumption.
Defined.

(** C8, as stated, fails for a product that is already blocked: SKU_001 has
    a forecast mean of 10 and 55 days of cover in [kb_blocked], yet the
    plan carries no stop-order entry and the block still ends on day 6,
    not on day 5 + 2. *)
Lemma overstock_freeze_counterexample :
  (1 < forecast_mean kb_blocked "SKU_001" 0)%Q
  /\ (Py.float_of_int OVERSTOCK_DAYS_OF_COVER
      < Py.fl (Py.float_of_int (get_stock_position kb_blocked "SKU_001")
               / forecast_mean kb_blocked "SKU_001" 0))%Q
  /\ exists pl kb',
       @plan fixedpoint.libm backends.first_choice kb_blocked = Some (pl, kb')
       /\ p_stop_orders pl = []
       /\ blocks kb' !! "SKU_001" = Some 6%Z.
Proof.
  split; [reflexivity |]. split; [reflexivity |].
  eexists _, _. split; [apply (@plan_spec fixedpoint.libm) |].
  split; [reflexivity |].
  rewrite (proj1 (proj2 (proj2 (proj2
             (@generate_spec fixedpoint.libm kb_blocked))))).
  reflexivity.
Qed.

(** ** The budget constraint *)

Lemma group_sum_nonneg (vals : nat -> option Q) (cs : list Candidate) :
  forall i,
    (forall j, (j < length cs)%nat -> binary (vals (i + j)%nat)) ->
    (0 <= group_sum vals ones i cs)%Q.
Proof.
  induction cs as [| c cs IH]; intros i Hb; cbn [group_sum]; [apply Qle_refl |].
  assert (H0 := Hb 0%nat). rewrite Nat.add_0_r in H0.
  destruct H0 as (v & -> & Hv); [cbn; lia |]. cbn [default]. unfold id.
  assert (Hrest : (0 <= group_sum vals ones (S i) cs)%Q).
  { apply IH. intros j Hj. replace (S i + j)%nat with (i + S j)%nat by lia.
    apply Hb. cbn. lia. }
  change (ones c) with 1%Q. destruct Hv as [Hv | Hv]; lra.
Qed.

(** When no variable of a group is set, the group contributes nothing to
    any weighted sum. *)
Lemma group_sum_none (vals : nat -> option Q) (w : Candidate -> Q)
    (cs : list Candidate) :
  forall i,
    (forall j, (j < length cs)%nat -> binary (vals (i + j)%nat)) ->
    (group_sum vals ones i cs == 0)%Q ->
    (group_sum vals w i cs == 0)%Q
    /\ first_selected vals i cs = None.
Proof.
  induction cs as [| c cs IH]; intros i Hb Hs; cbn [group_sum first_selected];
    [split; reflexivity |].
  cbn [group_sum] in Hs.
  assert (Hb' : forall j, (j < length cs)%nat -> binary (vals (S i + j)%nat)).
  { intros j Hj. replace (S i + j)%nat with (i + S j)%nat by lia.
    apply Hb. cbn. lia. }
  assert (Hrest := group_sum_nonneg vals cs (S i) Hb').
  assert (H0 := Hb 0%nat). rewrite Nat.add_0_r in H0.
  destruct H0 as (v & E & Hv); [cbn; lia |].
  rewrite E in *. cbn [default] in *. unfold id in *. change (ones c) with 1%Q in Hs.
  assert (Hv0 : (v == 0)%Q) by (destruct Hv as [Hv | Hv]; [exact Hv | lra]).
  assert (Hs' : (group_sum vals ones (S i) cs == 0)%Q) by lra.
  destruct (IH (S i) Hb' Hs') as [Hw Hf].
  assert (Hq : Py.Qltb 0.5 v = false) by (apply Qltb_ge; rewrite Hv0; discriminate).
  rewrite Hq. split; [| exact Hf]. rewrite Hw, Hv0. ring.
Qed.

(** When exactly one variable of a group is set, the extraction finds that
    candidate, and its weight is the weighted sum of the group. *)
Lemma group_sum_one (vals : nat -> option Q) (w : Candidate -> Q)
    (cs : list Candidate) :
  forall i,
    (forall j, (j < length cs)%nat -> binary (vals (i + j)%nat)) ->
    (group_sum vals ones i cs == 1)%Q ->
    exists c, first_selected vals i cs = Some c
              /\ (w c == group_sum vals w i cs)%Q.
Proof.
  induction cs as [| c cs IH]; intros i Hb Hs; cbn [group_sum first_selected].
  - cbn in Hs. discriminate Hs.
  - cbn [group_sum] in Hs.
    assert (Hb' : forall j, (j < length cs)%nat -> binary (vals (S i + j)%nat)).
    { intros j Hj. replace (S i + j)%nat with (i + S j)%nat by lia.
      apply Hb. cbn. lia. }
    assert (H0 := Hb 0%nat). rewrite Nat.add_0_r in H0.
    destruct H0 as (v & E & Hv); [cbn; lia |].
    rewrite E in *. cbn [default] in *. unfold id in *. change (ones c) with 1%Q in Hs.
    destruct Hv as [Hv | Hv].
    + assert (Hq : Py.Qltb 0.5 v = false)
        by (apply Qltb_ge; rewrite Hv; discriminate).
      rewrite Hq.
      assert (Hs' : (group_sum vals ones (S i) cs == 1)%Q) by lra.
      destruct (IH (S i) Hb' Hs') as (c' & Hf & Hw).
      exists c'. split; [exact Hf |]. rewrite Hw, Hv. ring.
    + assert (Hq : Py.Qltb 0.5 v = true)
        by (apply Qltb_lt; rewrite Hv; reflexivity).
      rewrite Hq.
      assert (Hs' : (group_sum vals ones (S i) cs == 0)%Q) by lra.
      destruct (group_sum_none vals w cs (S i) Hb' Hs') as [Hw _].
      exists c. split; [reflexivity |]. rewrite Hw, Hv. ring.
Qed.

Lemma feasible_pick (P : LpProblem) (x : Valuation) (sku : string)
    (cs : list Candidate) :
  lp_feasible P x -> In (sku, cs) (lp_groups P) ->
  (spend (pick (x sku) cs) == group_sum (x sku) spend 0 cs)%Q.
Proof.
  intros (Hbin & Hone & _) Hin.
  destruct (group_sum_one (x sku) spend cs 0) as (c & Hf & Hw).
  - intros j Hj. now apply (Hbin sku cs).
  - now apply Hone.
  - unfold pick. destruct cs as [| c0 cs']; [discriminate Hf |].
    now rewrite Hf.
Qed.

Lemma spend_total_sum (x : Valuation) (groups : list (string * list Candidate)) :
  (forall sku cs, In (sku, cs) groups ->
     (spend (pick (x sku) cs) == group_sum (x sku) spend 0 cs)%Q) ->
  forall start,
    (spend_total x groups start == start + total_sum x spend groups)%Q.
Proof.
  unfold spend_total.
  induction groups as [| [sku cs] gs IH]; intros Hp start;
    cbn [fold_left total_sum fst snd].
  - ring.
  - rewrite IH by (intros s c Hin; apply Hp; now right).
    rewrite (Hp sku cs) by now left. ring.
Qed.

Lemma fsum_order_spends (x : Valuation)
    (groups : list (string * list Candidate)) :
  Py.fsum (map (fun e => o_spend (snd e)) (map (order_entry x) groups))
  = spend_total x groups 0.
Proof.
  unfold Py.fsum, spend_total. generalize 0%Q as start.
  induction groups as [| e gs IH]; intros start; cbn [map fold_left];
    [reflexivity |].
  now rewrite IH.
Qed.

(** ** The exhaustive-search back end is exact *)

Lemma in_assignments (groups : list (string * list Candidate)) :
  forall a, In a (assignments groups) <-> valid_assignment groups a.
Proof.
  induction groups as [| [s cs] gs IH]; intros a; cbn [assignments].
  - destruct a; cbn; intuition (try discriminate; auto).
  - rewrite in_flat_map. split.
    + intros (i & Hi & Ha). rewrite in_map_iff in Ha.
      destruct Ha as (a' & <- & Ha'). cbn. apply in_seq in Hi.
      split; [lia | now apply IH].
    + destruct a as [| k a']; [intros [] |]. intros [Hk Hv].
      exists k. split; [apply in_seq; lia |].
      apply in_map_iff. exists a'. split; [reflexivity | now apply IH].
Qed.

Lemma group_sum_ext (u v : nat -> option Q) (w : Candidate -> Q)
    (cs : list Candidate) :
  forall i, (forall j, u j = v j) -> group_sum u w i cs = group_sum v w i cs.
Proof.
  induction cs as [| c cs IH]; intros i E; cbn [group_sum]; [reflexivity |].
  now rewrite E, (IH (S i) E).
Qed.

Lemma total_sum_ext (x y : Valuation) (w : Candidate -> Q)
    (groups : list (string * list Candidate)) :
  (forall s, In s (map fst groups) -> forall i, x s i = y s i) ->
  total_sum x w groups = total_sum y w groups.
Proof.
  induction groups as [| [s cs] gs IH]; intros E; cbn [total_sum];
    [reflexivity |].
  rewrite IH by (intros s' Hs'; apply E; now right).
  now rewrite (group_sum_ext (x s) (y s)) by (apply E; now left).
Qed.

(** The weighted sum of a group whose variables are the indicator of
    position [k]. *)
Lemma group_sum_indicator (w : Candidate -> Q) (cs : list Candidate)
    (k : nat) :
  forall i, (i <= k)%nat ->
    (group_sum (fun j => Some (if (j =? k)%nat then 1 else 0)%Q) w i cs
     == chosen_weight w cs (k - i))%Q.
Proof.
  induction cs as [| c cs IH]; intros i Hi; cbn [group_sum].
  - unfold chosen_weight. now destruct (k - i)%nat.
  - destruct (Nat.eq_dec i k) as [-> | Hne].
    + rewrite Nat.eqb_refl, Nat.sub_diag. unfold chosen_weight at 1.
      cbn [nth_error default]. unfold id.
      assert (Hz : forall cs' i', (k < i')%nat ->
                (group_sum (fun j => Some (if (j =? k)%nat then 1 else 0)%Q)
                           w i' cs' == 0)%Q).
      { clear. induction cs' as [| c' cs' IH']; intros i' Hi'; cbn [group_sum];
          [reflexivity |].
        rewrite IH' by lia.
        assert (E : (i' =? k)%nat = false) by (apply Nat.eqb_neq; lia).
        rewrite E. cbn. ring. }
      rewrite Hz by lia. ring.
    + assert (E : (i =? k)%nat = false) by now apply Nat.eqb_neq.
      rewrite E, IH by lia. cbn [default]. unfold id.
      replace (k - i)%nat with (S (k - S i)) by lia.
      unfold chosen_weight. cbn [nth_error]. ring.
Qed.

Lemma indicator_at (groups : list (string * list Candidate)) :
  forall a sku cs,
    List.NoDup (map fst groups) -> valid_assignment groups a ->
    In (sku, cs) groups ->
    exists k, (k < length cs)%nat
              /\ forall i, indicator groups a sku i
                           = Some (if (i =? k)%nat then 1 else 0)%Q.
Proof.
  induction groups as [| [s cs0] gs IH]; intros a sku cs Hnd Hv Hin;
    [destruct Hin |].
  destruct a as [| k a']; [destruct Hv |]. destruct Hv as [Hk Hv].
  cbn [map fst] in Hnd. inversion Hnd as [| ? ? Hs Hnd']; subst.
  cbn [indicator]. destruct Hin as [E | Hin].
  - injection E as -> ->. exists k. split; [exact Hk |].
    intros i. now rewrite String.eqb_refl.
  - assert (Hne : String.eqb s sku = false).
    { apply String.eqb_neq. intros ->. apply Hs.
      apply in_map_iff. now exists (sku, cs). }
    destruct (IH a' sku cs Hnd' Hv Hin) as (k' & Hk' & E').
    exists k'. split; [exact Hk' |]. intros i. now rewrite Hne.
Qed.

Lemma indicator_total (w : Candidate -> Q)
    (groups : list (string * list Candidate)) :
  forall a,
    List.NoDup (map fst groups) -> valid_assignment groups a ->
    (total_sum (indicator groups a) w groups
     == assignment_total w groups a)%Q.
Proof.
  induction groups as [| [s cs] gs IH]; intros a Hnd Hv; [reflexivity |].
  destruct a as [| k a']; [destruct Hv |]. destruct Hv as [Hk Hv].
  cbn [map fst] in Hnd. inversion Hnd as [| ? ? Hs Hnd']; subst.
  cbn [total_sum assignment_total].
  rewrite (total_sum_ext _ (indicator gs a')).
  - rewrite IH by assumption.
    rewrite (group_sum_ext _ (fun j => Some (if (j =? k)%nat then 1 else 0)%Q)).
    + rewrite group_sum_indicator by lia. now rewrite Nat.sub_0_r.
    + intros j. cbn [indicator]. now rewrite String.eqb_refl.
  - intros s' Hs' i. cbn [indicator].
    assert (Hne : String.eqb s s' = false).
    { apply String.eqb_neq. intros ->. contradiction. }
    now rewrite Hne.
Qed.

(** A feasible point selects one position in each group. *)
Lemma group_sum_one_index (vals : nat -> option Q) (cs : list Candidate) :
  forall i,
    (forall j, (j < length cs)%nat -> binary (vals (i + j)%nat)) ->
    (group_sum vals ones i cs == 1)%Q ->
    exists k, (k < length cs)%nat
              /\ forall w, (chosen_weight w cs k == group_sum vals w i cs)%Q.
Proof.
  induction cs as [| c cs IH]; intros i Hb Hs; cbn [group_sum] in *.
  - discriminate Hs.
  - assert (Hb' : forall j, (j < length cs)%nat -> binary (vals (S i + j)%nat)).
    { intros j Hj. replace (S i + j)%nat with (i + S j)%nat by lia.
      apply Hb. cbn. lia. }
    assert (H0 := Hb 0%nat). rewrite Nat.add_0_r in H0.
    destruct H0 as (v & E & Hv); [cbn; lia |].
    rewrite E in *. cbn [default] in *. unfold id in *.
    change (ones c) with 1%Q in Hs.
    destruct Hv as [Hv | Hv].
    + assert (Hs' : (group_sum vals ones (S i) cs == 1)%Q) by lra.
      destruct (IH (S i) Hb' Hs') as (k & Hk & Hw).
      exists (S k). split; [cbn; lia |]. intros w.
      cbn [group_sum default]. unfold id.
      rewrite <- Hw, Hv. unfold chosen_weight. cbn [nth_error]. ring.
    + assert (Hs' : (group_sum vals ones (S i) cs == 0)%Q) by lra.
      exists 0%nat. split; [cbn; lia |]. intros w.
      cbn [group_sum default]. unfold id.
      rewrite (proj1 (group_sum_none vals w cs (S i) Hb' Hs')), Hv.
      unfold chosen_weight. cbn [nth_error]. ring.
Qed.

Lemma feasible_assignment (x : Valuation)
    (groups : list (string * list Candidate)) :
  (forall sku cs i, In (sku, cs) groups -> (i < length cs)%nat ->
     binary (x sku i)) ->
  (forall sku cs, In (sku, cs) groups ->
     (group_sum (x sku) ones 0 cs == 1)%Q) ->
  exists a, valid_assignment groups a
            /\ forall w, (assignment_total w groups a
                          == total_sum x w groups)%Q.
Proof.
  induction groups as [| [s cs] gs IH]; intros Hb H1.
  - exists []. split; [exact I | reflexivity].
  - destruct IH as (a' & Hv & Ha').
    { intros sku cs' i Hin. apply Hb. now right. }
    { intros sku cs' Hin. apply H1. now right. }
    destruct (group_sum_one_index (x s) cs 0) as (k & Hk & Hw).
    { intros j Hj. apply (Hb s cs); [now left | exact Hj]. }
    { apply H1. now left. }
    exists (k :: a'). split; [now split |].
    intros w. cbn [assignment_total total_sum]. now rewrite Hw, Ha'.
Qed.

Lemma best_assignment_fold (P : LpProblem) (l : list (list nat)) :
  forall acc,
    (forall b, acc = Some b -> within_budget P b = true) ->
    (forall b, fold_left (better P) l acc = Some b ->
       within_budget P b = true /\ (In b l \/ acc = Some b))
    /\ (acc <> None \/ (exists a, In a l /\ within_budget P a = true) ->
        fold_left (better P) l acc <> None).
Proof.
  induction l as [| a l IH]; intros acc Hacc; cbn [fold_left].
  - split.
    + intros b ->. split; [now apply Hacc | now right].
    + intros [Hn | (a & [] & _)]. exact Hn.
  - assert (Hstep : forall b, better P acc a = Some b ->
              within_budget P b = true /\ (b = a \/ acc = Some b)).
    { intros b. unfold better. destruct (within_budget P a) eqn:Ea.
      - destruct acc as [b0 |].
        + destruct (Py.Qltb _ _); intros [= <-].
          * split; [exact Ea | now left].
          * split; [now apply Hacc | now right].
        + intros [= <-]. split; [exact Ea | now left].
      - intros ->. split; [now apply Hacc | now right]. }
    destruct (IH (better P acc a) (fun b Hb => proj1 (Hstep b Hb)))
      as [I1 I2].
    split.
    + intros b Hb. destruct (I1 b Hb) as [Hw [Hin | Hbt]].
      * split; [exact Hw |]. left. now right.
      * split; [exact Hw |].
        destruct (Hstep b Hbt) as [_ [-> | ->]];
          [left; now left | now right].
    + intros Hex. apply I2.
      destruct Hex as [Hn | (a0 & [<- | Hin] & Ha0)].
      * left. unfold better. destruct (within_budget P a).
        -- destruct acc as [b0 |]; [now destruct (Py.Qltb _ _) | discriminate].
        -- exact Hn.
      * left. unfold better. rewrite Ha0.
        destruct acc as [b0 |]; [now destruct (Py.Qltb _ _) | discriminate].
      * right. now exists a0.
Qed.

(** On a programme whose groups have distinct keys, the exhaustive search
    returns a feasible point whenever one exists. *)
Lemma enumerate_solved (P : LpProblem) :
  List.NoDup (map fst (lp_groups P)) -> solved backends.enumerate P.
Proof.
  intros Hnd (x & Hb & H1 & Hcap).
  destruct (feasible_assignment x (lp_groups P) Hb H1) as (a0 & Hv0 & Ht0).
  assert (Hw0 : within_budget P a0 = true).
  { apply Qle_bool_iff. now rewrite Ht0. }
  destruct (best_assignment_fold P (assignments (lp_groups P)) None)
    as [I1 I2]; [discriminate |].
  unfold backends.enumerate. fold (best_assignment P) in I1, I2.
  destruct (best_assignment P) as [b |] eqn:Eb.
  - destruct (I1 b eq_refl) as [Hwb [Hin | C]]; [| discriminate C].
    apply in_assignments in Hin. apply Qle_bool_iff in Hwb.
    split; [| split].
    + intros sku cs i Hg _.
      destruct (indicator_at _ b sku cs Hnd Hin Hg) as (k & _ & E).
      rewrite E. eexists. split; [reflexivity |].
      destruct (i =? k)%nat; [now right | now left].
    + intros sku cs Hg.
      destruct (indicator_at _ b sku cs Hnd Hin Hg) as (k & Hk & E).
      rewrite (group_sum_ext _ _ _ _ 0%nat E).
      rewrite group_sum_indicator by lia. rewrite Nat.sub_0_r.
      unfold chosen_weight. destruct (nth_error cs k) eqn:En; [reflexivity |].
      apply nth_error_None in En. lia.
    + now rewrite indicator_total.
  - exfalso. apply I2; [| reflexivity]. right. exists a0.
    split; [now apply in_assignments | exact Hw0].
Qed.

Lemma best_assignment_max (P : LpProblem) (l : list (list nat)) :
  forall acc b,
    fold_left (better P) l acc = Some b ->
    (forall b0, acc = Some b0 ->
       (assignment_total utility (lp_groups P) b0
        <= assignment_total utility (lp_groups P) b)%Q)
    /\ (forall a, In a l -> within_budget P a = true ->
          (assignment_total utility (lp_groups P) a
           <= assignment_total utility (lp_groups P) b)%Q).
Proof.
  set (U := assignment_total utility (lp_groups P)).
  induction l as [| a l IH]; intros acc b Hb; cbn [fold_left] in Hb.
  - split; [| intros a []]. intros b0 E. rewrite E in Hb.
    injection Hb as ->. apply Qle_refl.
  - destruct (IH _ _ Hb) as [I1 I2]. split.
    + intros b0 ->. unfold better in I1.
      destruct (within_budget P a); [| now apply I1].
      fold U in I1. destruct (Py.Qltb (U b0) (U a)) eqn:E.
      * apply Qltb_lt in E. specialize (I1 a eq_refl). lra.
      * now apply I1.
    + intros a' [<- | Hin] Ha'; [| now apply I2].
      unfold better in I1. rewrite Ha' in I1. fold U in I1.
      destruct acc as [b0 |]; [| now apply I1].
      destruct (Py.Qltb (U b0) (U a)) eqn:E; [now apply I1 |].
      apply Qltb_ge in E. specialize (I1 b0 eq_refl). lra.
Qed.

(** No feasible point has a higher objective than the one the exhaustive
    search returns. *)
Lemma enumerate_optimal (P : LpProblem) (x : Valuation) :
  List.NoDup (map fst (lp_groups P)) -> lp_feasible P x ->
  (total_sum x utility (lp_groups P)
   <= total_sum (backends.enumerate P) utility (lp_groups P))%Q.
Proof.
  intros Hnd (Hb & H1 & Hcap).
  destruct (feasible_assignment x (lp_groups P) Hb H1) as (a0 & Hv0 & Ht0).
  assert (Hw0 : within_budget P a0 = true).
  { apply Qle_bool_iff. now rewrite Ht0. }
  destruct (best_assignment_fold P (assignments (lp_groups P)) None)
    as [I1 I2]; [discriminate |].
  unfold backends.enumerate. fold (best_assignment P) in I1, I2.
  destruct (best_assignment P) as [b |] eqn:Eb.
  - destruct (I1 b eq_refl) as [_ [Hin | C]]; [| discriminate C].
    apply in_assignments in Hin.
    rewrite indicator_total by assumption. rewrite <- Ht0.
    apply (proj2 (best_assignment_max P _ None b Eb));
      [now apply in_assignments | exact Hw0].
  - exfalso. apply I2; [| reflexivity]. right. exists a0.
    split; [now apply in_assignments | exact Hw0].
Qed.

(** *** Ordering nothing everywhere is feasible *)

Lemma first_choice_tail (w : Candidate -> Q) (cs : list Candidate) :
  forall i, (0 < i)%nat ->
    (group_sum (fun j => Some (if (j =? 0)%nat then 1 else 0)%Q) w i cs == 0)%Q.
Proof.
  induction cs as [| c cs IH]; intros i Hi; cbn [group_sum]; [reflexivity |].
  rewrite IH by lia. destruct i; [lia |]. cbn. ring.
Qed.

Lemma first_choice_feasible `{Libm} (P0 : LpProblem) (kb : Knowledge) :
  lp_feasible (plan_problem kb) (backends.first_choice P0).
Proof.
  rewrite plan_problem_eq. unfold backends.first_choice.
  split; [| split]; cbn [lp_groups lp_budget].
  - intros sku cs i _ _. eexists. split; [reflexivity |].
    destruct (i =? 0)%nat; [now right | now left].
  - intros sku cs Hin. apply in_sku_groups in Hin.
    destruct Hin as (p & Hp & ->).
    destruct (group_head kb sku p Hp) as (c0 & rest & -> & _).
    cbn [group_sum]. rewrite first_choice_tail by lia. cbn. ring.
  - assert (G : forall groups,
              (forall sku cs, In (sku, cs) groups ->
                 exists c0 rest, cs = c0 :: rest /\ (spend c0 == 0)%Q) ->
              (total_sum (fun _ j => Some (if (j =? 0)%nat then 1 else 0)%Q)
                         spend groups == 0)%Q).
    { induction groups as [| [sku cs] gs IH]; intros Hh; cbn [total_sum];
        [reflexivity |].
      rewrite IH by (intros s c Hin; apply (Hh s); now right).
      destruct (Hh sku cs) as (c0 & rest & -> & Hs0); [now left |].
      cbn [group_sum]. rewrite first_choice_tail by lia. cbn [default].
      unfold id. rewrite Hs0. ring. }
    rewrite G; [discriminate |].
    intros sku cs Hin. apply in_sku_groups in Hin.
    destruct Hin as (p & Hp & ->).
    destruct (group_head kb sku p Hp) as (c0 & rest & -> & _ & Hs0).
    now exists c0, rest.
Qed.

(** C1.  Whenever the solver leaves a feasible point of the programme in
    the variables, as an exact solver does on a feasible programme, and the
    programme of [plan] always is feasible, the spends of the orders of the
    plan add up to at most [DAILY_BUDGET_LIMIT], and so does the total
    reported in [plan['meta']['spend']]. *)
Theorem plan_spend_within_budget `{Libm} (solve : Solver) (kb : Knowledge) :
  solved solve (plan_problem kb) ->
  (exists x, lp_feasible (plan_problem kb) x)
  /\ exists pl kb',
       plan solve kb = Some (pl, kb')
       /\ (Py.fsum (map (fun e => o_spend (snd e)) (p_orders pl))
           <= DAILY_BUDGET_LIMIT)%Q
       /\ m_spend (p_meta pl)
          = Py.round2 (Py.fsum (map (fun e => o_spend (snd e)) (p_orders pl)))
       /\ (m_spend (p_meta pl) <= DAILY_BUDGET_LIMIT)%Q.
Proof.
  intros Hsolved.
  assert (Hex : exists x, lp_feasible (plan_problem kb) x).
  { exists (backends.first_choice (plan_problem kb)).
    apply first_choice_feasible. }
  split; [exact Hex |].
  specialize (Hsolved Hex).
  eexists _, _. split; [apply plan_spec |].
  cbn [p_orders p_meta m_spend]. rewrite fsum_order_spends.
  set (x := solve (plan_problem kb)) in *.
  assert (Hle : (spend_total x (sku_groups kb) 0 <= DAILY_BUDGET_LIMIT)%Q).
  { rewrite spend_total_sum.
    - destruct Hsolved as (_ & _ & Hb). rewrite plan_problem_eq in Hb.
      cbn [lp_groups lp_budget] in Hb. lra.
    - intros sku cs Hin. apply (feasible_pick (plan_problem kb)); [exact Hsolved |].
      now rewrite plan_problem_eq. }
  split; [exact Hle |]. split; [reflexivity |].
  now apply (round2_le_int _ 30000).
Qed.

Lemma plan_spend_within_budget_witness :
  exists pl kb',
    @plan fixedpoint.libm enumerate kb_surge = Some (pl, kb')
    /\ (m_spend (p_meta pl) <= DAILY_BUDGET_LIMIT)%Q.
Proof.
  destruct (@plan_spend_within_budget fixedpoint.libm enumerate kb_surge)
    as (_ & pl & kb' & E & _ & _ & Hle).
  - apply enumerate_solved. rewrite (@plan_problem_eq fixedpoint.libm).
    cbn [lp_groups]. rewrite (@sku_groups_keys fixedpoint.libm).
    exact products_nodup.
  - exists pl, kb'. split; assumption.
Defined.

(** ** The executor's budget check (executor.py, [execute]) *)

(** [execute] reads [kb.daily_budget_spent] in its check but never adds the
    spend of an order it places to it. *)
Lemma execute_order_budget_spent (randint : nat -> Z -> Z -> Z)
    (st st' : executor.ExecState) (e : string * Order) :
  executor.execute_order randint st e = Some st' ->
  daily_budget_spent (executor.x_kb st')
  = daily_budget_spent (executor.x_kb st).
Proof.
  destruct e as [sku od]. unfold executor.execute_order.
  destruct (o_qty od <=? 0)%Z; [now intros [= <-] |].
  destruct (lookup_product sku PRODUCTS) as [p |]; [| discriminate].
  destruct (Py.Qltb _ _); [now intros [= <-] |].
  destruct (environment.place_order _ _ _ _) as [[lt env'] |]; [| discriminate].
  now intros [= <-].
Qed.

(** C9 fails on the code.  Given [plan_over_cap], the executor places both
    orders and commits 45095 in one cycle, above the daily limit of 30000:
    each order is compared with the whole limit, because the amount already
    spent stays 0. *)
Theorem execute_exceeds_daily_limit (randint : nat -> Z -> Z -> Z) :
  match executor.execute randint env_init knowledge.init plan_over_cap with
  | Some (acts, _, kb') =>
      map executor.pl_qty (executor.orders_placed acts) = [50; 50]%Z
      /\ (executor.act_spend acts == 45095)%Q
      /\ (DAILY_BUDGET_LIMIT < executor.act_spend acts)%Q
      /\ daily_budget_spent kb' = 0%Q
  | None => False
  end.
Proof. vm_compute. repeat split; reflexivity. Qed.

(** ** The model at work on sample stores *)

Example round_half_even :
  Py.round 0.5 = 0%Z /\ Py.round 1.5 = 2%Z /\ Py.round 2.5 = 2%Z
  /\ Py.round 3.5 = 4%Z /\ Py.round (-0.5) = 0%Z /\ Py.round 2.6 = 3%Z.
Proof. repeat split; reflexivity. Qed.

(** After eight quiet days and a surge, the analysis stores the forecast and
    a spike for SKU_001, and nothing for the products without history. *)
Example analyze_surge :
  let kb' := fst (@analyze binary64.libm kb_surge) in
  option_map f_mean (forecast kb' !! "SKU_001") = Some (Py.fl (220 # 9))
  /\ option_map a_type (anomalies kb' !! "SKU_001") = Some spike
  /\ option_map f_std (forecast kb' !! "SKU_002") = Some 1%Q
  /\ anomalies kb' !! "SKU_002" = None
  /\ map fst (an_anomalies (snd (@analyze binary64.libm kb_surge)))
     = ["SKU_001"].
Proof. vm_compute. repeat split; reflexivity. Qed.

(** Four days at 20 followed by one at 60 put the last day exactly two
    standard deviations above the mean: no anomaly. *)
Example threshold_tie :
  let hist := days 4 20 20 ++ days 1 60 60 in
  let ms := @_mean_std binary64.libm (eff_demand hist) in
  (fst ms == 28)%Q /\ (snd ms == 16)%Q
  /\ ((60 - fst ms) / snd ms == z_thr)%Q
  /\ detect hist (fst ms) (snd ms) = None.
Proof. vm_compute. repeat split; reflexivity. Qed.

(** Rounding decides on plain integer windows.  Four days at 20 followed by
    one at 21 have mean 20.2 and standard deviation 0.4, so that the last
    day is two standard deviations above the mean; neither 20.2 nor 0.4 is
    a binary64 number, the interpreter computes 2.0000000000000018 and the
    day is a spike.  In the same way a day at 2 after four at 5 is a drop,
    at -2.0000000000000004. *)
Example spike_by_rounding :
  let hist := days 4 20 20 ++ days 1 21 21 in
  let xs := eff_demand hist in
  let ms := @_mean_std binary64.libm xs in
  let low := days 4 5 5 ++ days 1 2 2 in
  let ms' := @_mean_std binary64.libm (eff_demand low) in
  ((21 - statistics.exact_mean xs) / (2 # 5) == z_thr)%Q
  /\ fst ms = Py.fl (101 # 5) /\ snd ms = Py.fl (2 # 5)
  /\ option_map a_type (detect hist (fst ms) (snd ms)) = Some spike
  /\ option_map a_z (detect hist (fst ms) (snd ms))
     = Some (1125899906842625 # 562949953421312)%Q
  /\ option_map a_type (detect low (fst ms') (snd ms')) = Some drop
  /\ option_map a_z (detect low (fst ms') (snd ms'))
     = Some (- 4503599627370497 # 2251799813685248)%Q.
Proof. vm_compute. repeat split; reflexivity. Qed.

(** On the window 17, 23, 19, 30, 41 the forecast and the z-score are the
    floats the interpreter prints as 26.0, 8.717797887081348 and
    1.7206180040292132. *)
Example analyzer_floats :
  let hist := days 1 17 17 ++ days 1 23 23 ++ days 1 19 19 ++ days 1 30 30
              ++ days 1 41 41 in
  let ms := @_mean_std binary64.libm (eff_demand hist) in
  let z := Py.fl (Py.fl (41 - fst ms) / snd ms) in
  fst ms = 26%Q
  /\ snd ms = (4907683914468857 # 562949953421312)%Q
  /\ z = (7748974601792931 # 4503599627370496)%Q
  /\ detect hist (fst ms) (snd ms) = None.
Proof. vm_compute. repeat split; reflexivity. Qed.

(** The same holds of the days of cover.  For the mean of 17, 17, 17, 18, 18,
    which is 17.4, a stock position of 783 is 45 days of cover; the float
    nearest to 17.4 is below it, the rounded quotient is above 45 and the
    test is positive.  For 20.2 and 909 the quotient of 909 by the float is
    above 45, it rounds to 45 and the test is negative. *)
Example overstock_by_rounding :
  let m1 := statistics.mean [17; 17; 17; 18; 18]%Q in
  let m2 := statistics.mean [20; 20; 20; 20; 21]%Q in
  (statistics.exact_mean [17; 17; 17; 18; 18] * 45 == 783)%Q
  /\ _is_overstock "SKU_001" m1 783 = true
  /\ (45 < inject_Z 909 / m2)%Q
  /\ _is_overstock "SKU_001" m2 909 = false.
Proof. vm_compute. repeat split; reflexivity. Qed.

(** With the exact back end, the plan for the store after a week of
    shortages orders 25 laptops and 25 phones, for 22595; larger orders
    have a higher utility (see [plan_trusts_solver]) but pass the cap of
    30000. *)
Example capped_plan :
  match @plan fixedpoint.libm enumerate
          (fst (@analyze fixedpoint.libm kb_short)) with
  | Some (pl, _) =>
      map (fun e => (fst e, o_qty (snd e))) (p_orders pl)
      = [("SKU_001", 25); ("SKU_002", 25); ("SKU_003", 0); ("SKU_004", 0)]%Z
      /\ blocked_skus (p_meta pl) = ["SKU_003"; "SKU_004"]
      /\ (m_spend (p_meta pl) == 22595)%Q
  | None => False
  end.
Proof. vm_compute. repeat split; reflexivity. Qed.

(** [plan] itself does not test the budget: it reports whatever the
    variables select.  With the faulty back end the plan spends 225095. *)
Example plan_trusts_solver :
  match @plan fixedpoint.libm largest_choice
          (fst (@analyze fixedpoint.libm kb_short)) with
  | Some (pl, _) =>
      map (fun e => o_qty (snd e)) (p_orders pl) = [250; 250; 0; 0]%Z
      /\ (m_spend (p_meta pl) == 225095)%Q
      /\ (DAILY_BUDGET_LIMIT < m_spend (p_meta pl))%Q
  | None => False
  end.
Proof. vm_compute. repeat split; reflexivity. Qed.

(* ================================================================== *)
(** * Further properties of the code *)

(** ** The newsvendor quantities stay in range *)

(** Whatever the math library returns, the expected sales lie between 0 and
    the available stock, the expected stockout is not negative, and
    together they cover the mean. *)
Theorem expected_sales_stockout_bounds `{Libm} (mu sigma A : Q) :
  (0 <= A)%Q ->
  let r := _expected_sales_stockout mu sigma A in
  (0 <= fst r)%Q /\ (fst r <= A)%Q /\ (0 <= snd r)%Q
  /\ (mu <= fst r + snd r)%Q.
Proof.
  intros HA. unfold _expected_sales_stockout.
  destruct (Qle_bool sigma 1e-6); cbv zeta; cbn [fst snd].
  - repeat split.
    + apply Q.le_max_l.
    + apply Q.max_lub; [exact HA | apply Q.le_min_r].
    + apply Q.le_max_l.
    + assert (H1 := Q.le_max_r 0 (mu - Qmin mu A)).
      assert (H2 := Q.le_max_r 0 (Qmin mu A)). lra.
  - set (e := (mu * _ + A * _ - _)%Q). repeat split.
    + apply Q.le_max_l.
    + apply Q.max_lub; [exact HA | apply Q.le_min_l].
    + apply Q.le_max_l.
    + assert (H1 := Q.le_max_r 0 (mu - Qmax 0 (Qmin A e))). lra.
Qed.

Lemma expected_sales_stockout_bounds_witness :
  let r := @_expected_sales_stockout fixedpoint.libm 60 12 45 in
  (0 <= fst r)%Q /\ (fst r <= 45)%Q /\ (0 <= snd r)%Q
  /\ (60 <= fst r + snd r)%Q.
Proof.
  apply (@expected_sales_stockout_bounds fixedpoint.libm 60 12 45).
  vm_compute. discriminate.
Defined.

(** ** Pruning (planner.py, the [best] table of [plan]) *)

Lemma dict_get_none {V} (k : Z) (d : list (Z * V)) :
  Py.dict_get k d = None <-> ~ In k (map fst d).
Proof.
  induction d as [| [k' v'] d IH]; cbn; [tauto |].
  destruct (Z.eqb_spec k k') as [-> | Hne].
  - split; [discriminate | intros Hn; exfalso; apply Hn; now left].
  - rewrite IH. split; [intros Hn [E | Hin]; [congruence | tauto] | tauto].
Qed.

Lemma dict_get_some {V} (k : Z) (d : list (Z * V)) (v : V) :
  Py.dict_get k d = Some v -> In (k, v) d.
Proof.
  induction d as [| [k' v'] d IH]; cbn; [discriminate |].
  destruct (Z.eqb_spec k k') as [-> | Hne].
  - intros [= ->]. now left.
  - intros E. right. now apply IH.
Qed.

Lemma dict_set_fresh {V} (k : Z) (v : V) (d : list (Z * V)) :
  ~ In k (map fst d) -> Py.dict_set k v d = d ++ [(k, v)].
Proof.
  induction d as [| [k' v'] d IH]; cbn; [reflexivity |].
  intros Hn. destruct (Z.eqb_spec k k') as [-> | Hne]; [tauto |].
  rewrite IH by tauto. reflexivity.
Qed.

Lemma dict_set_keys {V} (k : Z) (v : V) (d : list (Z * V)) :
  In k (map fst d) -> map fst (Py.dict_set k v d) = map fst d.
Proof.
  induction d as [| [k' v'] d IH]; cbn; [intros [] |].
  destruct (Z.eqb_spec k k') as [-> | Hne]; [reflexivity |].
  intros [E | Hin]; [congruence |]. cbn. now rewrite IH.
Qed.

Lemma dict_set_in {V} (k : Z) (v : V) (d : list (Z * V)) (k' : Z) (v' : V) :
  List.NoDup (map fst d) ->
  In (k', v') (Py.dict_set k v d)
  <-> (k' = k /\ v' = v) \/ (k' <> k /\ In (k', v') d).
Proof.
  induction d as [| [k0 v0] d IH]; cbn; intros Hnd.
  - split; [intros [[= <- <-] | []]; now left |].
    intros [[-> ->] | [_ []]]. now left.
  - inversion Hnd as [| ? ? Hk0 Hnd']; subst.
    destruct (Z.eqb_spec k k0) as [-> | Hne]; cbn.
    + split.
      * intros [[= <- <-] | Hin]; [now left |]. right. split; [| now right].
        intros ->. apply Hk0. apply in_map_iff. now exists (k0, v').
      * intros [[-> ->] | [Hne [[= E _] | Hin]]];
          [now left | congruence | now right].
    + rewrite (IH Hnd'). split.
      * intros [[= <- <-] | [[-> ->] | [Hk Hin]]];
          [right; split; [congruence | now left] | now left |].
        right. split; [exact Hk | now right].
      * intros [[-> ->] | [Hk [[= <- <-] | Hin]]];
          [right; now left | now left | right; right; now split].
Qed.

Lemma prune_step_inv (seen : list Candidate) (best : list (Z * Candidate))
    (c : Candidate) :
  table_inv seen best -> table_inv (seen ++ [c]) (prune_step best c).
Proof.
  intros (Hnd & Hent & Hdom). unfold prune_step.
  set (b := Py.round (spend c)).
  destruct (Py.dict_get b best) as [c0 |] eqn:Eg.
  - assert (Hin0 := dict_get_some _ _ _ Eg).
    assert (Hkey : In b (map fst best))
      by (apply in_map_iff; now exists (b, c0)).
    destruct (Py.Qltb (utility c0) (utility c)) eqn:Eu.
    + apply Qltb_lt in Eu. split; [| split].
      * now rewrite dict_set_keys.
      * intros k v Hin. apply dict_set_in in Hin; [| exact Hnd].
        destruct Hin as [[-> ->] | [_ Hin]].
        -- split; [reflexivity |]. apply in_or_app. right. now left.
        -- destruct (Hent k v Hin) as [Hk Hs]. split; [exact Hk |].
           apply in_or_app. now left.
      * intros c' Hc'. apply in_app_or in Hc'.
        destruct Hc' as [Hc' | [<- | []]].
        -- destruct (Hdom c' Hc') as (v & Hv & Hle).
           destruct (Z.eq_dec (Py.round (spend c')) b) as [E | Hne].
           ++ exists c. split.
              ** apply dict_set_in; [exact Hnd |]. left. now split.
              ** rewrite E in Hv.
                 assert (v = c0)
                   by (eapply nodup_fst_functional; eauto).
                 subst v. lra.
           ++ exists v. split; [| exact Hle].
              apply dict_set_in; [exact Hnd |]. right. now split.
        -- exists c. split; [| apply Qle_refl].
           apply dict_set_in; [exact Hnd |]. left. now split.
    + apply Qltb_ge in Eu. split; [exact Hnd |]. split.
      * intros k v Hin. destruct (Hent k v Hin) as [Hk Hs].
        split; [exact Hk |]. apply in_or_app. now left.
      * intros c' Hc'. apply in_app_or in Hc'.
        destruct Hc' as [Hc' | [<- | []]]; [now apply Hdom |].
        exists c0. now split.
  - apply dict_get_none in Eg. rewrite dict_set_fresh by exact Eg.
    split; [| split].
    + rewrite map_app. cbn. apply List.NoDup_app; [exact Hnd | |].
      * repeat constructor. intros [].
      * intros k Hk [<- | []]. contradiction.
    + intros k v Hin. apply in_app_or in Hin.
      destruct Hin as [Hin | [[= <- <-] | []]].
      * destruct (Hent k v Hin) as [Hk Hs]. split; [exact Hk |].
        apply in_or_app. now left.
      * split; [reflexivity |]. apply in_or_app. right. now left.
    + intros c' Hc'. apply in_app_or in Hc'.
      destruct Hc' as [Hc' | [<- | []]].
      * destruct (Hdom c' Hc') as (v & Hv & Hle). exists v.
        split; [apply in_or_app; now left | exact Hle].
      * exists c. split; [apply in_or_app; right; now left | apply Qle_refl].
Qed.

Lemma prune_fold_inv (cs : list Candidate) :
  forall seen best,
    table_inv seen best ->
    table_inv (seen ++ cs) (fold_left prune_step cs best).
Proof.
  induction cs as [| c cs IH]; intros seen best Hinv; cbn [fold_left].
  - now rewrite app_nil_r.
  - replace (seen ++ c :: cs) with ((seen ++ [c]) ++ cs)
      by (now rewrite <- app_assoc).
    apply IH. now apply prune_step_inv.
Qed.

(** The pruning keeps, for every rounded spend that occurs, exactly one of
    the candidates given, and one of highest utility among those with that
    rounded spend. *)
Theorem prune_spec (cs : list Candidate) :
  (forall c, In c (prune cs) -> In c cs)
  /\ List.NoDup (map (fun c => Py.round (spend c)) (prune cs))
  /\ (forall c, In c cs ->
        exists c', In c' (prune cs)
                   /\ Py.round (spend c') = Py.round (spend c)
                   /\ (utility c <= utility c')%Q).
Proof.
  assert (Hinv : table_inv cs (fold_left prune_step cs [])).
  { apply (prune_fold_inv cs [] []). split; [constructor |].
    split; [intros k v [] | intros c []]. }
  destruct Hinv as (Hnd & Hent & Hdom). unfold prune, Py.dict_values.
  split; [| split].
  - intros c Hc. apply in_map_iff in Hc. destruct Hc as ([k v] & <- & Hin).
    now apply (Hent k v).
  - rewrite map_map.
    replace (map (fun e => Py.round (spend (snd e))) (fold_left prune_step cs []))
      with (map fst (fold_left prune_step cs [])); [exact Hnd |].
    apply map_ext_in. intros [k v] Hin. cbn. now apply (Hent k v).
  - intros c Hc. destruct (Hdom c Hc) as (v & Hv & Hle).
    exists v. split; [| split; [| exact Hle]].
    + apply in_map_iff. now exists (Py.round (spend c), v).
    + symmetry. now apply (Hent _ v).
Qed.

(** When no two candidates round to the same spend, nothing is pruned. *)
Lemma prune_fold_distinct (cs : list Candidate) :
  forall best,
    List.NoDup (map fst best ++ map (fun c => Py.round (spend c)) cs) ->
    fold_left prune_step cs best
    = best ++ map (fun c => (Py.round (spend c), c)) cs.
Proof.
  induction cs as [| c cs IH]; intros best Hnd; cbn [fold_left map].
  - now rewrite app_nil_r.
  - cbn [map] in Hnd.
    assert (Hfresh : ~ In (Py.round (spend c)) (map fst best)).
    { intros Hin. apply List.NoDup_remove_2 in Hnd. apply Hnd.
      apply in_or_app. now left. }
    assert (Hstep : prune_step best c = best ++ [(Py.round (spend c), c)]).
    { unfold prune_step. rewrite (proj2 (dict_get_none _ _) Hfresh).
      now apply dict_set_fresh. }
    rewrite Hstep, IH.
    + now rewrite <- app_assoc.
    + rewrite map_app. cbn [map fst]. rewrite <- app_assoc. exact Hnd.
Qed.

Lemma prune_distinct (cs : list Candidate) :
  List.NoDup (map (fun c => Py.round (spend c)) cs) -> prune cs = cs.
Proof.
  intros Hnd. unfold prune, Py.dict_values.
  rewrite (prune_fold_distinct cs []) by exact Hnd.
  cbn [app]. rewrite map_map. cbn [snd]. apply map_id.
Qed.

Lemma catalogue_spends_distinct (sku : string) (p : Product) :
  In (sku, p) PRODUCTS ->
  List.NoDup (map (fun q => Py.round (ordercost p q)) CANDIDATE_QTYS).
Proof.
  intros Hp. cbn in Hp.
  destruct Hp as [E | [E | [E | [E | []]]]]; injection E as <- <-;
    vm_compute; repeat constructor; cbn; intuition discriminate.
Qed.

(** For every catalogue product and every store, pruning removes nothing:
    the menu of the product holds one candidate per menu quantity, in menu
    order, each at its order cost. *)
Theorem menu_keeps_every_quantity `{Libm} (kb : Knowledge) (sku : string)
    (p : Product) :
  In (sku, p) PRODUCTS ->
  map qty (menu kb sku p) = CANDIDATE_QTYS
  /\ map spend (menu kb sku p) = map (ordercost p) CANDIDATE_QTYS.
Proof.
  intros Hp. unfold menu.
  destruct (shape_map kb sku p (map (candidate_utility kb sku p) CANDIDATE_QTYS))
    as (g & -> & Hg).
  assert (Hs : map spend (map g (map (candidate_utility kb sku p) CANDIDATE_QTYS))
               = map (ordercost p) CANDIDATE_QTYS).
  { rewrite !map_map. apply map_ext. intros q.
    rewrite (proj1 (Hg _)). apply candidate_utility_spend. }
  assert (Hq : map qty (map g (map (candidate_utility kb sku p) CANDIDATE_QTYS))
               = CANDIDATE_QTYS).
  { rewrite !map_map. rewrite <- (map_id CANDIDATE_QTYS) at 2.
    apply map_ext. intros q.
    rewrite (proj2 (Hg _)). apply candidate_utility_spend. }
  rewrite prune_distinct; [now split |].
  rewrite <- (map_map spend Py.round), Hs, map_map.
  now apply (catalogue_spends_distinct sku).
Qed.

Lemma menu_keeps_every_quantity_witness :
  map qty (@menu fixedpoint.libm kb_surge "SKU_004"
             {| name := "Mouse"; daily_demand_mean := 70;
                daily_demand_std := 18; unit_price := 35; unit_cost := 8;
                holding_cost_per_unit_day := 0.02; order_fixed_cost := 15;
                lead_time_days := (1, 2)%Z; initial_stock := 700 |})
  = CANDIDATE_QTYS.
Proof.
  apply (@menu_keeps_every_quantity fixedpoint.libm kb_surge "SKU_004").
  vm_compute. tauto.
Defined.

(** ** The priority adjustment (planner.py, [plan]) *)

Lemma Forall2_map_r {A B} (R : A -> B -> Prop) (f : A -> B) (l : list A) :
  (forall a, R a (f a)) -> List.Forall2 R l (map f l).
Proof. intros Hf. induction l; cbn; constructor; auto. Qed.

(** The adjustment keeps the candidates in order and only moves their
    utilities, in the direction that favours ordering while the service
    level is below or just above the target. *)
Theorem shape_spec `{Libm} (kb : Knowledge) (sku : string) (p : Product)
    (cs : list Candidate) :
  List.Forall2 (shaped (default 1%Q (service_level kb !! sku)))
               cs (shape kb sku p cs).
Proof.
  unfold shape.
  set (sl := default 1%Q (service_level kb !! sku)).
  set (pw := Qmax 1 (m_pow (unit_price p / 50) 1.3)).
  set (md := Qmax 1 (forecast_mean kb sku 20)).
  assert (Hpw : (1 <= pw)%Q) by apply Q.le_max_l.
  assert (Hmd : (1 <= md)%Q) by apply Q.le_max_l.
  destruct (Py.Qltb sl SERVICE_LEVEL_TARGET) eqn:E1.
  - apply Qltb_lt in E1. apply Forall2_map_r. intros c. unfold shaped.
    destruct (Z.eqb_spec (qty c) 0) as [Hq | Hq]; cbn [qty spend utility].
    + split; [reflexivity |]. split; [reflexivity |]. split; [| split].
      * intros _. split; [| lia]. intros _.
        assert (0 < (SERVICE_LEVEL_TARGET - sl) * md * 20000 * pw)%Q.
        { repeat apply Qmult_lt_0_compat; lra. }
        lra.
      * intros Hge. exfalso. lra.
      * intros Hge. exfalso. lra.
    + split; [reflexivity |]. split; [reflexivity |]. split; [| split].
      * intros _. split; [contradiction |]. intros Hpos.
        assert (0 < (SERVICE_LEVEL_TARGET - sl) * inject_Z (qty c) * 500 * pw)%Q.
        { repeat apply Qmult_lt_0_compat; try lra.
          rewrite (Zlt_Qlt 0 (qty c)) in Hpos. exact Hpos. }
        lra.
      * intros Hge. exfalso. lra.
      * intros Hge. exfalso. lra.
  - apply Qltb_ge in E1.
    destruct (Py.Qltb sl (SERVICE_LEVEL_TARGET + 0.03)) eqn:E2.
    + apply Qltb_lt in E2. apply Forall2_map_r. intros c. unfold shaped.
      destruct (Z.ltb_spec 0 (qty c)) as [Hq | Hq]; cbn [qty spend utility].
      * split; [reflexivity |]. split; [reflexivity |]. split; [| split].
        -- intros Hlt. exfalso. lra.
        -- intros _ _. split; [| lia]. intros _.
           assert (0 < inject_Z (qty c) * 100 * pw)%Q.
           { repeat apply Qmult_lt_0_compat; try lra.
             rewrite (Zlt_Qlt 0 (qty c)) in Hq. exact Hq. }
           lra.
        -- intros Hge. exfalso. lra.
      * split; [reflexivity |]. split; [reflexivity |]. split; [| split].
        -- intros Hlt. exfalso. lra.
        -- intros _ _. split; [lia | reflexivity].
        -- reflexivity.
    + apply Qltb_ge in E2. rewrite <- (map_id cs) at 2.
      apply Forall2_map_r. intros c. unfold shaped.
      split; [reflexivity |]. split; [reflexivity |]. split; [| split].
      * intros Hlt. exfalso. lra.
      * intros _ Hlt. exfalso. lra.
      * reflexivity.
Qed.

(** ** What [plan] writes to the store *)

Section plan_writes.
Context `{Libm}.

Lemma refresh_fold (kb : Knowledge) (l : list string) :
  forall k, volatility k = volatility kb ->
    let k' := fold_left (fun k sku => snd (_dynamic_z sku k)) l k in
    (forall sku, In sku l -> safety_z k' !! sku = Some (dynamic_z kb sku))
    /\ (forall sku, ~ In sku l -> safety_z k' !! sku = safety_z k !! sku).
Proof.
  induction l as [| s l IH]; intros k Hv; cbn [fold_left].
  - split; [intros sku [] | reflexivity].
  - destruct (IH (snd (_dynamic_z s k)) Hv) as [I1 I2].
    assert (Hs : safety_z (snd (_dynamic_z s k)) !! s
                 = Some (dynamic_z kb s)).
    { unfold _dynamic_z, dynamic_z. cbn. rewrite Hv. apply lookup_insert_eq. }
    split.
    + intros sku Hin. destruct (in_dec String.string_dec sku l) as [Hl | Hl];
        [now apply I1 |].
      destruct Hin as [-> | Hin]; [| contradiction].
      now rewrite I2.
    + intros sku Hn. cbn [In] in Hn. rewrite I2 by tauto.
      unfold _dynamic_z. cbn. apply lookup_insert_ne. tauto.
Qed.

(** The store [plan] returns is the store it was given with new safety
    factors and new blocks, and nothing else changed. *)
Lemma generate_store (kb : Knowledge) :
  g_kb (generate kb)
  = set_blocks (fold_left (freeze kb) skus (blocks kb))
               (set_safety_z_map (safety_z (refresh_safety kb)) kb).
Proof.
  unfold generate. destruct (refresh_safety_eq kb) as [V EV]. rewrite EV.
  destruct (gen_fold (set_safety_z_map V kb) PRODUCTS
              (blocks (set_safety_z_map V kb))
              {| g_kb := set_safety_z_map V kb; g_cands := [];
                 g_blocked := []; g_stop := [] |} products_nodup)
    as (I1 & _).
  { now destruct kb. }
  { reflexivity. }
  rewrite I1. reflexivity.
Qed.

End plan_writes.

(** After [plan], every catalogue product has a safety factor between
    [Z_MIN] and [Z_MAX], namely [Z_BASE + VOL_TO_Z_SCALE * volatility]
    clamped to that range (with volatility 1 when none is stored); the
    factors stored under other keys are left alone. *)
Theorem plan_safety_factors `{Libm} (solve : Solver) (kb : Knowledge) :
  exists pl kb',
    plan solve kb = Some (pl, kb')
    /\ (forall sku, In sku skus ->
          safety_z kb' !! sku = Some (dynamic_z kb sku)
          /\ (Z_MIN <= dynamic_z kb sku)%Q /\ (dynamic_z kb sku <= Z_MAX)%Q)
    /\ (forall sku, ~ In sku skus -> safety_z kb' !! sku = safety_z kb !! sku).
Proof.
  eexists _, _. split; [apply plan_spec |].
  rewrite generate_store. cbn [safety_z set_blocks set_safety_z_map].
  destruct (refresh_fold kb skus kb eq_refl) as [I1 I2].
  split.
  - intros sku Hin. split; [now apply I1 |]. unfold dynamic_z. split.
    + apply Q.le_max_l.
    + apply Q.max_lub; [discriminate | apply Q.le_min_l].
  - exact I2.
Qed.

(** [plan] changes nothing in the store but the safety factors and the
    blocks; a block changes only for a product frozen in this cycle, which
    is then blocked until the current day plus [STOP_ORDERS_DAYS]. *)
Theorem plan_frame `{Libm} (solve : Solver) (kb : Knowledge) :
  exists pl kb',
    plan solve kb = Some (pl, kb')
    /\ kb' = set_blocks (blocks kb') (set_safety_z_map (safety_z kb') kb)
    /\ (forall sku,
          blocks kb' !! sku
          = if in_dec String.string_dec sku skus then
              if freezes kb sku
              then Some (day kb + STOP_ORDERS_DAYS)%Z
              else blocks kb !! sku
            else blocks kb !! sku).
Proof.
  eexists _, _. split; [apply plan_spec |]. rewrite generate_store.
  split; [reflexivity |]. intros sku. cbn [blocks set_blocks].
  destruct (in_dec String.string_dec sku skus) as [Hin | Hn].
  - destruct (freezes kb sku) eqn:Ef.
    + now apply freeze_fold_frozen; [| exact products_nodup |].
    + now apply freeze_fold_idle.
  - now apply freeze_fold_absent.
Qed.

(** The lists a plan reports: [blocked_skus] holds the catalogue products
    that were blocked when [plan] started, [stop_orders] one entry of
    [STOP_ORDERS_DAYS] days for each catalogue product that was not blocked
    and is overstocked; both follow the catalogue order without repeats, and
    no product is in both. *)
Theorem plan_reports `{Libm} (solve : Solver) (kb : Knowledge) :
  exists pl kb',
    plan solve kb = Some (pl, kb')
    /\ p_day pl = day kb
    /\ blocked_skus (p_meta pl) = List.filter (is_blocked kb) skus
    /\ p_stop_orders pl
       = map (fun sku => {| so_sku := sku; so_days := STOP_ORDERS_DAYS |})
             (List.filter
                (fun sku => negb (is_blocked kb sku)
                            && _is_overstock sku (forecast_mean kb sku 0)
                                 (get_stock_position kb sku))
                skus)
    /\ (forall so, In so (p_stop_orders pl) ->
          ~ In (so_sku so) (blocked_skus (p_meta pl))).
Proof.
  eexists _, _. split; [apply plan_spec |].
  cbn [p_day p_meta blocked_skus p_stop_orders].
  split; [reflexivity |]. split; [reflexivity |]. split; [reflexivity |].
  intros so Hso Hb. apply in_map_iff in Hso. destruct Hso as (sku & <- & Hf).
  cbn [so_sku stop_entry] in Hb.
  apply filter_In in Hf. apply filter_In in Hb.
  destruct Hf as [_ Hf]. destruct Hb as [_ Hb].
  unfold freezes in Hf. rewrite Hb in Hf. discriminate Hf.
Qed.

(** ** Blocks over time (knowledge.py and planner.py) *)

(** A block set on day [day kb] for [n] days holds on day [d] exactly when
    [d <= day kb + max 0 n]; a negative [n] counts as 0.  The blocks of the
    other products are not affected. *)
Theorem block_orders_window (kb : Knowledge) (sku : string) (n d : Z) :
  (is_blocked (update_day d (block_orders sku n kb)) sku = true
   <-> (d <= day kb + Z.max 0 n)%Z)
  /\ (forall sku', sku' <> sku ->
        is_blocked (update_day d (block_orders sku n kb)) sku'
        = is_blocked (update_day d kb) sku').
Proof.
  unfold is_blocked, update_day, block_orders. cbn. split.
  - rewrite lookup_insert_eq. apply Z.leb_le.
  - intros sku' Hne. now rewrite lookup_insert_ne.
Qed.

Lemma is_blocked_update_day (kb : Knowledge) (sku : string) (d : Z) :
  is_blocked (update_day d kb) sku
  = match blocks kb !! sku with
    | None => false
    | Some until => (d <=? until)%Z
    end.
Proof. reflexivity. Qed.

Lemma some_pair_inv {A B} (a a' : A) (b b' : B) :
  Some (a, b) = Some (a', b') -> a = a' /\ b = b'.
Proof. intros [= -> ->]. now split. Qed.

(** What a successful call of [plan] returned. *)
Lemma plan_inv `{Libm} (solve : Solver) (kb : Knowledge) (pl : Plan)
    (kb' : Knowledge) :
  plan solve kb = Some (pl, kb') ->
  pl = {| p_day := day kb;
          p_orders := map (order_entry (solve (plan_problem kb)))
                          (sku_groups kb);
          p_stop_orders := map stop_entry (List.filter (freezes kb) skus);
          p_meta :=
            {| budget_limit := DAILY_BUDGET_LIMIT;
               m_spend := Py.round2 (spend_total (solve (plan_problem kb))
                                                 (sku_groups kb) 0);
               m_utility := Py.round2 (utility_total (solve (plan_problem kb))
                                                     (sku_groups kb) 0);
               blocked_skus := List.filter (is_blocked kb) skus |} |}
  /\ kb' = g_kb (generate kb).
Proof.
  intros Hplan. pose proof (plan_spec solve kb) as Hs. cbv zeta in Hs.
  rewrite Hplan in Hs. now apply some_pair_inv in Hs.
Qed.

(** A product for which a plan carries a stop-order entry stays blocked in
    the store the plan leaves, from the day of the plan through
    [STOP_ORDERS_DAYS] days later, and is free again the day after. *)
Theorem stop_order_blocks_window `{Libm} (solve : Solver) (kb kb' : Knowledge)
    (pl : Plan) (sku : string) (d : Z) :
  plan solve kb = Some (pl, kb') ->
  In {| so_sku := sku; so_days := STOP_ORDERS_DAYS |} (p_stop_orders pl) ->
  is_blocked (update_day d kb') sku = true
  <-> (d <= day kb + STOP_ORDERS_DAYS)%Z.
Proof.
  intros Hplan Hso. destruct (plan_inv solve kb pl kb' Hplan) as [Hpl ->].
  rewrite Hpl in Hso. cbn [p_stop_orders] in Hso.
  apply in_stop_entries in Hso. destruct Hso as [Hin Hf].
  rewrite is_blocked_update_day.
  rewrite (proj1 (proj2 (proj2 (proj2 (generate_spec kb))))).
  rewrite (freeze_fold_frozen kb skus sku Hf products_nodup Hin).
  apply Z.leb_le.
Qed.

Lemma stop_order_blocks_window_witness :
  exists pl kb',
    @plan fixedpoint.libm first_choice (set_blocks ∅ kb_blocked)
    = Some (pl, kb')
    /\ is_blocked (update_day 7 kb') "SKU_001" = true
    /\ is_blocked (update_day 8 kb') "SKU_001" = false.
Proof.
  destruct (@plan fixedpoint.libm first_choice (set_blocks ∅ kb_blocked))
    as [[pl kb'] |] eqn:E;
    [| rewrite (@plan_spec fixedpoint.libm) in E; discriminate E].
  assert (Hso : In {| so_sku := "SKU_001"; so_days := STOP_ORDERS_DAYS |}
                   (p_stop_orders pl)).
  { rewrite (proj1 (@plan_inv fixedpoint.libm _ _ _ _ E)).
    cbn [p_stop_orders]. vm_compute. tauto. }
  exists pl, kb'. split; [reflexivity |]. split.
  - apply (@stop_order_blocks_window fixedpoint.libm first_choice _ _ _ _ 7%Z
             E Hso). vm_compute. discriminate.
  - apply not_true_is_false. intros Hb.
    apply (@stop_order_blocks_window fixedpoint.libm first_choice _ _ _ _ 8%Z
             E Hso) in Hb. vm_compute in Hb. now apply Hb.
Defined.

(** ** The knowledge store (knowledge.py) *)

(** The quantity of the last order of a product is the one recorded last;
    recording an order for one product leaves the others alone, keeps the
    earlier records and stamps the new one with the current day; a product
    without orders has last quantity 0. *)
Theorem record_order_last_qty (kb : Knowledge) (sku : string) (q : Z)
    (s : Q) :
  get_last_order_qty (record_order sku q s kb) sku = q
  /\ orders (record_order sku q s kb) !! sku
     = Some (default [] (orders kb !! sku)
             ++ [{| or_day := day kb; or_sku := sku; or_qty := q;
                    or_spend := s |}])
  /\ (forall sku', sku' <> sku ->
        orders (record_order sku q s kb) !! sku' = orders kb !! sku'
        /\ get_last_order_qty (record_order sku q s kb) sku'
           = get_last_order_qty kb sku')
  /\ (forall sku', orders kb !! sku' = Some [] ->
        get_last_order_qty kb sku' = 0%Z).
Proof.
  unfold get_last_order_qty, record_order. cbn [orders set_orders].
  split; [| split; [| split]].
  - rewrite lookup_insert_eq. cbn [default from_option id].
    now rewrite last_snoc.
  - apply lookup_insert_eq.
  - intros sku' Hne. rewrite lookup_insert_ne by congruence. now split.
  - intros sku' E. now rewrite E.
Qed.

(** The window handed to the analyzer is the tail of the product's history:
    all of it when the window length is not positive or the history is
    shorter, its last [window_days] records otherwise. *)
Theorem recent_history_is_tail (kb : Knowledge) (sku : string)
    (h : list DemandRecord) (w : Z) :
  history kb !! sku = Some h ->
  ((w <= 0)%Z -> get_recent_history kb sku w = h)
  /\ ((0 < w)%Z ->
        exists older,
          h = older ++ get_recent_history kb sku w
          /\ length (get_recent_history kb sku w)
             = Nat.min (length h) (Z.to_nat w)).
Proof.
  intros Hh. unfold get_recent_history. rewrite Hh. cbn [default from_option id].
  split.
  - intros Hw. now rewrite (proj2 (Z.leb_le w 0) Hw).
  - intros Hw. rewrite (proj2 (Z.leb_gt w 0) Hw). unfold Py.last_n.
    exists (firstn (length h - Z.to_nat w) h). split.
    + symmetry. apply firstn_skipn.
    + rewrite length_skipn. lia.
Qed.

Lemma recent_history_is_tail_witness :
  exists older,
    days 6 20 15 ++ days 1 24 12
    = older ++ get_recent_history kb_short "SKU_001" 3
    /\ length (get_recent_history kb_short "SKU_001" 3) = 3%nat.
Proof.
  destruct (recent_history_is_tail kb_short "SKU_001"
              (days 6 20 15 ++ days 1 24 12) 3 eq_refl) as [_ Hw].
  destruct Hw as (older & E & Hlen); [lia |].
  exists older. split; [exact E | exact Hlen].
Defined.

Lemma isum_from (xs : list Z) :
  forall a, fold_left Z.add xs a = (a + Py.isum xs)%Z.
Proof.
  unfold Py.isum. induction xs as [| x xs IH]; intros a; cbn [fold_left].
  - lia.
  - rewrite IH, (IH (0 + x)%Z). lia.
Qed.

Lemma isum_app (xs ys : list Z) :
  Py.isum (xs ++ ys) = (Py.isum xs + Py.isum ys)%Z.
Proof.
  unfold Py.isum at 1. rewrite fold_left_app. rewrite isum_from.
  fold (Py.isum xs). lia.
Qed.

(** The stock position of a product is its stock on hand, 0 when the
    snapshot does not list it, plus the quantities of the pending orders of
    that product and of no other. *)
Theorem stock_position_counts_own_orders (kb : Knowledge) (sku : string)
    (pending : list PendingRecord) (o : PendingRecord) :
  get_stock_position (set_pending_orders [] kb) sku
  = default 0%Z (stock_levels kb !! sku)
  /\ get_stock_position (set_pending_orders (pending ++ [o]) kb) sku
     = (get_stock_position (set_pending_orders pending kb) sku
        + (if String.eqb (po_sku o) sku then po_qty o else 0))%Z.
Proof.
  unfold get_stock_position, get_stock.
  cbn [pending_orders stock_levels set_pending_orders]. split.
  - cbn. lia.
  - rewrite List.filter_app, map_app, isum_app. cbn [List.filter].
    destruct (String.eqb (po_sku o) sku); cbn; lia.
Qed.

(** [record_outcome] adds exactly one record, stamped with the current day,
    to the history of every product that has one, reads a product missing
    from the outcome as 0, and creates no history for other products. *)
Theorem record_outcome_appends (outcome : Outcome) (kb : Knowledge)
    (sku : string) :
  history (record_outcome outcome kb) !! sku
  = option_map
      (fun h => h ++ [{| d_day := day kb;
                         d_demand := default 0%Z (out_demand outcome !! sku);
                         d_sales := default 0%Z (out_sales outcome !! sku);
                         d_lost_sales :=
                           default 0%Z (out_lost_sales outcome !! sku) |}])
      (history kb !! sku).
Proof.
  unfold record_outcome. cbn [history set_history].
  rewrite map_lookup_imap. now destruct (history kb !! sku).
Qed.

(** ** What [analyze] writes to the store (analyzer.py) *)

Lemma knowledge_ext (k k' : Knowledge) :
  analysis_frame k k' ->
  forecast k' = forecast k -> volatility k' = volatility k ->
  service_level k' = service_level k -> anomalies k' = anomalies k ->
  k' = k.
Proof.
  destruct k, k'. unfold analysis_frame. cbn.
  intros (? & ? & ? & ? & ? & ? & ? & ? & ? & ?) ? ? ? ?. now subst.
Qed.

Section analyze_writes.
Context `{Libm}.

Lemma analyze_sku_step (s : string) (kb : Knowledge) (res : Analysis) :
  let st := analyze_sku s (kb, res) in
  forecast (fst st) = <[s := sku_forecast kb s]> (forecast kb)
  /\ volatility (fst st) = <[s := sku_volatility kb s]> (volatility kb)
  /\ service_level (fst st)
     = <[s := sku_service_level kb s]> (service_level kb)
  /\ anomalies (fst st)
     = match sku_anomaly kb s with
       | Some a => <[s := a]> (anomalies kb)
       | None => delete s (anomalies kb)
       end
  /\ an_day (snd st) = an_day res
  /\ an_anomalies (snd st) = an_anomalies res ++ found_anomalies kb [s]
  /\ analysis_frame kb (fst st).
Proof.
  unfold found_anomalies, analyze_sku, sku_forecast, sku_volatility,
    sku_service_level, sku_anomaly, sku_window, analysis_frame.
  change (get_recent_history
            (store_service_level s _ (store_volatility s _
               (store_forecast s _ _ _ kb))) s window)
    with (get_recent_history kb s window).
  cbn [flat_map]. cbv beta zeta.
  destruct (_mean_std _) as [m sd]. cbn [fst snd].
  destruct (detect _ m sd) as [a |]; cbn; rewrite ?app_nil_r;
    repeat split; reflexivity.
Qed.

Lemma sku_window_history (k k0 : Knowledge) (s : string) :
  history k = history k0 -> sku_window k s = sku_window k0 s.
Proof.
  intros E. unfold sku_window, get_recent_history. now rewrite E.
Qed.

Lemma analysis_frame_trans (k0 k1 k2 : Knowledge) :
  analysis_frame k0 k1 -> analysis_frame k1 k2 -> analysis_frame k0 k2.
Proof.
  unfold analysis_frame.
  intros (? & ? & ? & ? & ? & ? & ? & ? & ? & ?)
         (? & ? & ? & ? & ? & ? & ? & ? & ? & ?).
  repeat split; congruence.
Qed.

Lemma analysis_frame_refl (k : Knowledge) : analysis_frame k k.
Proof. unfold analysis_frame. repeat split; reflexivity. Qed.

(** The loop of [analyze] over a list of products. *)
Lemma analyze_writes_fold (kb0 : Knowledge) (l : list string) :
  forall st, history (fst st) = history kb0 ->
    let st' := fold_left (fun st sku => analyze_sku sku st) l st in
    analysis_frame (fst st) (fst st')
    /\ an_day (snd st') = an_day (snd st)
    /\ an_anomalies (snd st')
       = an_anomalies (snd st) ++ found_anomalies kb0 l
    /\ (forall sku, In sku l ->
          forecast (fst st') !! sku = Some (sku_forecast kb0 sku)
          /\ volatility (fst st') !! sku = Some (sku_volatility kb0 sku)
          /\ service_level (fst st') !! sku
             = Some (sku_service_level kb0 sku)
          /\ anomalies (fst st') !! sku = sku_anomaly kb0 sku)
    /\ (forall sku, ~ In sku l ->
          forecast (fst st') !! sku = forecast (fst st) !! sku
          /\ volatility (fst st') !! sku = volatility (fst st) !! sku
          /\ service_level (fst st') !! sku = service_level (fst st) !! sku
          /\ anomalies (fst st') !! sku = anomalies (fst st) !! sku).
Proof.
  induction l as [| s l IH]; intros [kb res] Hh; cbn [fold_left fst snd].
  - split; [apply analysis_frame_refl |]. split; [reflexivity |].
    split; [cbn; now rewrite app_nil_r |].
    split; [intros sku [] | intros sku _; repeat split; reflexivity].
  - cbn [fst] in Hh.
    destruct (analyze_sku_step s kb res) as (F1 & F2 & F3 & F4 & F5 & F6 & F7).
    assert (Hw : sku_window kb s = sku_window kb0 s)
      by now apply sku_window_history.
    assert (Hh' : history (fst (analyze_sku s (kb, res))) = history kb0).
    { destruct F7 as (_ & _ & _ & _ & E & _). now rewrite E. }
    destruct (IH (analyze_sku s (kb, res)) Hh') as (I1 & I2 & I3 & I4 & I5).
    split; [eapply analysis_frame_trans; [exact F7 | exact I1] |].
    split; [now rewrite I2 |].
    split.
    { rewrite I3, F6. unfold found_anomalies, sku_anomaly. cbn [flat_map].
      fold (sku_window kb s). fold (sku_window kb0 s). rewrite Hw.
      now rewrite app_nil_r, <- app_assoc. }
    split.
    + intros sku Hin.
      destruct (in_dec String.string_dec sku l) as [Hl | Hl];
        [now apply I4 |].
      destruct Hin as [-> | Hin]; [| contradiction].
      destruct (I5 sku Hl) as (J1 & J2 & J3 & J4).
      rewrite J1, J2, J3, J4, F1, F2, F3, F4.
      unfold sku_forecast, sku_volatility, sku_service_level, sku_anomaly.
      fold (sku_window kb sku). fold (sku_window kb0 sku). rewrite Hw.
      rewrite !lookup_insert_eq. repeat split.
      destruct (detect _ _ _);
        [apply lookup_insert_eq | apply lookup_delete_eq].
    + intros sku Hn. cbn [In] in Hn.
      assert (Hne : s <> sku) by tauto.
      destruct (I5 sku) as (J1 & J2 & J3 & J4); [tauto |].
      rewrite J1, J2, J3, J4, F1, F2, F3, F4.
      rewrite !lookup_insert_ne by exact Hne. repeat split.
      destruct (sku_anomaly kb s);
        [now apply lookup_insert_ne | now apply lookup_delete_ne].
Qed.

Lemma analyze_writes (kb : Knowledge) :
  analysis_frame kb (fst (analyze kb))
  /\ snd (analyze kb)
     = {| an_day := day kb; an_anomalies := found_anomalies kb skus |}
  /\ (forall sku, In sku skus ->
        forecast (fst (analyze kb)) !! sku = Some (sku_forecast kb sku)
        /\ volatility (fst (analyze kb)) !! sku = Some (sku_volatility kb sku)
        /\ service_level (fst (analyze kb)) !! sku
           = Some (sku_service_level kb sku)
        /\ anomalies (fst (analyze kb)) !! sku = sku_anomaly kb sku)
  /\ (forall sku, ~ In sku skus ->
        forecast (fst (analyze kb)) !! sku = forecast kb !! sku
        /\ volatility (fst (analyze kb)) !! sku = volatility kb !! sku
        /\ service_level (fst (analyze kb)) !! sku = service_level kb !! sku
        /\ anomalies (fst (analyze kb)) !! sku = anomalies kb !! sku).
Proof.
  unfold analyze.
  destruct (analyze_writes_fold kb skus
              (kb, {| an_day := day kb; an_anomalies := [] |}) eq_refl)
    as (I1 & I2 & I3 & I4 & I5).
  split; [exact I1 |]. split; [| split; [exact I4 | exact I5]].
  cbn [fst snd an_day an_anomalies app] in I2, I3.
  destruct (snd (fold_left _ skus _)) as [d a]. cbn in I2, I3. now subst.
Qed.

End analyze_writes.

(** After [analyze], every catalogue product has a forecast tagged
    "moving_average" whose mean and standard deviation are those of
    [_mean_std] on its window, with a standard deviation above 1e-6, and a
    volatility that is the population standard deviation of the window when
    it has two samples or more and the forecast standard deviation
    otherwise. *)
Theorem analyze_stores_forecasts `{Libm} (kb : Knowledge) (sku : string) :
  In sku skus ->
  let eff := eff_demand (get_recent_history kb sku window) in
  exists f v,
    forecast (fst (analyze kb)) !! sku = Some f
    /\ (f_mean f, f_std f) = _mean_std eff
    /\ f_model f = "moving_average"
    /\ (1e-6 < f_std f)%Q
    /\ volatility (fst (analyze kb)) !! sku = Some v
    /\ ((2 <= length eff)%nat -> v = statistics.pstdev eff)
    /\ ((length eff < 2)%nat -> v = f_std f).
Proof.
  intros Hin eff.
  destruct (analyze_writes kb) as (_ & _ & Hw & _).
  destruct (Hw sku Hin) as (E1 & E2 & _).
  exists (sku_forecast kb sku), (sku_volatility kb sku).
  split; [exact E1 |]. unfold sku_forecast, sku_volatility, sku_window.
  fold eff. cbn [f_mean f_std f_model].
  split; [now destruct (_mean_std eff) |]. split; [reflexivity |].
  split; [apply mean_std_above_floor |]. split; [exact E2 |].
  split; intros Hlen.
  - now rewrite (proj2 (Nat.ltb_lt 1 (length eff))) by lia.
  - now rewrite (proj2 (Nat.ltb_ge 1 (length eff))) by lia.
Qed.

Lemma analyze_stores_forecasts_witness :
  exists f,
    forecast (fst (@analyze fixedpoint.libm kb_surge)) !! "SKU_001" = Some f
    /\ (1e-6 < f_std f)%Q.
Proof.
  destruct (@analyze_stores_forecasts fixedpoint.libm kb_surge "SKU_001")
    as (f & v & E & _ & _ & Hs & _).
  - vm_compute. tauto.
  - exists f. split; [exact E | exact Hs].
Defined.

(** [analyze] writes the forecast, volatility, service level and anomaly of
    the catalogue products and nothing else: every other field of the store,
    and the entries of those four tables under other keys, are unchanged;
    its result carries the day of the store. *)
Theorem analyze_frame `{Libm} (kb : Knowledge) :
  let kb' := fst (analyze kb) in
  day kb' = day kb /\ budget kb' = budget kb
  /\ stock_levels kb' = stock_levels kb
  /\ pending_orders kb' = pending_orders kb
  /\ history kb' = history kb /\ orders kb' = orders kb
  /\ policies kb' = policies kb
  /\ daily_budget_spent kb' = daily_budget_spent kb
  /\ safety_z kb' = safety_z kb /\ blocks kb' = blocks kb
  /\ an_day (snd (analyze kb)) = day kb
  /\ (forall sku, ~ In sku skus ->
        forecast kb' !! sku = forecast kb !! sku
        /\ volatility kb' !! sku = volatility kb !! sku
        /\ service_level kb' !! sku = service_level kb !! sku
        /\ anomalies kb' !! sku = anomalies kb !! sku).
Proof.
  destruct (analyze_writes kb) as (F & R & _ & Ho). cbv zeta.
  destruct F as (? & ? & ? & ? & ? & ? & ? & ? & ? & ?).
  rewrite R. cbn [an_day]. repeat split; try assumption; now apply Ho.
Qed.

(** ** Service level and a second run of [analyze] *)

Lemma isum_cons (x : Z) (xs : list Z) :
  Py.isum (x :: xs) = (x + Py.isum xs)%Z.
Proof. unfold Py.isum at 1. cbn [fold_left]. now rewrite isum_from. Qed.

Lemma isum_sales_le (hist : list DemandRecord) :
  (forall r, In r hist -> (0 <= d_sales r <= d_demand r)%Z) ->
  (0 <= Py.isum (map d_sales hist) <= Py.isum (map d_demand hist))%Z.
Proof.
  induction hist as [| r hist IH]; intros Hr; cbn [map].
  - unfold Py.isum. cbn. lia.
  - rewrite !isum_cons.
    pose proof (Hr r (or_introl eq_refl)).
    assert (0 <= Py.isum (map d_sales hist)
            <= Py.isum (map d_demand hist))%Z
      by (apply IH; intros r' Hin; apply Hr; now right).
    lia.
Qed.

Lemma sku_forecast_history `{Libm} (k k0 : Knowledge) (s : string) :
  history k = history k0 ->
  sku_forecast k s = sku_forecast k0 s
  /\ sku_volatility k s = sku_volatility k0 s
  /\ sku_service_level k s = sku_service_level k0 s.
Proof.
  intros E. unfold sku_forecast, sku_volatility, sku_service_level.
  now rewrite (sku_window_history k k0 s E).
Qed.

(** When no record of a product's window sold more than was asked for, nor
    a negative amount, the service level [analyze] stores for the product
    lies between 0 and 1; it is sales over demand of the window when the
    window has demand, and 1 when it has none. *)
Theorem service_level_bounds `{Libm} (kb : Knowledge) (sku : string) :
  In sku skus ->
  let hist := get_recent_history kb sku window in
  (forall r, In r hist -> (0 <= d_sales r <= d_demand r)%Z) ->
  exists sl,
    service_level (fst (analyze kb)) !! sku = Some sl
    /\ (0 <= sl <= 1)%Q
    /\ ((0 < Py.isum (map d_demand hist))%Z ->
        sl = (inject_Z (Py.isum (map d_sales hist))
              / inject_Z (Py.isum (map d_demand hist)))%Q)
    /\ ((Py.isum (map d_demand hist) <= 0)%Z -> sl = 1%Q).
Proof.
  intros Hin hist Hr.
  destruct (analyze_writes kb) as (_ & _ & Hw & _).
  destruct (Hw sku Hin) as (_ & _ & E & _).
  exists (sku_service_level kb sku). split; [exact E |].
  unfold sku_service_level, sku_window. fold hist. cbv zeta.
  pose proof (isum_sales_le hist Hr) as Hs.
  destruct (Z.ltb_spec 0 (Py.isum (map d_demand hist))) as [Hd | Hd].
  - assert (Hq : (0 < inject_Z (Py.isum (map d_demand hist)))%Q)
      by (change 0%Q with (inject_Z 0); rewrite <- Zlt_Qlt; exact Hd).
    split; [| split; [reflexivity | lia]]. split.
    + apply Qle_shift_div_l; [exact Hq |].
      rewrite Qmult_0_l. change 0%Q with (inject_Z 0).
      rewrite <- Zle_Qle. lia.
    + apply Qle_shift_div_r; [exact Hq |].
      rewrite Qmult_1_l. rewrite <- Zle_Qle. lia.
  - split; [split; discriminate |]. split; [lia | reflexivity].
Qed.

Lemma service_level_bounds_witness :
  exists sl,
    service_level (fst (@analyze fixedpoint.libm kb_surge)) !! "SKU_001"
    = Some sl
    /\ (0 <= sl <= 1)%Q.
Proof.
  destruct (@service_level_bounds fixedpoint.libm kb_surge "SKU_001")
    as (sl & E & Hb & _).
  - vm_compute. tauto.
  - intros r Hin. vm_compute in Hin.
    repeat (destruct Hin as [<- | Hin]; [cbn; lia |]). destruct Hin.
  - exists sl. split; [exact E | exact Hb].
Defined.

(** Running [analyze] again on the store it returns changes nothing: the
    second run returns the same store and the same result. *)
Theorem analyze_idempotent `{Libm} (kb : Knowledge) :
  analyze (fst (analyze kb)) = analyze kb.
Proof.
  destruct (analyze_writes kb) as (F & R & Hi & Ho).
  destruct (analyze_writes (fst (analyze kb))) as (F' & R' & Hi' & Ho').
  assert (Hh : history (fst (analyze kb)) = history kb)
    by (destruct F as (_ & _ & _ & _ & E & _); exact E).
  assert (Hd : day (fst (analyze kb)) = day kb)
    by (destruct F as (E & _); exact E).
  apply injective_projections.
  - apply knowledge_ext; [exact F' | | | |]; apply map_eq; intros key;
      (destruct (in_dec String.string_dec key skus) as [Hin | Hn];
       [destruct (Hi key Hin) as (E1 & E2 & E3 & E4);
        destruct (Hi' key Hin) as (E1' & E2' & E3' & E4');
        destruct (sku_forecast_history (fst (analyze kb)) kb key Hh)
          as (S1 & S2 & S3);
        pose proof (sku_anomaly_history (fst (analyze kb)) kb key Hh) as S4;
        congruence
       | destruct (Ho' key Hn) as (E1' & E2' & E3' & E4'); assumption]).
  - rewrite R, R', Hd. f_equal. unfold found_anomalies.
    apply flat_map_ext. intros s.
    now rewrite (sku_anomaly_history (fst (analyze kb)) kb s Hh).
Qed.

(** ** The executor (executor.py, environment.py [place_order]) *)

Section execution.
Variable randint : nat -> Z -> Z -> Z.

Lemma place_order_some (env env' : environment.Environment) (sku : string)
    (q : Z) (od : environment.OrderDetails) :
  environment.place_order randint env sku q = Some (Some od, env') ->
  (0 < q)%Z
  /\ (exists p, lookup_product sku PRODUCTS = Some p
                /\ environment.od_unit_cost od = unit_cost p)
  /\ environment.od_sku od = sku /\ environment.od_qty od = q
  /\ environment.od_arrival_day od
     = (environment.e_day env + environment.od_lead_time od)%Z
  /\ env' = {| environment.e_day := environment.e_day env;
               environment.e_stock := environment.e_stock env;
               environment.e_pending_orders :=
                 environment.e_pending_orders env ++ [delivery od];
               environment.e_demand_multiplier :=
                 environment.e_demand_multiplier env;
               environment.e_lead_time_multiplier :=
                 environment.e_lead_time_multiplier env;
               environment.e_draws := S (environment.e_draws env) |}.
Proof.
  unfold environment.place_order.
  destruct (Z.leb_spec q 0) as [Hq | Hq]; [discriminate |].
  destruct (lookup_product sku PRODUCTS) as [p |]; [| discriminate].
  destruct (lead_time_days p) as [lo hi]. intros [= <- <-].
  split; [exact Hq |]. split; [now exists p |].
  repeat split; reflexivity.
Qed.

Lemma execute_order_some (st st' : executor.ExecState) (e : string * Order) :
  executor.execute_order randint st e = Some st' ->
  if affordable (daily_budget_spent (executor.x_kb st)) e
  then
    let c := order_cost (fst e) (o_qty (snd e)) in
    exists od,
      environment.place_order randint (executor.x_env st) (fst e)
        (o_qty (snd e)) = Some (Some od, executor.x_env st')
      /\ executor.x_kb st'
         = record_order (fst e) (o_qty (snd e)) c
             (set_budget (budget (executor.x_kb st) - c) (executor.x_kb st))
      /\ executor.x_actions st'
         = {| executor.orders_placed :=
                executor.orders_placed (executor.x_actions st)
                ++ [{| executor.pl_sku := fst e;
                       executor.pl_qty := o_qty (snd e);
                       executor.pl_lead_time := Some od;
                       executor.pl_spend := c |}];
              executor.act_spend :=
                (executor.act_spend (executor.x_actions st) + c)%Q |}
  else st' = st.
Proof.
  destruct e as [sku o]. unfold executor.execute_order, affordable, order_cost.
  cbn [fst snd].
  destruct (Z.leb_spec (o_qty o) 0) as [Hq | Hq].
  - rewrite (proj2 (Z.ltb_ge 0 (o_qty o))) by lia. cbn. now intros [= <-].
  - rewrite (proj2 (Z.ltb_lt 0 (o_qty o))) by lia. cbn [andb].
    destruct (lookup_product sku PRODUCTS) as [p |] eqn:Ep; [| discriminate].
    destruct (Py.Qltb _ _); cbn [negb]; [now intros [= <-] |].
    destruct (environment.place_order _ _ _ _) as [[[od |] env'] |] eqn:Epl;
      [| | discriminate].
    + intros [= <-]. cbn. exists od. repeat split; reflexivity.
    + exfalso. unfold environment.place_order in Epl.
      rewrite (proj2 (Z.leb_gt (o_qty o) 0)) in Epl by lia. rewrite Ep in Epl.
      destruct (lead_time_days p). discriminate.
Qed.

Lemma execution_frame_refl (k : Knowledge) : execution_frame k k.
Proof. unfold execution_frame. repeat split; reflexivity. Qed.

(** The loop of [execute] from any state: what it appends to the actions,
    the store and the environment. *)
Lemma execute_orders_spec (ords : list (string * Order)) :
  forall st st',
    executor.execute_orders randint st ords = Some st' ->
    exists news : list executor.PlacedOrder,
      executor.orders_placed (executor.x_actions st')
      = executor.orders_placed (executor.x_actions st) ++ news
      /\ map placed_entry news
         = map planned_entry
             (List.filter
                (affordable (daily_budget_spent (executor.x_kb st))) ords)
      /\ executor.act_spend (executor.x_actions st')
         = fold_left Qplus (map executor.pl_spend news)
             (executor.act_spend (executor.x_actions st))
      /\ budget (executor.x_kb st')
         = fold_left Qminus (map executor.pl_spend news)
             (budget (executor.x_kb st))
      /\ execution_frame (executor.x_kb st) (executor.x_kb st')
      /\ (forall sku,
            default [] (orders (executor.x_kb st') !! sku)
            = default [] (orders (executor.x_kb st) !! sku)
              ++ map (order_record (day (executor.x_kb st)))
                   (List.filter
                      (fun po => String.eqb (executor.pl_sku po) sku) news))
      /\ List.Forall (purchased (environment.e_day (executor.x_env st))) news
      /\ environment.e_pending_orders (executor.x_env st')
         = environment.e_pending_orders (executor.x_env st)
           ++ deliveries news
      /\ environment.e_day (executor.x_env st')
         = environment.e_day (executor.x_env st)
      /\ environment.e_stock (executor.x_env st')
         = environment.e_stock (executor.x_env st)
      /\ environment.e_demand_multiplier (executor.x_env st')
         = environment.e_demand_multiplier (executor.x_env st)
      /\ environment.e_lead_time_multiplier (executor.x_env st')
         = environment.e_lead_time_multiplier (executor.x_env st)
      /\ environment.e_draws (executor.x_env st')
         = (environment.e_draws (executor.x_env st) + length news)%nat.
Proof.
  induction ords as [| e ords IH]; intros st st' Hx;
    cbn [executor.execute_orders] in Hx.
  - injection Hx as <-. exists []. cbn. rewrite !app_nil_r, Nat.add_0_r.
    repeat split; try reflexivity; [| constructor].
    intros sku. now rewrite app_nil_r.
  - destruct (executor.execute_order randint st e) as [st1 |] eqn:E1;
      [| discriminate].
    apply execute_order_some in E1. cbn [List.filter].
    destruct (IH st1 st' Hx)
      as (news & P1 & P2 & P3 & P4 & P5 & P6 & P7 & P8 & P9 & P10 & P11
          & P12 & P13).
    destruct (affordable (daily_budget_spent (executor.x_kb st)) e) eqn:Ea.
    2:{ subst st1. exists news. repeat (split; [assumption |]). assumption. }
    cbv zeta in E1. destruct E1 as (od & Epl & Ekb & Eact).
    apply place_order_some in Epl.
    destruct Epl as (Hq & (p & Ep & Euc) & Es & Eq & Earr & Eenv).
    set (c := order_cost (fst e) (o_qty (snd e))) in *.
    set (po := {| executor.pl_sku := fst e;
                  executor.pl_qty := o_qty (snd e);
                  executor.pl_lead_time := Some od;
                  executor.pl_spend := c |}) in *.
    rewrite Ekb in *. rewrite Eact in *. rewrite Eenv in *.
    cbn [executor.orders_placed executor.act_spend budget set_budget
         record_order set_orders daily_budget_spent day orders
         environment.e_day environment.e_stock environment.e_pending_orders
         environment.e_demand_multiplier environment.e_lead_time_multiplier
         environment.e_draws] in *.
    exists (po :: news).
    split; [now rewrite P1, <- app_assoc |].
    split; [cbn [map]; now rewrite P2 |].
    split; [exact P3 |]. split; [exact P4 |].
    split.
    { unfold execution_frame in *. cbn in P5. exact P5. }
    split.
    { intros sku. rewrite P6. cbn [List.filter].
      change (executor.pl_sku po) with (fst e).
      destruct (String.eqb_spec (fst e) sku) as [Heq | Hne].
      - rewrite <- Heq, lookup_insert_eq. cbn [default map]. unfold id.
        now rewrite <- app_assoc.
      - now rewrite lookup_insert_ne by exact Hne. }
    split.
    { constructor; [| exact P7]. exists od, p. cbn. repeat split; assumption. }
    split.
    { rewrite P8. unfold deliveries. cbn [flat_map executor.pl_lead_time po].
      now rewrite <- app_assoc. }
    repeat (split; [assumption |]). rewrite P13. cbn [length]. lia.
Qed.

Lemma execute_inv (env env' : environment.Environment) (kb kb' : Knowledge)
    (pl : Plan) (acts : executor.Actions) :
  executor.execute randint env kb pl = Some (acts, env', kb') ->
  exists st',
    executor.execute_orders randint
      {| executor.x_env := env; executor.x_kb := kb;
         executor.x_actions :=
           {| executor.orders_placed := []; executor.act_spend := 0 |} |}
      (p_orders pl) = Some st'
    /\ executor.orders_placed acts
       = executor.orders_placed (executor.x_actions st')
    /\ executor.act_spend acts
       = Py.round2 (executor.act_spend (executor.x_actions st'))
    /\ env' = executor.x_env st' /\ kb' = executor.x_kb st'.
Proof.
  unfold executor.execute.
  destruct (executor.execute_orders _ _ _) as [st' |]; [| discriminate].
  intros [= <- <- <-]. exists st'. repeat split; reflexivity.
Qed.

(** [execute] places exactly the entries of the plan that have a positive
    quantity and whose own cost, quantity times unit cost plus the fixed
    cost, fits in the daily limit less the amount the store held as spent on
    entry; it places them in the order of the plan, each with that cost,
    and the decision on one entry does not depend on the others. *)
Theorem execute_places (env env' : environment.Environment)
    (kb kb' : Knowledge) (pl : Plan) (acts : executor.Actions) :
  executor.execute randint env kb pl = Some (acts, env', kb') ->
  map placed_entry (executor.orders_placed acts)
  = map planned_entry
      (List.filter (affordable (daily_budget_spent kb)) (p_orders pl)).
Proof.
  intros Hx. apply execute_inv in Hx.
  destruct Hx as (st' & Hx & -> & _).
  apply execute_orders_spec in Hx.
  destruct Hx as (news & P1 & P2 & _). cbn in P1, P2. now rewrite P1.
Qed.

(** The spend [execute] reports is the sum of the spends of the orders it
    placed, rounded to two decimals; the budget of the store goes down by
    that sum, unrounded; no other field of the store changes but the order
    log. *)
Theorem execute_accounting (env env' : environment.Environment)
    (kb kb' : Knowledge) (pl : Plan) (acts : executor.Actions) :
  executor.execute randint env kb pl = Some (acts, env', kb') ->
  let total := Py.fsum (map executor.pl_spend (executor.orders_placed acts)) in
  executor.act_spend acts = Py.round2 total
  /\ (budget kb' == budget kb - total)%Q
  /\ execution_frame kb kb'.
Proof.
  intros Hx. apply execute_inv in Hx.
  destruct Hx as (st' & Hx & -> & -> & _ & ->).
  apply execute_orders_spec in Hx.
  destruct Hx as (news & P1 & _ & P3 & P4 & P5 & _).
  cbn in P1, P3, P4, P5. cbv zeta. rewrite P1, P3, P4.
  split; [reflexivity |]. split; [| exact P5].
  unfold Py.fsum. generalize (budget kb).
  assert (G : forall xs a b,
             (fold_left Qminus xs b == b - (fold_left Qplus xs a - a))%Q).
  { induction xs as [| x xs IHx]; intros a b; cbn [fold_left]; [ring |].
    rewrite (IHx (a + x)%Q (b - x)%Q).
    assert (F : forall ys u v,
               (fold_left Qplus ys (u + v) == fold_left Qplus ys u + v)%Q).
    { induction ys as [| y ys IHy]; intros u v; cbn [fold_left]; [ring |].
      rewrite <- IHy. assert (E : (u + v + y == u + y + v)%Q) by ring.
      clear - E IHy.
      assert (M : forall s t, (s == t)%Q ->
                 (fold_left Qplus ys s == fold_left Qplus ys t)%Q).
      { clear. induction ys as [| y ys IHy]; intros s t Est; cbn [fold_left];
          [exact Est |].
        apply IHy. now rewrite Est. }
      now apply M. }
    rewrite F. ring. }
  intros b. rewrite (G (map executor.pl_spend news) 0%Q b). ring.
Qed.

(** Every order [execute] places is logged in the store under its product,
    after the orders logged before, with the day of the store, the quantity
    and the spend, in the order of placing. *)
Theorem execute_logs_orders (env env' : environment.Environment)
    (kb kb' : Knowledge) (pl : Plan) (acts : executor.Actions) (sku : string) :
  executor.execute randint env kb pl = Some (acts, env', kb') ->
  default [] (orders kb' !! sku)
  = default [] (orders kb !! sku)
    ++ map (order_record (day kb))
         (List.filter (fun po => String.eqb (executor.pl_sku po) sku)
            (executor.orders_placed acts)).
Proof.
  intros Hx. apply execute_inv in Hx.
  destruct Hx as (st' & Hx & -> & _ & _ & ->).
  apply execute_orders_spec in Hx.
  destruct Hx as (news & P1 & _ & _ & _ & _ & P6 & _).
  cbn in P1, P6. rewrite P1. apply P6.
Qed.

(** For every order [execute] places the environment queues one pending
    order, after those already pending and in the order of placing, with
    the product, the quantity and the catalogue unit cost of the order and
    an arrival day that is the current day plus the lead time reported; the
    day, the stock and the scenario multipliers of the environment do not
    change, and the generator is drawn from once per order. *)
Theorem execute_queues_deliveries (env env' : environment.Environment)
    (kb kb' : Knowledge) (pl : Plan) (acts : executor.Actions) :
  executor.execute randint env kb pl = Some (acts, env', kb') ->
  let placed := executor.orders_placed acts in
  environment.e_pending_orders env'
  = environment.e_pending_orders env ++ deliveries placed
  /\ length (deliveries placed) = length placed
  /\ List.Forall (purchased (environment.e_day env)) placed
  /\ environment.e_day env' = environment.e_day env
  /\ environment.e_stock env' = environment.e_stock env
  /\ environment.e_demand_multiplier env'
     = environment.e_demand_multiplier env
  /\ environment.e_lead_time_multiplier env'
     = environment.e_lead_time_multiplier env
  /\ environment.e_draws env'
     = (environment.e_draws env + length placed)%nat.
Proof.
  intros Hx. apply execute_inv in Hx.
  destruct Hx as (st' & Hx & E & _ & -> & _).
  apply execute_orders_spec in Hx.
  destruct Hx as (news & P1 & _ & _ & _ & _ & _ & P7 & P8 & P9 & P10 & P11
                  & P12 & P13).
  cbn in P1, P7, P8, P9, P10, P11, P12, P13. cbv zeta. rewrite E, P1.
  split; [exact P8 |]. split; [| now repeat (split; [assumption |])].
  clear - P7. induction P7 as [| po l (od & p & Hod & _) _ IH]; [reflexivity |].
  unfold deliveries in *. cbn [flat_map]. rewrite Hod. cbn. now rewrite IH.
Qed.

Lemma execute_order_none (st : executor.ExecState) (e : string * Order) :
  executor.execute_order randint st e = None
  <-> (0 < o_qty (snd e))%Z /\ lookup_product (fst e) PRODUCTS = None.
Proof.
  destruct e as [sku o]. unfold executor.execute_order. cbn [fst snd].
  destruct (Z.leb_spec (o_qty o) 0) as [Hq | Hq].
  - split; [discriminate | intros [Hp _]; lia].
  - destruct (lookup_product sku PRODUCTS) as [p |] eqn:Ep.
    + split; [| intros [_ Hn]; discriminate Hn].
      destruct (Py.Qltb _ _); [discriminate |].
      unfold environment.place_order.
      rewrite (proj2 (Z.leb_gt (o_qty o) 0)) by lia. rewrite Ep.
      destruct (lead_time_days p). discriminate.
    + split; [now intros _ | reflexivity].
Qed.

Lemma execute_orders_none (ords : list (string * Order)) :
  forall st,
    executor.execute_orders randint st ords = None
    <-> exists e, In e ords /\ (0 < o_qty (snd e))%Z
                  /\ lookup_product (fst e) PRODUCTS = None.
Proof.
  induction ords as [| e ords IH]; intros st; cbn [executor.execute_orders].
  - split; [discriminate | intros (e & [] & _)].
  - destruct (executor.execute_order randint st e) as [st1 |] eqn:E1.
    + rewrite IH. split.
      * intros (e' & Hin & H'). exists e'. split; [now right | exact H'].
      * intros (e' & [<- | Hin] & Hq & Hn).
        -- assert (Hnone : executor.execute_order randint st e = None)
             by (apply execute_order_none; now split).
           congruence.
        -- exists e'. now split.
    + split; [| reflexivity]. intros _. exists e.
      split; [now left | now apply (execute_order_none st)].
Qed.

(** [execute] raises, with the [KeyError] of the catalogue lookup, exactly
    when the plan has an entry of positive quantity for a product that is
    not in the catalogue; entries of quantity 0 or less never raise, whatever
    their product. *)
Theorem execute_fails_iff (env : environment.Environment) (kb : Knowledge)
    (pl : Plan) :
  executor.execute randint env kb pl = None
  <-> exists sku o, In (sku, o) (p_orders pl) /\ (0 < o_qty o)%Z
                    /\ lookup_product sku PRODUCTS = None.
Proof.
  unfold executor.execute.
  destruct (executor.execute_orders _ _ _) as [st' |] eqn:E.
  - split; [discriminate |]. intros (sku & o & Hin & Hq & Hn). exfalso.
    assert (Hnone : executor.execute_orders randint
                      {| executor.x_env := env; executor.x_kb := kb;
                         executor.x_actions :=
                           {| executor.orders_placed := [];
                              executor.act_spend := 0 |} |}
                      (p_orders pl) = None).
    { apply execute_orders_none. exists (sku, o). now repeat split. }
    congruence.
  - split; [| reflexivity]. intros _.
    apply execute_orders_none in E. destruct E as ([sku o] & Hin & Hq & Hn).
    now exists sku, o.
Qed.

End execution.

Lemma execute_places_witness :
  exists acts env' kb',
    executor.execute rng_low env_init knowledge.init plan_over_cap
    = Some (acts, env', kb')
    /\ map placed_entry (executor.orders_placed acts)
       = map planned_entry
           (List.filter (affordable (daily_budget_spent knowledge.init))
              (p_orders plan_over_cap)).
Proof.
  destruct (executor.execute rng_low env_init knowledge.init plan_over_cap)
    as [[[acts env'] kb'] |] eqn:E; [| vm_compute in E; discriminate E].
  exists acts, env', kb'. split; [reflexivity |].
  exact (execute_places rng_low _ _ _ _ _ _ E).
Defined.

Lemma execute_accounting_witness :
  exists acts env' kb',
    executor.execute rng_low env_init knowledge.init plan_over_cap
    = Some (acts, env', kb')
    /\ (budget kb'
        == budget knowledge.init
           - Py.fsum (map executor.pl_spend (executor.orders_placed acts)))%Q.
Proof.
  destruct (executor.execute rng_low env_init knowledge.init plan_over_cap)
    as [[[acts env'] kb'] |] eqn:E; [| vm_compute in E; discriminate E].
  exists acts, env', kb'. split; [reflexivity |].
  exact (proj1 (proj2 (execute_accounting rng_low _ _ _ _ _ _ E))).
Defined.

Lemma execute_logs_orders_witness :
  exists acts env' kb',
    executor.execute rng_low env_init knowledge.init plan_over_cap
    = Some (acts, env', kb')
    /\ default [] (orders kb' !! "SKU_002")
       = default [] (orders knowledge.init !! "SKU_002")
         ++ map (order_record (day knowledge.init))
              (List.filter
                 (fun po => String.eqb (executor.pl_sku po) "SKU_002")
                 (executor.orders_placed acts)).
Proof.
  destruct (executor.execute rng_low env_init knowledge.init plan_over_cap)
    as [[[acts env'] kb'] |] eqn:E; [| vm_compute in E; discriminate E].
  exists acts, env', kb'. split; [reflexivity |].
  exact (execute_logs_orders rng_low _ _ _ _ _ _ "SKU_002" E).
Defined.

Lemma execute_queues_deliveries_witness :
  exists acts env' kb',
    executor.execute rng_low env_init knowledge.init plan_over_cap
    = Some (acts, env', kb')
    /\ environment.e_pending_orders env'
       = environment.e_pending_orders env_init
         ++ deliveries (executor.orders_placed acts).
Proof.
  destruct (executor.execute rng_low env_init knowledge.init plan_over_cap)
    as [[[acts env'] kb'] |] eqn:E; [| vm_compute in E; discriminate E].
  exists acts, env', kb'. split; [reflexivity |].
  exact (proj1 (execute_queues_deliveries rng_low _ _ _ _ _ _ E)).
Defined.

(** The second entry of [plan_unlisted] names a product outside the
    catalogue, and [execute] raises on it after placing the first. *)
Example execute_unlisted :
  executor.execute rng_low env_init knowledge.init plan_unlisted = None.
Proof.
  vm_compute. reflexivity.
Qed.

(** ** From the plan to its execution (planner.py, executor.py) *)

Lemma lookup_catalogue (sku : string) (p : Product) :
  In (sku, p) PRODUCTS -> lookup_product sku PRODUCTS = Some p.
Proof.
  intros Hin.
  assert (G : forall ps, List.NoDup (map fst ps) -> In (sku, p) ps ->
                         lookup_product sku ps = Some p).
  { induction ps as [| [k p0] ps IH]; intros Hnd Hp; [destruct Hp |].
    cbn [lookup_product]. cbn in Hnd.
    inversion Hnd as [| ? ? Hn Hnd']; subst.
    destruct Hp as [E | Hp].
    - injection E as -> ->. now rewrite String.eqb_refl.
    - destruct (String.eqb_spec sku k) as [-> | _]; [| now apply IH].
      exfalso. apply Hn. apply in_map_iff. now exists (k, p). }
  apply G; [exact products_nodup | exact Hin].
Qed.

Lemma round_compat (x y : Q) : (x == y)%Q -> Py.round x = Py.round y.
Proof.
  intros E. unfold Py.round. rewrite (Qfloor_comp x y E).
  assert (C : (x - inject_Z (Qfloor y) ?= 1 # 2)%Q
              = (y - inject_Z (Qfloor y) ?= 1 # 2)%Q) by now rewrite E.
  now rewrite C.
Qed.

Lemma round2_compat (x y : Q) : (x == y)%Q -> Py.round2 x = Py.round2 y.
Proof.
  intros E. unfold Py.round2. rewrite (round_compat (x * 100) (y * 100));
    [reflexivity | now rewrite E].
Qed.

Lemma fsum_from (xs : list Q) :
  forall a, (fold_left Qplus xs a == a + Py.fsum xs)%Q.
Proof.
  unfold Py.fsum. induction xs as [| x xs IH]; intros a; cbn [fold_left].
  - ring.
  - rewrite (IH (a + x)%Q), (IH (0 + x)%Q). ring.
Qed.

Lemma fsum_cons (x : Q) (xs : list Q) :
  (Py.fsum (x :: xs) == x + Py.fsum xs)%Q.
Proof. unfold Py.fsum at 1. cbn [fold_left]. rewrite fsum_from. ring. Qed.

Lemma fsum_nonneg (xs : list Q) :
  (forall y, In y xs -> (0 <= y)%Q) -> (0 <= Py.fsum xs)%Q.
Proof.
  induction xs as [| x xs IH]; intros Hpos; [apply Qle_refl |].
  rewrite fsum_cons.
  assert (0 <= x)%Q by (apply Hpos; now left).
  assert (0 <= Py.fsum xs)%Q by (apply IH; intros y Hy; apply Hpos; now right).
  lra.
Qed.

Lemma fsum_member_le (xs : list Q) (y : Q) :
  (forall z, In z xs -> (0 <= z)%Q) -> In y xs -> (y <= Py.fsum xs)%Q.
Proof.
  induction xs as [| x xs IH]; intros Hpos Hin; [destruct Hin |].
  rewrite fsum_cons.
  assert (0 <= x)%Q by (apply Hpos; now left).
  assert (Hrest : forall z, In z xs -> (0 <= z)%Q)
    by (intros z Hz; apply Hpos; now right).
  pose proof (fsum_nonneg xs Hrest).
  destruct Hin as [<- | Hin]; [lra |].
  pose proof (IH Hrest Hin). lra.
Qed.

Section plan_execution.
Context `{Libm}.

(** The candidates of a group, by quantity and spend. *)
Lemma group_candidates (kb : Knowledge) (sku : string) (p : Product)
    (c : Candidate) :
  In c (group kb sku p) ->
  c = zero_candidate
  \/ (In (qty c) CANDIDATE_QTYS /\ spend c = ordercost p (qty c)).
Proof.
  unfold group.
  destruct (is_blocked kb sku); [intros [<- | []]; now left |].
  destruct (overstocked kb sku); [intros [<- | []]; now left |].
  intros Hin. right. unfold menu in Hin. apply prune_incl in Hin.
  destruct (shape_map kb sku p (map (candidate_utility kb sku p) CANDIDATE_QTYS))
    as (g & Eg & Hg).
  rewrite Eg in Hin. apply in_map_iff in Hin. destruct Hin as (c0 & <- & Hin).
  apply in_map_iff in Hin. destruct Hin as (q & <- & Hq).
  destruct (Hg (candidate_utility kb sku p q)) as [-> ->].
  destruct (candidate_utility_spend kb sku p q) as [-> ->]. now split.
Qed.

Lemma catalogue_costs (sku : string) (p : Product) (q : Z) :
  In (sku, p) PRODUCTS -> In q CANDIDATE_QTYS ->
  (0 <= q)%Z /\ (0 <= ordercost p q)%Q.
Proof.
  intros Hp Hq.
  assert (Hall :
    forallb (fun e =>
               forallb (fun q => (0 <=? q)%Z
                                 && Qle_bool 0 (ordercost (snd e) q))
                       CANDIDATE_QTYS)
            PRODUCTS = true) by (vm_compute; reflexivity).
  rewrite forallb_forall in Hall. specialize (Hall _ Hp).
  rewrite forallb_forall in Hall. specialize (Hall _ Hq).
  cbn [snd] in Hall. apply andb_prop in Hall. destruct Hall as [H1 H2].
  split; [now apply Z.leb_le | now apply Qle_bool_iff].
Qed.

(** The entries of [plan['orders']]: catalogue products, quantities of the
    candidate list, and the spend the executor recomputes. *)
Lemma planned_orders (x : Valuation) (kb : Knowledge) (sku : string)
    (o : Order) :
  In (sku, o) (map (order_entry x) (sku_groups kb)) ->
  (exists p, lookup_product sku PRODUCTS = Some p)
  /\ (0 <= o_qty o)%Z /\ (0 <= o_spend o)%Q
  /\ ((0 < o_qty o)%Z -> o_spend o = order_cost sku (o_qty o))
  /\ ((o_qty o <= 0)%Z -> (o_spend o == 0)%Q).
Proof.
  intros Hin. apply in_orders in Hin. destruct Hin as (p & Hp & ->).
  split; [exists p; now apply lookup_catalogue |].
  assert (Hne : group kb sku p <> []).
  { destruct (group_head kb sku p Hp) as (c0 & rest & -> & _). discriminate. }
  pose proof (pick_in (x sku) (group kb sku p) Hne) as Hc.
  set (c := pick (x sku) (group kb sku p)) in *.
  unfold order_of. cbn [o_qty o_spend].
  destruct (group_candidates kb sku p c Hc) as [-> | [Hq Hs]].
  - cbn. split; [lia |]. split; [discriminate |].
    split; [lia | reflexivity].
  - destruct (catalogue_costs sku p (qty c) Hp Hq) as [Hq0 Hc0].
    split; [exact Hq0 |]. rewrite Hs. split; [exact Hc0 |]. split.
    + intros Hpos. unfold order_cost, ordercost.
      rewrite (lookup_catalogue sku p Hp).
      now rewrite (proj2 (Z.ltb_lt 0 (qty c))) by exact Hpos.
    + intros Hle. assert (E : qty c = 0%Z) by lia. rewrite E.
      unfold ordercost. cbn. ring.
Qed.

Lemma fsum_drop_zero (ords : list (string * Order)) :
  (forall e, In e ords -> (o_qty (snd e) <= 0)%Z -> (o_spend (snd e) == 0)%Q) ->
  (Py.fsum (map (fun e => o_spend (snd e))
              (List.filter (fun e => (0 <? o_qty (snd e))%Z) ords))
   == Py.fsum (map (fun e => o_spend (snd e)) ords))%Q.
Proof.
  induction ords as [| e ords IH]; intros Hz; [reflexivity |].
  cbn [List.filter map].
  assert (IH' := IH (fun e' He' => Hz e' (or_intror He'))).
  destruct (Z.ltb_spec 0 (o_qty (snd e))) as [Hq | Hq]; cbn [map].
  - rewrite !fsum_cons, IH'. reflexivity.
  - rewrite fsum_cons, IH', (Hz e (or_introl eq_refl) Hq). ring.
Qed.

(** When the solver meets its contract and the store holds nothing as spent
    today, executing the plan never raises and places every entry of
    positive quantity, in the order of the plan and at the spend the plan
    gives for it; the spend the executor reports is the spend the plan
    announced, and it is within the daily limit. *)
Theorem plan_then_execute (randint : nat -> Z -> Z -> Z) (solve : Solver)
    (kb kb1 : Knowledge) (env : environment.Environment) (pl : Plan) :
  solved solve (plan_problem kb) ->
  (daily_budget_spent kb == 0)%Q ->
  plan solve kb = Some (pl, kb1) ->
  exists acts env' kb',
    executor.execute randint env kb1 pl = Some (acts, env', kb')
    /\ map placed_entry (executor.orders_placed acts)
       = map (fun e => (fst e, o_qty (snd e), o_spend (snd e)))
           (List.filter (fun e => (0 <? o_qty (snd e))%Z) (p_orders pl))
    /\ executor.act_spend acts = m_spend (p_meta pl)
    /\ (executor.act_spend acts <= DAILY_BUDGET_LIMIT)%Q.
Proof.
  intros Hsolved Hspent Hplan.
  assert (Hfeas : lp_feasible (plan_problem kb) (solve (plan_problem kb))).
  { apply Hsolved. exists (backends.first_choice (plan_problem kb)).
    apply first_choice_feasible. }
  destruct (plan_inv solve kb pl kb1 Hplan) as [Hpl Hkb1].
  set (x := solve (plan_problem kb)) in *.
  set (ords := map (order_entry x) (sku_groups kb)) in *.
  assert (Hords : p_orders pl = ords) by (now rewrite Hpl).
  assert (Hmeta : m_spend (p_meta pl)
                  = Py.round2 (spend_total x (sku_groups kb) 0))
    by (now rewrite Hpl).
  assert (Hd : daily_budget_spent kb1 = daily_budget_spent kb)
    by (rewrite Hkb1, generate_store; reflexivity).
  clear Hpl Hplan.
  assert (Hfacts : forall e, In e ords ->
            (exists p, lookup_product (fst e) PRODUCTS = Some p)
            /\ (0 <= o_qty (snd e))%Z /\ (0 <= o_spend (snd e))%Q
            /\ ((0 < o_qty (snd e))%Z ->
                o_spend (snd e) = order_cost (fst e) (o_qty (snd e)))
            /\ ((o_qty (snd e) <= 0)%Z -> (o_spend (snd e) == 0)%Q)).
  { intros [sku o] Hin. now apply (planned_orders x kb). }
  assert (Htotal : (Py.fsum (map (fun e => o_spend (snd e)) ords)
                    <= DAILY_BUDGET_LIMIT)%Q).
  { unfold ords. rewrite fsum_order_spends, spend_total_sum.
    - destruct Hfeas as (_ & _ & Hb). rewrite plan_problem_eq in Hb.
      cbn [lp_groups lp_budget] in Hb. lra.
    - intros sku cs Hin.
      apply (feasible_pick (plan_problem kb)); [exact Hfeas |].
      now rewrite plan_problem_eq. }
  assert (Hafford : forall e, In e ords ->
            affordable (daily_budget_spent kb1) e = (0 <? o_qty (snd e))%Z).
  { intros e He. unfold affordable.
    destruct (Z.ltb_spec 0 (o_qty (snd e))) as [Hq | Hq]; [| reflexivity].
    cbn [andb]. apply negb_true_iff, Qltb_ge.
    destruct (Hfacts e He) as (_ & _ & _ & Hc & _). rewrite <- (Hc Hq).
    assert (o_spend (snd e) <= Py.fsum (map (fun e => o_spend (snd e)) ords))%Q.
    { apply fsum_member_le.
      - intros z Hz. apply in_map_iff in Hz. destruct Hz as (e' & <- & He').
        now destruct (Hfacts e' He') as (_ & _ & Hs & _).
      - apply in_map_iff. now exists e. }
    rewrite Hd, Hspent. lra. }
  destruct (executor.execute randint env kb1 pl)
    as [[[acts env'] kb'] |] eqn:Ex.
  2:{ exfalso. unfold executor.execute in Ex.
      destruct (executor.execute_orders _ _ _) as [st' |] eqn:Eo;
        [discriminate Ex |].
      apply execute_orders_none in Eo.
      destruct Eo as (e & Hin & Hq & Hn). rewrite Hords in Hin.
      destruct (Hfacts e Hin) as ((p & Hp) & _). congruence. }
  exists acts, env', kb'. split; [reflexivity |].
  apply execute_inv in Ex. destruct Ex as (st' & Ex & Epl & Hact & _).
  apply execute_orders_spec in Ex.
  destruct Ex as (news & P1 & Hplaced & P3 & _).
  cbn in P1, Hplaced, P3. rewrite <- Epl in P1. subst news.
  rewrite P3 in Hact. fold (Py.fsum (map executor.pl_spend
                                       (executor.orders_placed acts))) in Hact.
  rewrite Hords in *.
  rewrite (List.filter_ext_in _ _ ords Hafford) in Hplaced.
  assert (Hentries :
    map planned_entry (List.filter (fun e => (0 <? o_qty (snd e))%Z) ords)
    = map (fun e => (fst e, o_qty (snd e), o_spend (snd e)))
        (List.filter (fun e => (0 <? o_qty (snd e))%Z) ords)).
  { apply map_ext_in. intros e He. apply List.filter_In in He.
    destruct He as [He Hq]. apply Z.ltb_lt in Hq.
    destruct (Hfacts e He) as (_ & _ & _ & Hc & _).
    unfold planned_entry. now rewrite <- (Hc Hq). }
  rewrite Hentries in Hplaced. split; [exact Hplaced |].
  assert (Hsp : map executor.pl_spend (executor.orders_placed acts)
                = map (fun e => o_spend (snd e))
                    (List.filter (fun e => (0 <? o_qty (snd e))%Z) ords)).
  { transitivity (map snd (map placed_entry (executor.orders_placed acts))).
    - rewrite map_map. reflexivity.
    - rewrite Hplaced, map_map. reflexivity. }
  assert (Hsum : (Py.fsum (map executor.pl_spend (executor.orders_placed acts))
                  == spend_total x (sku_groups kb) 0)%Q).
  { rewrite Hsp, fsum_drop_zero.
    - unfold ords. now rewrite fsum_order_spends.
    - intros e He. now destruct (Hfacts e He) as (_ & _ & _ & _ & Hz). }
  rewrite Hact, Hmeta. split; [now apply round2_compat |].
  apply (round2_le_int _ 30000). rewrite Hsum.
  unfold ords in Htotal. rewrite fsum_order_spends in Htotal. exact Htotal.
Qed.

End plan_execution.

(** The store after a week of shortages, analysed: the plan orders 25
    laptops and 25 phones, and the executor places both. *)
Lemma plan_then_execute_witness :
  exists pl kb1 acts env' kb',
    @plan fixedpoint.libm backends.enumerate
          (fst (@analyze fixedpoint.libm kb_short)) = Some (pl, kb1)
    /\ executor.execute rng_low env_init kb1 pl = Some (acts, env', kb')
    /\ map placed_entry (executor.orders_placed acts)
       = [("SKU_001", 25%Z, 13800%Q); ("SKU_002", 25%Z, 8795%Q)]
    /\ executor.act_spend acts = m_spend (p_meta pl)
    /\ (executor.act_spend acts == 22595)%Q.
Proof.
  destruct (@plan fixedpoint.libm backends.enumerate
              (fst (@analyze fixedpoint.libm kb_short)))
    as [[pl kb1] |] eqn:E;
    [| rewrite (@plan_spec fixedpoint.libm) in E; discriminate E].
  destruct (@plan_then_execute fixedpoint.libm rng_low backends.enumerate
              (fst (@analyze fixedpoint.libm kb_short)) kb1 env_init pl)
    as (acts & env' & kb' & Ex & Hplaced & Hs & _).
  - apply enumerate_solved. rewrite (@plan_problem_eq fixedpoint.libm).
    cbn [lp_groups]. rewrite (@sku_groups_keys fixedpoint.libm).
    exact products_nodup.
  - vm_compute. reflexivity.
  - exact E.
  - assert (E' := E). vm_compute in E'. injection E' as Hpl _.
    exists pl, kb1, acts, env', kb'.
    split; [reflexivity |]. split; [exact Ex |].
    split; [rewrite Hplaced, <- Hpl; vm_compute; reflexivity |].
    split; [exact Hs |].
    rewrite Hs, <- Hpl. vm_compute. reflexivity.
Defined.

(** ** The daily tick of the environment (environment.py) *)

Lemma arrived_cons (today : Z) (o : environment.PendingOrder)
    (os : list environment.PendingOrder) (sku : string) :
  arrived today (o :: os) sku
  = ((if due today o && String.eqb (environment.e_sku o) sku
      then environment.e_quantity o else 0) + arrived today os sku)%Z.
Proof.
  unfold arrived. cbn [List.filter].
  destruct (due today o && String.eqb (environment.e_sku o) sku); cbn [map].
  - apply isum_cons.
  - lia.
Qed.

(** The arrivals loop from any state. *)
Lemma receive_all_spec (today : Z) (pending : list environment.PendingOrder) :
  forall st,
    match environment.receive_all today st pending with
    | Some r =>
        environment.r_remaining r
        = environment.r_remaining st
          ++ List.filter (fun o => negb (due today o)) pending
        /\ environment.r_arrivals r
           = environment.r_arrivals st
             ++ map (arrival_of today) (List.filter (due today) pending)
        /\ (forall sku,
              environment.r_stock r !! sku
              = option_map (fun s => (s + arrived today pending sku)%Z)
                           (environment.r_stock st !! sku))
        /\ (forall o, In o pending -> due today o = true ->
              is_Some (environment.r_stock st !! environment.e_sku o))
    | None =>
        exists o, In o pending /\ due today o = true
                  /\ environment.r_stock st !! environment.e_sku o = None
    end.
Proof.
  induction pending as [| o os IH]; intros st; cbn [environment.receive_all].
  - rewrite !app_nil_r. repeat split; try reflexivity.
    + intros sku. destruct (environment.r_stock st !! sku); cbn; [| reflexivity].
      f_equal. unfold arrived. cbn. lia.
    + intros o [].
  - unfold environment.receive. fold (due today o). cbn [List.filter].
    destruct (due today o) eqn:Ed; cbn [negb].
    + destruct (environment.r_stock st !! environment.e_sku o) as [s |] eqn:Es.
      2:{ exists o. repeat split; [now left | exact Ed | exact Es]. }
      match goal with |- context [environment.receive_all today ?s1 os] =>
        specialize (IH s1) end.
      destruct (environment.receive_all today _ os) as [r |].
      * cbn [environment.r_stock environment.r_arrivals
             environment.r_remaining] in IH.
        destruct IH as (I1 & I2 & I3 & I4).
        split; [exact I1 |].
        split; [rewrite I2, <- app_assoc; reflexivity |].
        split.
        -- intros sku. rewrite I3, arrived_cons, Ed. cbn [andb].
           destruct (String.eqb_spec (environment.e_sku o) sku) as [<- | Hne].
           ++ rewrite lookup_insert_eq, Es. cbn. f_equal. lia.
           ++ rewrite lookup_insert_ne by exact Hne.
              destruct (environment.r_stock st !! sku); cbn; [| reflexivity].
              f_equal.
        -- intros o' [<- | Hin] Hd; [rewrite Es; now eexists |].
           specialize (I4 o' Hin Hd).
           destruct (String.eqb_spec (environment.e_sku o)
                       (environment.e_sku o')) as [E | Hne].
           ++ rewrite <- E, Es. now eexists.
           ++ now rewrite lookup_insert_ne in I4 by exact Hne.
      * cbn [environment.r_stock] in IH.
        destruct IH as (o' & Hin & Hd & Hn). exists o'.
        split; [now right |]. split; [exact Hd |].
        destruct (String.eqb_spec (environment.e_sku o)
                    (environment.e_sku o')) as [E | Hne].
        -- rewrite <- E, lookup_insert_eq in Hn. discriminate Hn.
        -- now rewrite lookup_insert_ne in Hn by exact Hne.
    + match goal with |- context [environment.receive_all today ?s1 os] =>
        specialize (IH s1) end.
      destruct (environment.receive_all today _ os) as [r |].
      * cbn [environment.r_stock environment.r_arrivals
             environment.r_remaining] in IH.
        destruct IH as (I1 & I2 & I3 & I4).
        split; [rewrite I1, <- app_assoc; reflexivity |].
        split; [exact I2 |]. split.
        -- intros sku. rewrite I3, arrived_cons, Ed. cbn [andb].
           destruct (environment.r_stock st !! sku); cbn; [| reflexivity].
           f_equal.
        -- intros o' [<- | Hin] Hd; [congruence | now apply I4].
      * cbn [environment.r_stock] in IH.
        destruct IH as (o' & Hin & Hd & Hn). exists o'.
        split; [now right |]. now split.
Qed.

Section ticking.
Variable gauss : nat -> Q -> Q -> Q.

(** The sales loop from any state, over distinct products. *)
Lemma sell_all_spec (ids : list string) :
  List.NoDup ids ->
  forall st,
    match environment.sell_all gauss st ids with
    | Some s =>
        environment.e_day (environment.s_env s)
        = environment.e_day (environment.s_env st)
        /\ environment.e_pending_orders (environment.s_env s)
           = environment.e_pending_orders (environment.s_env st)
        /\ environment.e_demand_multiplier (environment.s_env s)
           = environment.e_demand_multiplier (environment.s_env st)
        /\ environment.e_lead_time_multiplier (environment.s_env s)
           = environment.e_lead_time_multiplier (environment.s_env st)
        /\ environment.e_draws (environment.s_env s)
           = (environment.e_draws (environment.s_env st) + length ids)%nat
        /\ (forall sku, In sku ids ->
              exists n p available,
                let d := drawn_demand gauss n
                           (environment.e_demand_multiplier
                              (environment.s_env st)) p in
                (environment.e_draws (environment.s_env st) <= n
                 < environment.e_draws (environment.s_env st) + length ids)%nat
                /\ lookup_product sku PRODUCTS = Some p
                /\ environment.e_stock (environment.s_env st) !! sku
                   = Some available
                /\ environment.s_demand s !! sku = Some d
                /\ environment.s_sales s !! sku = Some (Z.min d available)
                /\ environment.s_lost_sales s !! sku
                   = Some (d - Z.min d available)%Z
                /\ environment.e_stock (environment.s_env s) !! sku
                   = Some (available - Z.min d available)%Z)
        /\ (forall sku, ~ In sku ids ->
              environment.s_demand s !! sku = environment.s_demand st !! sku
              /\ environment.s_sales s !! sku
                 = environment.s_sales st !! sku
              /\ environment.s_lost_sales s !! sku
                 = environment.s_lost_sales st !! sku
              /\ environment.e_stock (environment.s_env s) !! sku
                 = environment.e_stock (environment.s_env st) !! sku)
    | None =>
        exists sku, In sku ids
                    /\ (lookup_product sku PRODUCTS = None
                        \/ environment.e_stock (environment.s_env st) !! sku
                           = None)
    end.
Proof.
  induction ids as [| id ids IH]; intros Hnd st; cbn [environment.sell_all].
  - rewrite Nat.add_0_r. repeat split; try reflexivity. intros sku [].
  - inversion Hnd as [| ? ? Hnotin Hnd']; subst.
    unfold environment.sell, environment._generate_demand.
    destruct (lookup_product id PRODUCTS) as [p |] eqn:Ep.
    2:{ exists id. split; [now left | now left]. }
    cbv zeta. cbn [environment.e_stock environment.set_draws].
    destruct (environment.e_stock (environment.s_env st) !! id)
      as [available |] eqn:Es.
    2:{ exists id. split; [now left | now right]. }
    match goal with |- context [environment.sell_all gauss ?s1 ids] =>
      specialize (IH Hnd' s1) end.
    fold (drawn_demand gauss (environment.e_draws (environment.s_env st))
            (environment.e_demand_multiplier (environment.s_env st)) p) in *.
    set (d := drawn_demand gauss (environment.e_draws (environment.s_env st))
                (environment.e_demand_multiplier (environment.s_env st)) p)
      in *.
    destruct (environment.sell_all gauss _ ids) as [s |].
    + cbn [environment.s_env environment.s_demand environment.s_sales
           environment.s_lost_sales environment.set_stock
           environment.set_draws environment.e_day environment.e_stock
           environment.e_pending_orders environment.e_demand_multiplier
           environment.e_lead_time_multiplier environment.e_draws] in IH.
      destruct IH as (I1 & I2 & I3 & I4 & I5 & I6 & I7).
      repeat (split; [assumption |]).
      split; [rewrite I5; cbn [length]; lia |]. split.
      * intros sku [<- | Hin].
        -- destruct (I7 id Hnotin) as (J1 & J2 & J3 & J4).
           exists (environment.e_draws (environment.s_env st)), p, available.
           cbv zeta. fold d.
           rewrite J1, J2, J3, J4, !lookup_insert_eq.
           cbn [length]. repeat split; try reflexivity; try assumption; lia.
        -- destruct (I6 sku Hin) as (n & p' & av & Hb & Hp & Hst & J).
           assert (Hne : id <> sku) by (intros ->; contradiction).
           rewrite lookup_insert_ne in Hst by exact Hne.
           exists n, p', av. cbv zeta in *.
           split; [cbn [length]; lia |]. split; [exact Hp |].
           split; [exact Hst | exact J].
      * intros sku Hn. cbn [In] in Hn.
        assert (Hne : id <> sku) by tauto.
        destruct (I7 sku) as (J1 & J2 & J3 & J4); [tauto |].
        rewrite J1, J2, J3, J4, !lookup_insert_ne by exact Hne.
        repeat split; reflexivity.
    + cbn [environment.s_env environment.set_stock environment.e_stock] in IH.
      destruct IH as (sku & Hin & [Hn | Hn]).
      * exists sku. split; [now right | now left].
      * exists sku. split; [now right |]. right.
        destruct (String.eqb_spec id sku) as [-> | Hne].
        -- rewrite lookup_insert_eq in Hn. discriminate Hn.
        -- now rewrite lookup_insert_ne in Hn by exact Hne.
Qed.

Lemma tick_inv (env env' : environment.Environment) (out : Outcome) :
  environment.tick_one_day gauss env = Some (out, env') ->
  exists r s,
    environment.receive_all (environment.e_day env + 1)
      {| environment.r_stock := environment.e_stock env;
         environment.r_arrivals := []; environment.r_remaining := [] |}
      (environment.e_pending_orders env) = Some r
    /\ environment.sell_all gauss
         {| environment.s_env :=
              {| environment.e_day := (environment.e_day env + 1)%Z;
                 environment.e_stock := environment.r_stock r;
                 environment.e_pending_orders := environment.r_remaining r;
                 environment.e_demand_multiplier :=
                   environment.e_demand_multiplier env;
                 environment.e_lead_time_multiplier :=
                   environment.e_lead_time_multiplier env;
                 environment.e_draws := environment.e_draws env |};
            environment.s_demand := ∅; environment.s_sales := ∅;
            environment.s_lost_sales := ∅ |} skus = Some s
    /\ out = {| out_demand := environment.s_demand s;
                out_sales := environment.s_sales s;
                out_lost_sales := environment.s_lost_sales s;
                out_arrivals := environment.r_arrivals r |}
    /\ env' = environment.s_env s.
Proof.
  unfold environment.tick_one_day. cbv zeta.
  destruct (environment.receive_all _ _ _) as [r |] eqn:Er; [| discriminate].
  destruct (environment.sell_all _ _ _) as [s |] eqn:Es; [| discriminate].
  intros [= <- <-]. exists r, s. repeat split; [exact Es].
Qed.

(** [tick_one_day] raises exactly when the stock dictionary has no entry
    for the product of a pending order that is due, or for a product of the
    catalogue. *)
Theorem tick_fails_iff (env : environment.Environment) :
  environment.tick_one_day gauss env = None
  <-> (exists o, In o (environment.e_pending_orders env)
                 /\ (environment.e_arrival_day o
                     <= environment.e_day env + 1)%Z
                 /\ environment.e_stock env !! environment.e_sku o = None)
      \/ (exists sku, In sku skus /\ environment.e_stock env !! sku = None).
Proof.
  unfold environment.tick_one_day. cbv zeta.
  match goal with |- context [environment.receive_all ?t ?s0 ?l] =>
    pose proof (receive_all_spec t l s0) as HR end.
  destruct (environment.receive_all _ _ _) as [r |].
  - cbn [environment.r_stock] in HR. destruct HR as (_ & _ & R3 & R4).
    match goal with |- context [environment.sell_all gauss ?s0 skus] =>
      pose proof (sell_all_spec skus products_nodup s0) as HS end.
    destruct (environment.sell_all _ _ _) as [s |].
    + cbn [environment.s_env environment.e_stock] in HS.
      destruct HS as (_ & _ & _ & _ & _ & S6 & _).
      split; [discriminate |]. intros [(o & Hin & Hd & Hn) | (sku & Hin & Hn)].
      * exfalso. destruct (R4 o Hin) as [v Hv]; [now apply Z.leb_le |].
        congruence.
      * exfalso. destruct (S6 sku Hin) as (n & p & av & _ & _ & Hst & _).
        rewrite R3, Hn in Hst. discriminate Hst.
    + split; [| reflexivity]. intros _. right.
      cbn [environment.s_env environment.e_stock] in HS.
      destruct HS as (sku & Hin & [Hn | Hn]).
      * exfalso. apply in_skus in Hin. destruct Hin as (p & Hp).
        rewrite (lookup_catalogue sku p Hp) in Hn. discriminate Hn.
      * exists sku. split; [exact Hin |]. rewrite R3 in Hn.
        now destruct (environment.e_stock env !! sku).
  - split; [| reflexivity]. intros _. left.
    cbn [environment.r_stock] in HR. destruct HR as (o & Hin & Hd & Hn).
    exists o. split; [exact Hin |]. split; [now apply Z.leb_le | exact Hn].
Qed.

(** A tick moves the day on by one, takes the pending orders whose arrival
    day has come out of the queue, in order, and reports one arrival for
    each, stamped with the new day; every order it leaves pending arrives
    on a later day; the scenario multipliers are unchanged and the
    generator is drawn from once per catalogue product. *)
Theorem tick_deliveries (env env' : environment.Environment) (out : Outcome) :
  environment.tick_one_day gauss env = Some (out, env') ->
  let today := (environment.e_day env + 1)%Z in
  environment.e_day env' = today
  /\ environment.e_pending_orders env'
     = List.filter (fun o => negb (due today o))
         (environment.e_pending_orders env)
  /\ out_arrivals out
     = map (arrival_of today)
         (List.filter (due today) (environment.e_pending_orders env))
  /\ (forall o, In o (environment.e_pending_orders env') ->
        (environment.e_day env' < environment.e_arrival_day o)%Z)
  /\ environment.e_demand_multiplier env'
     = environment.e_demand_multiplier env
  /\ environment.e_lead_time_multiplier env'
     = environment.e_lead_time_multiplier env
  /\ environment.e_draws env'
     = (environment.e_draws env + length skus)%nat.
Proof.
  intros Ht. apply tick_inv in Ht. destruct Ht as (r & s & Hr & Hs & -> & ->).
  match type of Hr with environment.receive_all ?t ?s0 ?l = _ =>
    pose proof (receive_all_spec t l s0) as HR end.
  rewrite Hr in HR. cbn in HR. destruct HR as (R1 & R2 & _).
  match type of Hs with environment.sell_all gauss ?s0 skus = _ =>
    pose proof (sell_all_spec skus products_nodup s0) as HS end.
  rewrite Hs in HS. cbn [environment.s_env environment.e_day
    environment.e_pending_orders environment.e_demand_multiplier
    environment.e_lead_time_multiplier environment.e_draws] in HS.
  destruct HS as (S1 & S2 & S3 & S4 & S5 & _).
  cbv zeta. cbn [out_arrivals].
  rewrite S1, S2, S3, S4, S5, R1, R2.
  repeat split; try reflexivity.
  intros o Hin. apply List.filter_In in Hin. destruct Hin as [_ Hd].
  unfold due in Hd. apply negb_true_iff, Z.leb_gt in Hd. exact Hd.
Qed.

(** What a tick does for a product of the catalogue: the demand is the
    draw for the product under the demand multiplier, rounded and cut at 0;
    the stock available is the stock on hand plus what arrived today for
    the product; sales are the smaller of demand and available stock, lost
    sales the rest of the demand, and the stock goes down by the sales.
    Other products have no entry in the outcome and only receive what
    arrived. *)
Theorem tick_sales (env env' : environment.Environment) (out : Outcome) :
  environment.tick_one_day gauss env = Some (out, env') ->
  (forall sku, In sku skus ->
     exists n p on_hand,
       let d := drawn_demand gauss n (environment.e_demand_multiplier env) p in
       let available :=
         (on_hand + arrived (environment.e_day env + 1)
                      (environment.e_pending_orders env) sku)%Z in
       (environment.e_draws env <= n
        < environment.e_draws env + length skus)%nat
       /\ lookup_product sku PRODUCTS = Some p
       /\ environment.e_stock env !! sku = Some on_hand
       /\ out_demand out !! sku = Some d
       /\ out_sales out !! sku = Some (Z.min d available)
       /\ out_lost_sales out !! sku = Some (d - Z.min d available)%Z
       /\ environment.e_stock env' !! sku
          = Some (available - Z.min d available)%Z)
  /\ (forall sku, ~ In sku skus ->
        out_demand out !! sku = None /\ out_sales out !! sku = None
        /\ out_lost_sales out !! sku = None
        /\ environment.e_stock env' !! sku
           = option_map
               (fun s => (s + arrived (environment.e_day env + 1)
                                (environment.e_pending_orders env) sku)%Z)
               (environment.e_stock env !! sku)).
Proof.
  intros Ht. apply tick_inv in Ht. destruct Ht as (r & s & Hr & Hs & -> & ->).
  match type of Hr with environment.receive_all ?t ?s0 ?l = _ =>
    pose proof (receive_all_spec t l s0) as HR end.
  rewrite Hr in HR. cbn [environment.r_stock] in HR.
  destruct HR as (_ & _ & R3 & _).
  match type of Hs with environment.sell_all gauss ?s0 skus = _ =>
    pose proof (sell_all_spec skus products_nodup s0) as HS end.
  rewrite Hs in HS. cbn [environment.s_env environment.s_demand
    environment.s_sales environment.s_lost_sales environment.e_stock
    environment.e_demand_multiplier environment.e_draws] in HS.
  destruct HS as (_ & _ & _ & _ & _ & S6 & S7).
  cbn [out_demand out_sales out_lost_sales]. split.
  - intros sku Hin.
    destruct (S6 sku Hin) as (n & p & av & Hb & Hp & Hst & J).
    rewrite R3 in Hst.
    destruct (environment.e_stock env !! sku) as [on_hand |] eqn:Eo;
      [| discriminate Hst].
    cbn in Hst. injection Hst as <-.
    exists n, p, on_hand. cbv zeta in *.
    split; [exact Hb |]. split; [exact Hp |]. split; [reflexivity | exact J].
  - intros sku Hn. destruct (S7 sku Hn) as (J1 & J2 & J3 & J4).
    rewrite J1, J2, J3, J4, R3, !lookup_empty. repeat split; reflexivity.
Qed.

Lemma arrived_nonneg (today : Z) (pending : list environment.PendingOrder)
    (sku : string) :
  (forall o, In o pending -> (0 <= environment.e_quantity o)%Z) ->
  (0 <= arrived today pending sku)%Z.
Proof.
  induction pending as [| o os IH]; intros Hq.
  - unfold arrived. cbn. lia.
  - rewrite arrived_cons.
    assert (0 <= arrived today os sku)%Z
      by (apply IH; intros o' Ho'; apply Hq; now right).
    assert (0 <= environment.e_quantity o)%Z by (apply Hq; now left).
    destruct (due today o && String.eqb (environment.e_sku o) sku); lia.
Qed.

(** Stock never goes negative: when no stock entry is negative and no
    pending order has a negative quantity, a tick leaves no stock entry
    negative, and the sales and lost sales it reports are not negative and
    add up to the demand. *)
Theorem tick_stock_nonneg (env env' : environment.Environment)
    (out : Outcome) :
  (forall sku s, environment.e_stock env !! sku = Some s -> (0 <= s)%Z) ->
  (forall o, In o (environment.e_pending_orders env) ->
     (0 <= environment.e_quantity o)%Z) ->
  environment.tick_one_day gauss env = Some (out, env') ->
  (forall sku s, environment.e_stock env' !! sku = Some s -> (0 <= s)%Z)
  /\ (forall sku, In sku skus ->
        exists d sold lost,
          out_demand out !! sku = Some d /\ out_sales out !! sku = Some sold
          /\ out_lost_sales out !! sku = Some lost
          /\ (0 <= sold)%Z /\ (0 <= lost)%Z /\ (sold + lost = d)%Z).
Proof.
  intros Hstock Hqty Ht. apply tick_inv in Ht.
  destruct Ht as (r & s & Hr & Hs & -> & ->).
  match type of Hr with environment.receive_all ?t ?s0 ?l = _ =>
    pose proof (receive_all_spec t l s0) as HR end.
  rewrite Hr in HR. cbn [environment.r_stock] in HR.
  destruct HR as (_ & _ & R3 & _).
  match type of Hs with environment.sell_all gauss ?s0 skus = _ =>
    pose proof (sell_all_spec skus products_nodup s0) as HS end.
  rewrite Hs in HS. cbn [environment.s_env environment.s_demand
    environment.s_sales environment.s_lost_sales environment.e_stock
    environment.e_demand_multiplier environment.e_draws] in HS.
  destruct HS as (_ & _ & _ & _ & _ & S6 & S7).
  cbn [out_demand out_sales out_lost_sales].
  assert (Hav : forall sku av, environment.r_stock r !! sku = Some av ->
                               (0 <= av)%Z).
  { intros sku av Hav. rewrite R3 in Hav.
    destruct (environment.e_stock env !! sku) as [s0 |] eqn:E0;
      [| discriminate Hav].
    cbn in Hav. injection Hav as <-.
    pose proof (Hstock sku s0 E0).
    pose proof (arrived_nonneg (environment.e_day env + 1)
                  (environment.e_pending_orders env) sku Hqty).
    lia. }
  split.
  - intros sku v Hv.
    destruct (in_dec String.string_dec sku skus) as [Hin | Hn].
    + destruct (S6 sku Hin) as (n & p & av & _ & _ & Hst & _ & _ & _ & Hs').
      cbv zeta in Hs'. rewrite Hs' in Hv. injection Hv as <-.
      pose proof (Hav sku av Hst). unfold drawn_demand. lia.
    + destruct (S7 sku Hn) as (_ & _ & _ & J4). rewrite J4 in Hv.
      now apply (Hav sku).
  - intros sku Hin.
    destruct (S6 sku Hin) as (n & p & av & _ & _ & Hst & Hd & Hsl & Hl & _).
    cbv zeta in Hd, Hsl, Hl. pose proof (Hav sku av Hst).
    eexists _, _, _. split; [exact Hd |]. split; [exact Hsl |].
    split; [exact Hl |]. unfold drawn_demand. lia.
Qed.

End ticking.

Lemma tick_deliveries_witness :
  exists out env',
    environment.tick_one_day rng_mean env_due = Some (out, env')
    /\ environment.e_day env' = 1%Z
    /\ environment.e_pending_orders env'
       = List.filter (fun o => negb (due 1 o))
           (environment.e_pending_orders env_due).
Proof.
  destruct (environment.tick_one_day rng_mean env_due)
    as [[out env'] |] eqn:E; [| vm_compute in E; discriminate E].
  exists out, env'. split; [reflexivity |].
  destruct (tick_deliveries rng_mean _ _ _ E) as (H1 & H2 & _).
  split; [exact H1 | exact H2].
Defined.

Lemma tick_sales_witness :
  exists out env',
    environment.tick_one_day rng_mean env_due = Some (out, env')
    /\ out_demand out !! "SKU_004" = Some 70%Z
    /\ out_sales out !! "SKU_004" = Some 70%Z
    /\ environment.e_stock env' !! "SKU_004" = Some 730%Z.
Proof.
  destruct (environment.tick_one_day rng_mean env_due)
    as [[out env'] |] eqn:E; [| vm_compute in E; discriminate E].
  exists out, env'. split; [reflexivity |].
  destruct (proj1 (tick_sales rng_mean _ _ _ E) "SKU_004")
    as (n & p & on_hand & _ & Hp & Ho & Hd & Hs & _ & Hst).
  - vm_compute. tauto.
  - vm_compute in Hp. injection Hp as <-.
    vm_compute in Ho. injection Ho as <-.
    cbv zeta in Hd, Hs, Hst. rewrite Hd, Hs, Hst.
    repeat split; vm_compute; reflexivity.
Defined.

Lemma tick_stock_nonneg_witness :
  exists out env',
    environment.tick_one_day rng_mean env_due = Some (out, env')
    /\ forall sku s, environment.e_stock env' !! sku = Some s -> (0 <= s)%Z.
Proof.
  destruct (environment.tick_one_day rng_mean env_due)
    as [[out env'] |] eqn:E; [| vm_compute in E; discriminate E].
  exists out, env'. split; [reflexivity |].
  apply (tick_stock_nonneg rng_mean env_due env' out).
  - apply map_Forall_lookup, map_Forall_to_list. vm_compute.
    repeat constructor; discriminate.
  - intros o Hin. vm_compute in Hin.
    repeat (destruct Hin as [<- | Hin]; [cbn; lia |]). destruct Hin.
  - exact E.
Defined.

(** ** What the monitor records (monitor.py) *)

(** [observe] copies the day, the stock and the pending orders of the
    environment into the store and resets the amount spent today, so that
    the stock position the planner reads for a product is the stock of the
    environment plus the quantities of its pending orders for that product;
    it appends the outcome to every history with the day of the
    environment, and leaves the budget, the order log, the analysis tables,
    the policies, the safety factors and the blocks alone. *)
Theorem observe_snapshot (env : environment.Environment) (outcome : Outcome)
    (kb : Knowledge) :
  let kb' := snd (monitor.observe env outcome kb) in
  fst (monitor.observe env outcome kb)
  = {| monitor.ob_day := environment.e_day env;
       monitor.ob_stock := environment.e_stock env;
       monitor.ob_outcome := outcome |}
  /\ day kb' = environment.e_day env
  /\ daily_budget_spent kb' = 0%Q
  /\ stock_levels kb' = environment.e_stock env
  /\ (forall sku,
        get_stock_position kb' sku
        = (default 0%Z (environment.e_stock env !! sku)
           + Py.isum (map environment.e_quantity
                        (List.filter
                           (fun o => String.eqb (environment.e_sku o) sku)
                           (environment.e_pending_orders env))))%Z)
  /\ (forall sku,
        history kb' !! sku
        = option_map
            (fun h => h ++ [outcome_record (environment.e_day env)
                              outcome sku])
            (history kb !! sku))
  /\ budget kb' = budget kb /\ orders kb' = orders kb
  /\ forecast kb' = forecast kb /\ volatility kb' = volatility kb
  /\ service_level kb' = service_level kb /\ anomalies kb' = anomalies kb
  /\ policies kb' = policies kb /\ safety_z kb' = safety_z kb
  /\ blocks kb' = blocks kb.
Proof.
  unfold monitor.observe. cbv zeta. cbn [fst snd].
  split; [reflexivity |]. split; [reflexivity |]. split; [reflexivity |].
  split; [reflexivity |]. split.
  - intros sku. unfold get_stock_position, get_stock.
    cbn [stock_levels pending_orders record_outcome set_history
         set_pending_orders update_stock_levels].
    f_equal. f_equal.
    induction (environment.e_pending_orders env) as [| o os IH];
      [reflexivity |].
    cbn [map List.filter monitor.snapshot po_sku].
    destruct (String.eqb (environment.e_sku o) sku); cbn [map po_qty];
      now rewrite IH.
  - split.
    + intros sku. unfold record_outcome. cbn [history set_history].
      rewrite map_lookup_imap. cbn. now destruct (history kb !! sku).
    + repeat split; reflexivity.
Qed.

Section cycle.
Variable gauss : nat -> Q -> Q -> Q.

(** A tick followed by [observe], as the main loop runs them: for a product
    of the catalogue that has a history, the store gains one record, dated
    with the new day, whose sales and lost sales add up to its demand; when
    no stock entry and no pending quantity was negative, its sales lie
    between 0 and the demand. *)
Theorem tick_observe_history (env env' : environment.Environment)
    (out : Outcome) (kb : Knowledge) (sku : string)
    (h : list DemandRecord) :
  environment.tick_one_day gauss env = Some (out, env') ->
  In sku skus ->
  history kb !! sku = Some h ->
  exists r,
    history (snd (monitor.observe env' out kb)) !! sku = Some (h ++ [r])
    /\ d_day r = (environment.e_day env + 1)%Z
    /\ (d_sales r + d_lost_sales r = d_demand r)%Z
    /\ (0 <= d_lost_sales r)%Z /\ (d_sales r <= d_demand r)%Z
    /\ ((forall k s, environment.e_stock env !! k = Some s -> (0 <= s)%Z) ->
        (forall o, In o (environment.e_pending_orders env) ->
           (0 <= environment.e_quantity o)%Z) ->
        (0 <= d_sales r)%Z).
Proof.
  intros Ht Hin Hh.
  assert (Hday : environment.e_day env' = (environment.e_day env + 1)%Z).
  { apply tick_inv in Ht. destruct Ht as (r & s & Hr & Hs & _ & ->).
    match type of Hs with environment.sell_all gauss ?s0 skus = _ =>
      pose proof (sell_all_spec gauss skus products_nodup s0) as HS end.
    rewrite Hs in HS. now destruct HS as (S1 & _). }
  apply tick_inv in Ht. destruct Ht as (r & s & Hr & Hs & -> & ->).
  match type of Hr with environment.receive_all ?t ?s0 ?l = _ =>
    pose proof (receive_all_spec t l s0) as HR end.
  rewrite Hr in HR. cbn [environment.r_stock] in HR.
  destruct HR as (_ & _ & R3 & _).
  match type of Hs with environment.sell_all gauss ?s0 skus = _ =>
    pose proof (sell_all_spec gauss skus products_nodup s0) as HS end.
  rewrite Hs in HS. cbn [environment.s_env environment.s_demand
    environment.s_sales environment.s_lost_sales environment.e_stock
    environment.e_demand_multiplier environment.e_draws] in HS.
  destruct HS as (_ & _ & _ & _ & _ & S6 & _).
  destruct (S6 sku Hin) as (n & p & av & _ & _ & Hst & Hd & Hsl & Hl & _).
  cbv zeta in Hd, Hsl, Hl.
  eexists. split.
  - unfold monitor.observe. cbv zeta. cbn [snd]. unfold record_outcome.
    cbn [history set_history update_day set_day set_daily_budget_spent
         update_stock_levels set_pending_orders day].
    rewrite map_lookup_imap, Hh. cbn. reflexivity.
  - unfold outcome_record. cbn [d_day d_demand d_sales d_lost_sales
      out_demand out_sales out_lost_sales].
    rewrite Hd, Hsl, Hl. cbn [default]. unfold id.
    split; [exact Hday |]. unfold drawn_demand.
    split; [lia |]. split; [lia |]. split; [lia |].
    intros Hstock Hqty.
    assert (0 <= av)%Z.
    { rewrite R3 in Hst.
      destruct (environment.e_stock env !! sku) as [s0 |] eqn:E0;
        [| discriminate Hst].
      cbn in Hst. injection Hst as <-.
      pose proof (Hstock sku s0 E0).
      pose proof (arrived_nonneg (environment.e_day env + 1)
                    (environment.e_pending_orders env) sku Hqty).
      lia. }
    lia.
Qed.

End cycle.

Lemma tick_observe_history_witness :
  exists out env' r,
    environment.tick_one_day rng_mean env_due = Some (out, env')
    /\ history (snd (monitor.observe env' out knowledge.init)) !! "SKU_001"
       = Some ([] ++ [r])
    /\ (d_sales r + d_lost_sales r = d_demand r)%Z.
Proof.
  destruct (environment.tick_one_day rng_mean env_due)
    as [[out env'] |] eqn:E; [| vm_compute in E; discriminate E].
  destruct (tick_observe_history rng_mean env_due env' out knowledge.init
              "SKU_001" [] E) as (r & Hr & _ & Hs & _).
  - vm_compute. tauto.
  - vm_compute. reflexivity.
  - exists out, env', r. repeat split; assumption.
Defined.

(** ** Lead times (environment.py, [place_order]) *)



